(** * Resume exporter: text sanitizer, validators, date formatter and
      pagination engine of [PDFGenerator.generateTextPDF]

    The repository ships two revisions of the exporter class
    [PDFGenerator]: the current one (with [validateReference],
    [isValidSkill] and the two-column skills renderer) and an earlier,
    simpler one.  Both are embedded here, the current one in
    [Module Exporter], the earlier one in [Module BasicExporter].  The
    builder page that calls the exporter ([Module Builder]) and the forms
    that make the document's education, interests and skills
    ([Module EducationForm], [Module InterestsForm], [Module SkillsForm])
    follow.

    Conventions of the embedding:
    - a JavaScript string is the list of its UTF-16 code units ([Z]);
    - a JavaScript number that is used as a length on the page is an exact
      rational ([Q]); every cursor increment of the exporter is a multiple
      of one half, so no rounding is involved;
    - what the browser and the jsPDF library provide (Unicode tables,
      collation, the free-form date parser, the local time zone, the page
      size and the text metrics) is a field of the records [JsHost] and
      [PdfLib], over which the definitions that need it are parameterised;
    - what is written to the console is left out; the calls on the jsPDF
      object are recorded in the order made. *)

From Stdlib Require Import ZArith QArith Qround List Bool Lia Lqa String Ascii.
From Stdlib Require Import DecimalString.
Import ListNotations.

Local Open Scope Z_scope.

(** ** JavaScript strings *)

Module Js.

Definition jsstring : Type := list Z.

(** An ASCII literal as a JavaScript string. *)
Definition lit (s : string) : jsstring :=
  List.map (fun a => Z.of_N (N_of_ascii a)) (list_ascii_of_string s).

Fixpoint eqb (s t : jsstring) : bool :=
  match s, t with
  | [], [] => true
  | c :: s', d :: t' => (c =? d) && eqb s' t'
  | _, _ => false
  end.

(** [\s] of a regular expression and the characters [trim] strips:
    WhiteSpace and LineTerminator of ECMAScript. *)
Definition isWhiteSpace (c : Z) : bool :=
  ((9 <=? c) && (c <=? 13)) || (c =? 32) || (c =? 160) || (c =? 5760)
  || ((8192 <=? c) && (c <=? 8202)) || (c =? 8232) || (c =? 8233)
  || (c =? 8239) || (c =? 8287) || (c =? 12288) || (c =? 65279).

Fixpoint trimStart (s : jsstring) : jsstring :=
  match s with
  | [] => []
  | c :: r => if isWhiteSpace c then trimStart r else s
  end.

(** Deletes the longest prefix whose characters are in the class. *)
Fixpoint dropWhile (inClass : Z -> bool) (s : jsstring) : jsstring :=
  match s with
  | [] => []
  | c :: r => if inClass c then dropWhile inClass r else s
  end.

Definition trimEnd (s : jsstring) : jsstring := rev (trimStart (rev s)).

(** [String.prototype.trim] *)
Definition trim (s : jsstring) : jsstring := trimEnd (trimStart s).

(** [s.replace(/\s+/g, ' ')]: every maximal run of white space becomes one
    space.  [inRun] tells that the previous character was white space. *)
Fixpoint collapseFrom (inRun : bool) (s : jsstring) : jsstring :=
  match s with
  | [] => []
  | c :: r =>
      if isWhiteSpace c
      then (if inRun then collapseFrom true r else 32 :: collapseFrom true r)
      else c :: collapseFrom false r
  end.

Definition collapseWhiteSpace (s : jsstring) : jsstring := collapseFrom false s.

(** [s.replace(/[...]/g, '')] for a character class: the characters of the
    class are deleted. *)
Definition removeAll (inClass : Z -> bool) (s : jsstring) : jsstring :=
  filter (fun c => negb (inClass c)) s.

Definition isUpperAZ (c : Z) : bool := (65 <=? c) && (c <=? 90).
Definition isLowerAZ (c : Z) : bool := (97 <=? c) && (c <=? 122).
Definition isLetter (c : Z) : bool := isUpperAZ c || isLowerAZ c.

Definition lowerAscii (c : Z) : Z := if isUpperAZ c then c + 32 else c.
Definition upperAscii (c : Z) : Z := if isLowerAZ c then c - 32 else c.

Fixpoint startsWith (p s : jsstring) : bool :=
  match p, s with
  | [], _ => true
  | a :: p', b :: s' => (a =? b) && startsWith p' s'
  | _ :: _, [] => false
  end.

(** [s] contains [p] as a substring. *)
Fixpoint contains (p s : jsstring) : bool :=
  startsWith p s ||
  match s with
  | [] => false
  | _ :: r => contains p r
  end.

(** [Array.prototype.includes] on an array of strings. *)
Definition includes (l : list jsstring) (s : jsstring) : bool :=
  existsb (eqb s) l.

(** [Array.prototype.join] *)
Fixpoint join (sep : jsstring) (l : list jsstring) : jsstring :=
  match l with
  | [] => []
  | [s] => s
  | s :: r => s ++ sep ++ join sep r
  end.

(** [s.split(sep)] for a one-character separator. *)
Fixpoint splitOn (sep : Z) (cur : jsstring) (s : jsstring) : list jsstring :=
  match s with
  | [] => [rev cur]
  | c :: r => if c =? sep then rev cur :: splitOn sep [] r
              else splitOn sep (c :: cur) r
  end.

Definition split (sep : Z) (s : jsstring) : list jsstring := splitOn sep [] s.

(** JavaScript values, as far as [typeof] and truthiness tell them apart
    (the contents of an object or an array are never inspected where a
    [value] is used). *)
Inductive value : Type :=
| Undefined
| Null
| Boolean (b : bool)
| Number (n : option Q)          (* [None] is NaN *)
| Str (s : jsstring)
| Object
| Array.

Definition isString (v : value) : bool :=
  match v with Str _ => true | _ => false end.

(** ToBoolean *)
Definition truthy (v : value) : bool :=
  match v with
  | Undefined | Null => false
  | Boolean b => b
  | Number None => false
  | Number (Some q) => negb (Qeq_bool q 0)
  | Str s => negb (eqb s [])
  | Object | Array => true
  end.

(** An optional string field of a record: [undefined] when absent. *)
Definition ofOption (o : option jsstring) : value :=
  match o with Some s => Str s | None => Undefined end.

(** Truthiness of an optional string field. *)
Definition present (o : option jsstring) : bool := truthy (ofOption o).

(** What the engine provides and the exporter calls. *)
Record JsHost : Type := {
  (** [String.prototype.normalize('NFKD')] *)
  normalizeNFKD : jsstring -> jsstring;
  (** the lower-case and upper-case mappings of the code unit at index [i]
      of [s] when that code unit is not ASCII (Unicode case tables, context
      sensitive) *)
  lowerNonAscii : jsstring -> nat -> list Z;
  upperNonAscii : jsstring -> nat -> list Z;
  (** [a.localeCompare(b, undefined, { sensitivity: 'base' })] *)
  localeCompareBase : jsstring -> jsstring -> Z;
  (** [a.localeCompare(b)] *)
  localeCompare : jsstring -> jsstring -> Z;
  (** the time value the engine's own heuristics give to a string that is
      not in the ECMAScript date format; [None] is NaN *)
  legacyDateParse : jsstring -> option Z;
  (** offset of local time from UTC, in milliseconds, at a UTC instant *)
  localTZA : Z -> Z
}.

(** [String.prototype.toLowerCase] and [toUpperCase]: ASCII letters by the
    ASCII rule, every other code unit by the engine's Unicode tables. *)
Fixpoint mapCase (ascii : Z -> Z) (other : jsstring -> nat -> list Z)
    (whole : jsstring) (i : nat) (s : jsstring) : jsstring :=
  match s with
  | [] => []
  | c :: r =>
      (if c <? 128 then [ascii c] else other whole i)
        ++ mapCase ascii other whole (S i) r
  end.

Definition toLowerCase (host : JsHost) (s : jsstring) : jsstring :=
  mapCase lowerAscii (lowerNonAscii host) s 0%nat s.

Definition toUpperCase (host : JsHost) (s : jsstring) : jsstring :=
  mapCase upperAscii (upperNonAscii host) s 0%nat s.

(** Comparison of two strings by code units, the order of
    [Array.prototype.sort] without a comparator: negative, zero or
    positive. *)
Fixpoint compareCodeUnits (s t : jsstring) : Z :=
  match s, t with
  | [], [] => 0
  | [], _ :: _ => -1
  | _ :: _, [] => 1
  | c :: s', d :: t' =>
      if c <? d then -1 else if d <? c then 1 else compareCodeUnits s' t'
  end.

(** [Array.prototype.sort(cmp)]: the sort is stable, so for a consistent
    comparator its result is the one of this insertion sort. *)
Fixpoint insertBy {A} (cmp : A -> A -> Z) (x : A) (l : list A) : list A :=
  match l with
  | [] => [x]
  | y :: r => if cmp x y <=? 0 then x :: l else y :: insertBy cmp x r
  end.

Fixpoint sortBy {A} (cmp : A -> A -> Z) (l : list A) : list A :=
  match l with
  | [] => []
  | x :: r => insertBy cmp x (sortBy cmp r)
  end.

(** [Math.ceil(n / 2)] for an array length [n]. *)
Definition ceilHalf (n : nat) : nat :=
  Z.to_nat (Qceiling (inject_Z (Z.of_nat n) / 2)).

(** [Math.ceil(n / k)] for an array length [n]. *)
Definition ceilDiv (n : nat) (k : Z) : nat :=
  Z.to_nat (Qceiling (inject_Z (Z.of_nat n) / inject_Z k)).

(** [a.slice(from, to)] and [a.slice(from)] for in-range indices. *)
Definition slice {A} (from to : nat) (l : list A) : list A :=
  firstn (to - from) (skipn from l).

(** How a statement ends: normally with a value, or by throwing. *)
Inductive completion (A : Type) : Type :=
| Normal (a : A)
| Throw (message : jsstring).
Arguments Normal {A} a.
Arguments Throw {A} message.

(** [try { body } catch { handler }] *)
Definition tryCatch {A} (body : completion A) (handler : jsstring -> completion A)
  : completion A :=
  match body with
  | Normal a => Normal a
  | Throw e => handler e
  end.

(** *** Regular expressions

    The patterns of the exporter use character classes, sequence,
    alternation, [*], [+] and the anchors [^] and [$] only.  A pattern is
    matched by derivatives. *)
Inductive regex : Type :=
| Fail
| Eps
| Class (inClass : Z -> bool)
| Seq (r1 r2 : regex)
| Alt (r1 r2 : regex)
| Star (r : regex).

Fixpoint nullable (r : regex) : bool :=
  match r with
  | Fail => false
  | Eps => true
  | Class _ => false
  | Seq r1 r2 => nullable r1 && nullable r2
  | Alt r1 r2 => nullable r1 || nullable r2
  | Star _ => true
  end.

Fixpoint deriv (c : Z) (r : regex) : regex :=
  match r with
  | Fail => Fail
  | Eps => Fail
  | Class p => if p c then Eps else Fail
  | Seq r1 r2 =>
      if nullable r1 then Alt (Seq (deriv c r1) r2) (deriv c r2)
      else Seq (deriv c r1) r2
  | Alt r1 r2 => Alt (deriv c r1) (deriv c r2)
  | Star r1 => Seq (deriv c r1) (Star r1)
  end.

(** The whole of [s] matches [r]. *)
Fixpoint matches (r : regex) (s : jsstring) : bool :=
  match s with
  | [] => nullable r
  | c :: s' => matches (deriv c r) s'
  end.

Definition Plus (r : regex) : regex := Seq r (Star r).
Definition Chr (c : Z) : regex := Class (Z.eqb c).
Definition anything : regex := Star (Class (fun _ => true)).

(** A literal; with the flag [i] an ASCII letter of the pattern matches
    both of its cases (no character outside ASCII is canonicalised to an
    ASCII one). *)
Fixpoint literal (ignoreCase : bool) (p : jsstring) : regex :=
  match p with
  | [] => Eps
  | c :: p' =>
      Seq (Class (fun d => if ignoreCase then upperAscii d =? upperAscii c
                           else d =? c))
          (literal ignoreCase p')
  end.

(** A pattern with its anchors: [/^body$/], [/body$/], [/^body/],
    [/body/]. *)
Record pattern : Type := {
  atStart : bool;
  body : regex;
  atEnd : bool
}.

(** [pattern.test(s)] *)
Definition test (p : pattern) (s : jsstring) : bool :=
  matches
    (Seq (if atStart p then Eps else anything)
       (Seq (body p) (if atEnd p then Eps else anything)))
    s.

End Js.

Import Js.

Notation "'js' s" := (Js.lit s%string) (at level 9, s at level 0, only parsing).

(** ** Dates: [new Date(string)] and [toLocaleString('en-US', ...)] *)

Module Dates.

Definition isDigit (c : Z) : bool := (48 <=? c) && (c <=? 57).

(** The number written by a string of decimal digits. *)
Definition digitsValue (s : jsstring) : Z :=
  fold_left (fun acc c => 10 * acc + (c - 48)) s 0.

Definition isLeapYear (y : Z) : bool :=
  ((y mod 4 =? 0) && negb (y mod 100 =? 0)) || (y mod 400 =? 0).

Definition daysInMonth (y m : Z) : Z :=
  if m =? 2 then (if isLeapYear y then 29 else 28)
  else if (m =? 4) || (m =? 6) || (m =? 9) || (m =? 11) then 30
  else 31.

(** Day number (days since 1970-01-01) of a date of the proleptic Gregorian
    calendar: MakeDay of ECMAScript. *)
Definition daysFromCivil (y m d : Z) : Z :=
  let y' := if m <=? 2 then y - 1 else y in
  let era := y' / 400 in
  let yoe := y' - era * 400 in
  let mp := (m + 9) mod 12 in
  let doy := (153 * mp + 2) / 5 + d - 1 in
  let doe := yoe * 365 + yoe / 4 - yoe / 100 + doy in
  era * 146097 + doe - 719468.

(** Year and month (1 to 12) of a day number: YearFromTime and
    MonthFromTime of ECMAScript. *)
Definition civilFromDays (days : Z) : Z * Z :=
  let z := days + 719468 in
  let era := z / 146097 in
  let doe := z - era * 146097 in
  let yoe := (doe - doe / 1460 + doe / 36524 - doe / 146096) / 365 in
  let doy := doe - (365 * yoe + yoe / 4 - yoe / 100) in
  let mp := (5 * doy + 2) / 153 in
  let m := if mp <? 10 then mp + 3 else mp - 9 in
  let y := yoe + era * 400 in
  (if m <=? 2 then y + 1 else y, m).

Definition msPerDay : Z := 86400000.

(** The date-only forms of the ECMAScript date-time string format with a
    four-digit year: [YYYY], [YYYY-MM] and [YYYY-MM-DD]. *)
Inductive isoDate : Type :=
| IsoTime (tv : Z)        (* a valid instance: its time value, UTC *)
| IsoOutOfBounds          (* the format, with an illegal month or day *)
| IsoDayBeyondMonth       (* the format, a day from 29 to 31 the month lacks *)
| NotIso.                 (* not one of these forms *)

Definition isoOfFields (y m d : Z) : isoDate :=
  if (m <? 1) || (12 <? m) || (d <? 1) || (31 <? d) then IsoOutOfBounds
  else if daysInMonth y m <? d then IsoDayBeyondMonth
  else IsoTime (daysFromCivil y m d * msPerDay).

Definition parseIsoDate (s : jsstring) : isoDate :=
  match s with
  | [y1; y2; y3; y4] =>
      if forallb isDigit [y1; y2; y3; y4]
      then isoOfFields (digitsValue [y1; y2; y3; y4]) 1 1
      else NotIso
  | [y1; y2; y3; y4; 45; m1; m2] =>
      if forallb isDigit [y1; y2; y3; y4; m1; m2]
      then isoOfFields (digitsValue [y1; y2; y3; y4]) (digitsValue [m1; m2]) 1
      else NotIso
  | [y1; y2; y3; y4; 45; m1; m2; 45; d1; d2] =>
      if forallb isDigit [y1; y2; y3; y4; m1; m2; d1; d2]
      then isoOfFields (digitsValue [y1; y2; y3; y4]) (digitsValue [m1; m2])
             (digitsValue [d1; d2])
      else NotIso
  | _ => NotIso
  end.

Section WithHost.
Context (host : JsHost).

(** [Date.parse]: the time value of a string, [None] for NaN.  A string in
    the standard format with an illegal element value is NaN; what the
    standard leaves to the implementation is asked from the host. *)
Definition parse (s : jsstring) : option Z :=
  match parseIsoDate s with
  | IsoTime tv => Some tv
  | IsoOutOfBounds => None
  | IsoDayBeyondMonth | NotIso => legacyDateParse host s
  end.

(** [new Date(s)]: never throws; an unparsable string gives an invalid
    date, whose time value is NaN. *)
Definition newDate (s : jsstring) : completion (option Z) := Normal (parse s).

Definition monthShort (m : Z) : jsstring :=
  nth (Z.to_nat (m - 1))
    [js"Jan"; js"Feb"; js"Mar"; js"Apr"; js"May"; js"Jun";
     js"Jul"; js"Aug"; js"Sep"; js"Oct"; js"Nov"; js"Dec"] [].

Definition decimal (n : Z) : jsstring :=
  lit (DecimalString.NilZero.string_of_uint (N.to_uint (Z.to_N n))).

(** [d.toLocaleString('en-US', { month: 'short', year: 'numeric' })], and
    [toLocaleDateString] with the same options: the month and the year of
    the date in the local time zone; ["Invalid Date"] for an invalid date.
    The year is the year of the era. *)
Definition toLocaleMonthYear (d : option Z) : completion jsstring :=
  match d with
  | None => Normal js"Invalid Date"
  | Some tv =>
      let localTime := tv + localTZA host tv in
      let '(y, m) := civilFromDays (localTime / msPerDay) in
      Normal (monthShort m ++ js" " ++ decimal (if y <=? 0 then 1 - y else y))
  end.

(** [formatDate] of both revisions. *)
Definition formatDate (date : option jsstring) (isEndDate : bool)
  : completion jsstring :=
  match date with
  | None => Normal (if isEndDate then js"Present" else js"")
  | Some date =>
      if eqb date [] then Normal (if isEndDate then js"Present" else js"")
      else if eqb (toLowerCase host date) js"present" then Normal js"Present"
      else
        tryCatch
          (match newDate (date ++ js"-01") with
           | Normal parsedDate => toLocaleMonthYear parsedDate
           | Throw e => Throw e
           end)
          (fun _ => Normal date)
  end.

End WithHost.
End Dates.

(** ** The jsPDF document and the layout state *)

Module Pdf.

Local Open Scope Q_scope.

Inductive fontStyle : Type := normal | bold | italic | bolditalic.

Definition color : Type := (Z * Z * Z)%type.

(** The calls the exporter makes on the jsPDF object, in the order made. *)
Inductive op : Type :=
| SetFontSize (size : Q)
| SetFont (family : jsstring) (style : fontStyle)
| SetTextColor (c : color)
| SetDrawColor (c : color)
| SetFillColor (c : color)
| SetLineWidth (w : Q)
| Text (s : jsstring) (x y : Q)
| Line (x1 y1 x2 y2 : Q)
| Rect (x y w h : Q)
| Circle (x y r : Q)
| AddPage
| Save (filename : jsstring).

(** What jsPDF computes for the exporter. *)
Record PdfLib : Type := {
  (** [pdf.internal.pageSize.getWidth()] and [getHeight()] *)
  pageWidth : Q;
  pageHeight : Q;
  (** [pdf.getTextWidth(text)] under the current font size and style *)
  getTextWidth : Q -> fontStyle -> jsstring -> Q;
  (** [pdf.splitTextToSize(text, maxWidth)] under the current font *)
  splitTextToSize : Q -> fontStyle -> jsstring -> Q -> list jsstring
}.

(** Where a write to the cursor [yPosition] comes from. *)
Inductive writeKind : Type :=
| Advance        (* [yPosition += d] and [yPosition -= d] *)
| PageReset      (* [yPosition = config.margin] of [checkPageBreak] *)
| ColumnRewind   (* [yPosition = startY] between the two skill columns *)
| ColumnJoin.    (* [yPosition = ...] after a block laid out in columns *)

(** One write to the cursor: the page it happens on and the values before
    and after. *)
Record write : Type := {
  kind : writeKind;
  onPage : nat;
  before : Q;
  after : Q
}.

(** The state of one export: the cursor, the current page, the current
    font, the calls made so far (newest first), and two histories kept for
    the statements below: the section headers drawn and the writes to the
    cursor (both newest first). *)
Record state : Type := {
  yPosition : Q;
  page : nat;
  fontSize : Q;
  style : fontStyle;
  ops : list op;
  headers : list jsstring;
  writes : list write
}.

(** [config.margin] *)
Definition margin : Q := 15.

(** [new jsPDF('p', 'mm', 'a4')] and [let yPosition = config.margin];
    jsPDF starts with a 16 point font. *)
Definition initial : state :=
  {| yPosition := margin; page := 1; fontSize := 16; style := normal;
     ops := []; headers := []; writes := [] |}.

(** The exporter's statements: they change the state and end normally with
    a value or by throwing. *)
Definition M (A : Type) : Type := state -> completion A * state.

Definition ret {A} (a : A) : M A := fun s => (Normal a, s).

Definition bind {A B} (m : M A) (f : A -> M B) : M B :=
  fun s => match m s with
           | (Normal a, s') => f a s'
           | (Throw e, s') => (Throw e, s')
           end.

Definition throw {A} (message : jsstring) : M A := fun s => (Throw message, s).

(** [try { body } catch (error) { handler }] around statements. *)
Definition tryCatchM {A} (body : M A) (handler : jsstring -> M A) : M A :=
  fun s => match body s with
           | (Normal a, s') => (Normal a, s')
           | (Throw e, s') => handler e s'
           end.

(** A pure computation that may throw, used as a statement. *)
Definition lift {A} (c : completion A) : M A := fun s => (c, s).

Definition get : M state := fun s => (Normal s, s).

(** A call on the jsPDF object. *)
Definition call (o : op) : M unit :=
  fun s => (Normal tt,
            {| yPosition := yPosition s; page := page s;
               fontSize := match o with SetFontSize z => z | _ => fontSize s end;
               style := match o with SetFont _ st => st | _ => style s end;
               ops := o :: ops s; headers := headers s; writes := writes s |}).

(** [pdf.addPage()] *)
Definition addPage : M unit :=
  fun s => (Normal tt,
            {| yPosition := yPosition s; page := S (page s);
               fontSize := fontSize s; style := style s;
               ops := AddPage :: ops s; headers := headers s;
               writes := writes s |}).

(** An assignment to [yPosition]. *)
Definition setY (k : writeKind) (y : Q) : M unit :=
  fun s => (Normal tt,
            {| yPosition := y; page := page s;
               fontSize := fontSize s; style := style s;
               ops := ops s; headers := headers s;
               writes := {| kind := k; onPage := page s;
                            before := yPosition s; after := y |} :: writes s |}).

(** [yPosition += d] *)
Definition advance (d : Q) : M unit :=
  fun s => setY Advance (yPosition s + d) s.

(** The current value of [yPosition]. *)
Definition getY : M Q := fun s => (Normal (yPosition s), s).

(** Remember that a section header was drawn. *)
Definition noteHeader (title : jsstring) : M unit :=
  fun s => (Normal tt,
            {| yPosition := yPosition s; page := page s;
               fontSize := fontSize s; style := style s;
               ops := ops s; headers := title :: headers s;
               writes := writes s |}).

Definition when (b : bool) (m : M unit) : M unit := if b then m else ret tt.

(** [for (const x of l) body(x)] and [l.forEach(body)] *)
Fixpoint forEach {A} (l : list A) (body : A -> M unit) : M unit :=
  match l with
  | [] => ret tt
  | x :: r => bind (body x) (fun _ => forEach r body)
  end.

(** [l.forEach((x, index) => body(index, x))] and the indexed [for] loops
    over an array. *)
Fixpoint forEachFrom {A} (i : nat) (l : list A) (body : nat -> A -> M unit)
  : M unit :=
  match l with
  | [] => ret tt
  | x :: r => bind (body i x) (fun _ => forEachFrom (S i) r body)
  end.

Definition forEachI {A} (l : list A) (body : nat -> A -> M unit) : M unit :=
  forEachFrom 0 l body.

(** [B] threaded through a loop body: the local variables a loop updates. *)
Fixpoint foldEachFrom {A B} (i : nat) (l : list A) (acc : B)
    (body : nat -> B -> A -> M B) : M B :=
  match l with
  | [] => ret acc
  | x :: r => bind (body i acc x) (fun acc' => foldEachFrom (S i) r acc' body)
  end.

Definition foldEachI {A B} (l : list A) (acc : B)
    (body : nat -> B -> A -> M B) : M B :=
  foldEachFrom 0 l acc body.

Definition foldEach {A B} (l : list A) (acc : B) (body : B -> A -> M B) : M B :=
  foldEachFrom 0 l acc (fun _ => body).

(** [a > b] on numbers. *)
Definition gtb (a b : Q) : bool := negb (Qle_bool a b).

(** [Math.max] *)
Definition max (a b : Q) : Q := if Qle_bool a b then b else a.

End Pdf.

Import Pdf.

Declare Scope pdf_scope.
Delimit Scope pdf_scope with pdf.
Notation "x <- m ;; k" := (Pdf.bind m (fun x => k))
  (at level 61, m at next level, right associativity) : pdf_scope.
Notation "m ;; k" := (Pdf.bind m (fun _ => k))
  (at level 61, right associativity) : pdf_scope.

(** ** The resume document *)

Module Personal.
Record t : Type := {
  fullName : option jsstring; email : option jsstring; phone : option jsstring;
  location : option jsstring; summary : option jsstring }.
End Personal.

Module Experience.
Record t : Type := {
  position : option jsstring; company : option jsstring;
  startDate : option jsstring; endDate : option jsstring;
  location : option jsstring; description : option jsstring }.
End Experience.

Module Education.
Record t : Type := {
  degree : option jsstring; school : option jsstring;
  startDate : option jsstring; endDate : option jsstring;
  location : option jsstring; gpa : option jsstring;
  description : option jsstring; relevantcourses : option jsstring;
  courses : option jsstring; honors : option jsstring }.
End Education.

Module Project.
Record t : Type := {
  name : option jsstring; startDate : option jsstring;
  endDate : option jsstring; technologies : option jsstring;
  description : option jsstring; link : option jsstring }.
End Project.

Module Certification.
Record t : Type := {
  name : option jsstring; issuer : option jsstring; date : option jsstring;
  expiration : option jsstring; credentialId : option jsstring;
  verificationLink : option jsstring }.
End Certification.

Module Language.
Record t : Type := {
  language : option jsstring; proficiency : option jsstring }.
End Language.

Module Reference.
Record t : Type := {
  name : option jsstring; title : option jsstring; company : option jsstring;
  relationship : option jsstring; email : option jsstring;
  phone : option jsstring }.
End Reference.

(** An element of [skills]: a bare string, or a record of which the
    exporter reads [name], [skill] and [title]. *)
Inductive skillEntry : Type :=
| SkillString (s : jsstring)
| SkillObject (name skill title : value).

(** [ResumeData].  Every use of a section array is behind a [?.length]
    test, under which an absent array behaves as an empty one: the arrays
    are lists. *)
Record ResumeData : Type := {
  personal : option Personal.t;
  experience : list Experience.t;
  education : list Education.t;
  skills : list skillEntry;
  projects : list Project.t;
  certifications : list Certification.t;
  languages : list Language.t;
  interests : list jsstring;
  references : list Reference.t
}.

(** [o || fallback] for an optional string. *)
Definition orElse (o : option jsstring) (fallback : jsstring) : jsstring :=
  match o with
  | Some s => if Js.eqb s [] then fallback else s
  | None => fallback
  end.

(** [if (o) list.push(f(o))], as the list of what is pushed. *)
Definition pushIf (o : option jsstring) (f : jsstring -> jsstring)
  : list jsstring :=
  match o with
  | Some s => if Js.eqb s [] then [] else [f s]
  | None => []
  end.

(** The characters of the class [[-•·‣▪▫▸▶●]]: the hyphen and eight bullet
    glyphs. *)
Definition bulletGlyphs : list Z :=
  [45; 8226; 183; 8227; 9642; 9643; 9656; 9654; 9679].

Definition isBulletOrDash (c : Z) : bool := existsb (Z.eqb c) bulletGlyphs.

(** [[\x20-\x7E]] *)
Definition isPrintableAscii (c : Z) : bool := (32 <=? c) && (c <=? 126).

(** [[\x00-\x1F\x7F]] *)
Definition isControl (c : Z) : bool := ((0 <=? c) && (c <=? 31)) || (c =? 127).

(** [' • '] and [' – '] *)
Definition bulletSep : jsstring := [32; 8226; 32].
Definition dashSep : jsstring := [32; 8211; 32].

(** ** Drawing primitives and sections common to both revisions

    These functions have the same text in both revisions of
    [generateTextPDF]; they use the revision's own [cleanText]. *)

Module Layout.
Section Shared.
Context (host : JsHost) (pdf : PdfLib) (cleanText : value -> jsstring).

Local Open Scope Q_scope.
Local Open Scope pdf_scope.

(** [config.colors] and [config.fonts.primary] *)
Definition primary : color := (31, 73, 125)%Z.
Definition secondary : color := (79, 98, 114)%Z.
Definition accent : color := (156, 39, 6)%Z.
Definition textColor : color := (33, 37, 41)%Z.
Definition lightGray : color := (108, 117, 125)%Z.
Definition bulletColor : color := (51, 51, 51)%Z.
Definition times : jsstring := js"times".

Definition setFontSize (size : Q) : M unit := call (SetFontSize size).
Definition setFont (st : fontStyle) : M unit := call (SetFont times st).
Definition setTextColor (c : color) : M unit := call (SetTextColor c).
Definition setDrawColor (c : color) : M unit := call (SetDrawColor c).
Definition setFillColor (c : color) : M unit := call (SetFillColor c).
Definition setLineWidth (w : Q) : M unit := call (SetLineWidth w).
Definition text (t : jsstring) (x y : Q) : M unit := call (Text t x y).
Definition line (x1 y1 x2 y2 : Q) : M unit := call (Line x1 y1 x2 y2).
Definition rect (x y w h : Q) : M unit := call (Rect x y w h).
Definition circle (x y r : Q) : M unit := call (Circle x y r).

Definition getTextWidth (t : jsstring) : M Q :=
  fun s => (Normal (Pdf.getTextWidth pdf (fontSize s) (style s) t), s).

Definition splitTextToSize (t : jsstring) (maxWidth : Q) : M (list jsstring) :=
  fun s => (Normal (Pdf.splitTextToSize pdf (fontSize s) (style s) t maxWidth), s).

(** [if (o) { body(o) }] for an optional string. *)
Definition whenSome (o : option jsstring) (body : jsstring -> M unit) : M unit :=
  match o with
  | Some s => if Js.eqb s [] then ret tt else body s
  | None => ret tt
  end.

Definition nonEmpty {A} (l : list A) : bool :=
  match l with [] => false | _ :: _ => true end.

Definition checkPageBreak (requiredSpace : Q) : M bool :=
  y <- getY ;;
  if gtb (y + requiredSpace) (pageHeight pdf - 20) then
    addPage ;;
    setY PageReset margin ;;
    ret true
  else ret false.

Definition addSectionHeader (title : jsstring) : M unit :=
  noteHeader title ;;
  checkPageBreak 12 ;;
  setFontSize 13 ;;
  setFont bold ;;
  setTextColor primary ;;
  y <- getY ;;
  text (toUpperCase host title) margin y ;;
  advance 3 ;;
  setDrawColor primary ;;
  setLineWidth 0.6 ;;
  y <- getY ;;
  line margin y (pageWidth pdf - margin) y ;;
  advance 5.

Definition addText (t : jsstring) (size : Q) (st : fontStyle) (indent : Q)
    (c : color) : M unit :=
  if Js.eqb t [] then ret tt
  else
    setFontSize size ;;
    setFont st ;;
    setTextColor c ;;
    let maxWidth := pageWidth pdf - 2 * margin - indent in
    lines <- splitTextToSize (cleanText (Str t)) maxWidth ;;
    forEach lines (fun l =>
      checkPageBreak (size * 0.5) ;;
      y <- getY ;;
      text l (margin + indent) y ;;
      advance (size * 0.5)) ;;
    advance 1.

(** [bullet.replace(/^[-•·‣▪▫▸▶●\s]*/, '').trim()] *)
Definition stripLeadingBullet (bullet : jsstring) : jsstring :=
  trim (dropWhile (fun c => isBulletOrDash c || isWhiteSpace c) bullet).

Definition addBulletPoints (t : jsstring) (indent : Q) (showBullets : bool)
  : M unit :=
  if Js.eqb t [] then ret tt
  else
    let bullets :=
      filter (fun l => (0 <? List.length l)%nat) (List.map trim (split 10 t)) in
    forEach bullets (fun bullet =>
      checkPageBreak 5 ;;
      let cleanBullet := stripLeadingBullet bullet in
      if showBullets && nonEmpty cleanBullet then
        setFontSize 9 ;;
        setFont bold ;;
        setTextColor bulletColor ;;
        y <- getY ;;
        text [8226%Z] (margin + indent) y ;;
        setFontSize 9 ;;
        setFont normal ;;
        setTextColor textColor ;;
        let maxWidth := pageWidth pdf - 2 * margin - indent - 4 in
        wrappedLines <- splitTextToSize cleanBullet maxWidth ;;
        match wrappedLines with
        | [] => ret tt
        | first :: rest =>
            y <- getY ;;
            text first (margin + indent + 4) y ;;
            advance 4 ;;
            forEach rest (fun l =>
              checkPageBreak 4 ;;
              y <- getY ;;
              text l (margin + indent + 4) y ;;
              advance 4)
        end
      else if nonEmpty cleanBullet then
        setFontSize 9 ;;
        setFont normal ;;
        setTextColor textColor ;;
        let maxWidth := pageWidth pdf - 2 * margin - indent in
        wrappedLines <- splitTextToSize cleanBullet maxWidth ;;
        forEach wrappedLines (fun l =>
          checkPageBreak 4 ;;
          y <- getY ;;
          text l (margin + indent) y ;;
          advance 4)
      else ret tt).

(** The chunks [s.substring(i, i + n)] for [i = 0, n, 2n, ...]. *)
Fixpoint chunksOf (fuel : nat) (n : nat) (s : jsstring) : list jsstring :=
  match fuel, s with
  | _, [] => []
  | O, _ => []
  | S fuel', _ => firstn n s :: chunksOf fuel' n (skipn n s)
  end.

(** The job description, drawn in white at size 0.1. *)
Definition embedJobDescription (jobDescription : option jsstring) : M unit :=
  whenSome jobDescription (fun jd =>
    when (nonEmpty (trim jd)) (
      setFontSize 0.1 ;;
      setTextColor (255, 255, 255)%Z ;;
      let fullJobDescription := cleanText (Str jd) in
      let maxChunkLength := 500%nat in
      let chunks := chunksOf (List.length fullJobDescription) maxChunkLength
                      fullJobDescription in
      let embedYPosition := margin + 5 in
      forEachI chunks (fun index chunk =>
        let xOffset := margin + inject_Z (Z.of_nat (index mod 3)) * 50 in
        text chunk xOffset (embedYPosition + inject_Z (Z.of_nat index) * 2)) ;;
      setTextColor textColor)).

(** The name and the contact line. *)
Definition headerSection (personal : option Personal.t) : M unit :=
  match personal with
  | None => ret tt
  | Some p =>
      whenSome (Personal.fullName p) (fun fullName =>
        setFontSize 26 ;;
        setFont bold ;;
        setTextColor primary ;;
        let nameText := cleanText (Str fullName) in
        nameWidth <- getTextWidth nameText ;;
        let nameX := (pageWidth pdf - nameWidth) / 2 in
        y <- getY ;;
        text nameText nameX y ;;
        advance 10 ;;
        setDrawColor accent ;;
        setLineWidth 0.8 ;;
        let lineWidth := nameWidth * 0.6 in
        let lineX := (pageWidth pdf - lineWidth) / 2 in
        y <- getY ;;
        line lineX (y - 2) (lineX + lineWidth) (y - 2) ;;
        advance 6 ;;
        setFontSize 10 ;;
        setFont normal ;;
        setTextColor secondary ;;
        let contactInfo :=
          pushIf (Personal.email p) (fun e => cleanText (Str e))
          ++ pushIf (Personal.phone p) (fun e => cleanText (Str e))
          ++ pushIf (Personal.location p) (fun e => cleanText (Str e)) in
        when (nonEmpty contactInfo) (
          let contactText := join bulletSep contactInfo in
          contactWidth <- getTextWidth contactText ;;
          let contactX := (pageWidth pdf - contactWidth) / 2 in
          y <- getY ;;
          text contactText contactX y ;;
          advance 4) ;;
        advance 5)
  end.

Definition summarySection (personal : option Personal.t) : M unit :=
  match personal with
  | None => ret tt
  | Some p =>
      whenSome (Personal.summary p) (fun summary =>
        addSectionHeader js"Executive Summary" ;;
        setDrawColor lightGray ;;
        setLineWidth 0.2 ;;
        summaryStartY <- getY ;;
        addText summary 10 normal 6 textColor ;;
        y <- getY ;;
        line (margin + 2) (summaryStartY - 3) (margin + 2) (y - 3) ;;
        advance 3)
  end.

Definition experienceSection (experience : list Experience.t) : M unit :=
  when (nonEmpty experience) (
    addSectionHeader js"Professional Experience" ;;
    forEachI experience (fun expIndex exp =>
      checkPageBreak 20 ;;
      setFontSize 12 ;;
      setFont bold ;;
      setTextColor primary ;;
      y <- getY ;;
      text (cleanText (Str (orElse (Experience.position exp) js"Position")))
        margin y ;;
      advance 5 ;;
      setFontSize 10 ;;
      setFont bolditalic ;;
      setTextColor accent ;;
      let companyInfo :=
        cleanText (Str (orElse (Experience.company exp) js"Company")) in
      y <- getY ;;
      text companyInfo margin y ;;
      when (present (Experience.startDate exp) || present (Experience.endDate exp)) (
        startDate <- lift (Dates.formatDate host (Experience.startDate exp) false) ;;
        endDate <- lift (Dates.formatDate host (Experience.endDate exp) true) ;;
        let dateInfo := startDate ++ dashSep ++ endDate in
        setFont normal ;;
        setTextColor secondary ;;
        dateWidth <- getTextWidth dateInfo ;;
        y <- getY ;;
        text dateInfo (pageWidth pdf - margin - dateWidth) y) ;;
      advance 4 ;;
      whenSome (Experience.location exp) (fun location =>
        setFontSize 9 ;;
        setFont italic ;;
        setTextColor lightGray ;;
        y <- getY ;;
        text (cleanText (Str location)) margin y ;;
        advance 3) ;;
      setDrawColor lightGray ;;
      setLineWidth 0.2 ;;
      y <- getY ;;
      line margin y (pageWidth pdf - margin) y ;;
      advance 4 ;;
      whenSome (Experience.description exp) (fun description =>
        addBulletPoints description 6 true) ;;
      advance (if (expIndex <? List.length experience - 1)%nat then 4 else 2))).

(** The projects section; the two revisions differ in its title only. *)
Definition projectsSection (title : jsstring) (projects : list Project.t)
  : M unit :=
  when (nonEmpty projects) (
    addSectionHeader title ;;
    forEachI projects (fun projIndex project =>
      if negb (present (Project.name project))
         || negb (nonEmpty (trim (orElse (Project.name project) [])))
      then ret tt
      else
        checkPageBreak 25 ;;
        setFontSize 12 ;;
        setFont bold ;;
        setTextColor primary ;;
        y <- getY ;;
        text (cleanText (ofOption (Project.name project))) margin y ;;
        advance 5 ;;
        when (present (Project.startDate project)
              || present (Project.endDate project)
              || present (Project.technologies project)) (
          if present (Project.startDate project)
             || present (Project.endDate project)
          then
            setFontSize 9 ;;
            setFont bolditalic ;;
            setTextColor accent ;;
            startDate <- lift (Dates.formatDate host (Project.startDate project) false) ;;
            endDate <- lift (Dates.formatDate host (Project.endDate project) true) ;;
            let dateInfo := startDate ++ dashSep ++ endDate in
            y <- getY ;;
            text dateInfo margin y ;;
            whenSome (Project.technologies project) (fun technologies =>
              let tech := js"Tech: " ++ cleanText (Str technologies) in
              dateWidth <- getTextWidth dateInfo ;;
              techWidth <- getTextWidth tech ;;
              let rightAlign := pageWidth pdf - margin - techWidth in
              if gtb rightAlign (margin + dateWidth + 15) then
                y <- getY ;;
                text tech rightAlign y
              else
                advance 4 ;;
                setFont italic ;;
                setTextColor secondary ;;
                y <- getY ;;
                text tech margin y) ;;
            advance 4
          else
            whenSome (Project.technologies project) (fun technologies =>
              setFontSize 9 ;;
              setFont italic ;;
              setTextColor secondary ;;
              y <- getY ;;
              text (js"Technologies: " ++ cleanText (Str technologies)) margin y ;;
              advance 4)) ;;
        setDrawColor lightGray ;;
        setLineWidth 0.2 ;;
        y <- getY ;;
        line margin y (pageWidth pdf - margin) y ;;
        advance 4 ;;
        whenSome (Project.description project) (fun description =>
          addBulletPoints description 6 true) ;;
        whenSome (Project.link project) (fun link =>
          advance 1 ;;
          setFontSize 8 ;;
          setFont normal ;;
          setTextColor accent ;;
          let linkText := js"Link: " ++ cleanText (Str link) in
          linkWidth <- getTextWidth linkText ;;
          setFillColor (248, 249, 250)%Z ;;
          y <- getY ;;
          rect (margin - 1) (y - 3) (linkWidth + 2) 5 ;;
          text linkText margin y ;;
          advance 5) ;;
        advance (if (projIndex <? List.length projects - 1)%nat then 6 else 3))).

(** The certifications section; the two revisions differ in its title
    only. *)
Definition certificationsSection (title : jsstring)
    (certifications : list Certification.t) : M unit :=
  when (nonEmpty certifications) (
    addSectionHeader title ;;
    forEachI certifications (fun certIndex cert =>
      checkPageBreak 10 ;;
      setFontSize 11 ;;
      setFont bold ;;
      setTextColor primary ;;
      y <- getY ;;
      text (cleanText (ofOption (Certification.name cert))) margin y ;;
      advance 4 ;;
      let certDetails :=
        pushIf (Certification.issuer cert) (fun e => cleanText (Str e))
        ++ pushIf (Certification.date cert) (fun e => cleanText (Str e)) in
      when (nonEmpty certDetails) (
        setFontSize 9 ;;
        setFont italic ;;
        setTextColor accent ;;
        y <- getY ;;
        text (js"Issued by: " ++ join bulletSep certDetails) margin y ;;
        advance 3) ;;
      whenSome (Certification.expiration cert) (fun expiration =>
        setFontSize 8 ;;
        setFont normal ;;
        setTextColor secondary ;;
        y <- getY ;;
        text (js"Expires: " ++ cleanText (Str expiration)) margin y ;;
        advance 3) ;;
      whenSome (Certification.credentialId cert) (fun credentialId =>
        setFontSize 8 ;;
        setFont normal ;;
        setTextColor lightGray ;;
        y <- getY ;;
        text (js"Credential ID: " ++ cleanText (Str credentialId)) margin y ;;
        advance 3) ;;
      whenSome (Certification.verificationLink cert) (fun verificationLink =>
        setFontSize 8 ;;
        setFont normal ;;
        setTextColor accent ;;
        let verifyText := js"Verify: " ++ cleanText (Str verificationLink) in
        verifyWidth <- getTextWidth verifyText ;;
        setFillColor (248, 249, 250)%Z ;;
        y <- getY ;;
        rect (margin - 1) (y - 3) (verifyWidth + 2) 5 ;;
        text verifyText margin y ;;
        advance 3) ;;
      if (certIndex <? List.length certifications - 1)%nat then
        setDrawColor lightGray ;;
        setLineWidth 0.1 ;;
        y <- getY ;;
        line margin (y + 2) (pageWidth pdf - margin) (y + 2) ;;
        advance 4
      else advance 2) ;;
    advance 3).

End Shared.
End Layout.

(** ** The current revision of the exporter *)

Module Exporter.
Import Layout.
Section Model.
Context (host : JsHost) (pdf : PdfLib).

Local Open Scope Q_scope.
Local Open Scope pdf_scope.

(** [cleanText].  The warnings it writes to the console in debug mode do
    not change what it returns and are left out. *)
Definition cleanText (t : value) : jsstring :=
  if negb (truthy t) || negb (isString t) then []
  else
    match t with
    | Str s =>
        let cleaned :=
          trim
            (collapseWhiteSpace
               (removeAll isControl
                  (removeAll isBulletOrDash
                     (removeAll (fun c => negb (isPrintableAscii c))
                        (normalizeNFKD host s))))) in
        cleaned
    | _ => []
    end.

(** [[^\s@]] *)
Definition notSpaceNorAt (c : Z) : bool := negb (isWhiteSpace c || (c =? 64)%Z).

(** [/^[^\s@]+@[^\s@]+\.[^\s@]+$/] *)
Definition emailRegex : pattern :=
  {| atStart := true;
     body := Seq (Plus (Class notSpaceNorAt))
               (Seq (Chr 64)
                  (Seq (Plus (Class notSpaceNorAt))
                     (Seq (Chr 46) (Plus (Class notSpaceNorAt)))));
     atEnd := true |}.

Definition isValidEmail (email : jsstring) : bool := test emailRegex email.

(** [/[a-zA-Z]/] *)
Definition letterRegex : pattern :=
  {| atStart := false; body := Class isLetter; atEnd := false |}.

Definition isValidName (name : jsstring) : bool :=
  (1 <? List.length name)%nat && (List.length name <? 100)%nat
  && test letterRegex name.

Definition placeholderName : jsstring := js"Reference Name Not Provided".

(** [if (field) validatedRef.field = cleanText(field)] *)
Definition cleanIfPresent (field : option jsstring) : option jsstring :=
  if present field then Some (cleanText (ofOption field)) else field.

(** [validateReference]; its console warnings are left out. *)
Definition validateReference (ref : Reference.t) : Reference.t :=
  {| Reference.name :=
       if negb (present (Reference.name ref))
          || negb (isValidName (cleanText (ofOption (Reference.name ref))))
       then Some placeholderName
       else Reference.name ref;
     Reference.email :=
       if present (Reference.email ref)
          && negb (isValidEmail (cleanText (ofOption (Reference.email ref))))
       then None
       else Reference.email ref;
     Reference.title := cleanIfPresent (Reference.title ref);
     Reference.company := cleanIfPresent (Reference.company ref);
     Reference.relationship := cleanIfPresent (Reference.relationship ref);
     Reference.phone := cleanIfPresent (Reference.phone ref) |}.

(** [excludeWords] of [isValidSkill] *)
Definition excludeWords : list jsstring :=
  [js"early"; js"looking"; js"public"; js"start"; js"stage"; js"sector";
   js"mobility"; js"transportation"; js"revolutionize"; js"production"].

Definition oneOf (ignoreCase : bool) (words : list jsstring) : regex :=
  fold_right (fun w r => Alt (literal ignoreCase w) r) Fail words.

(** [technicalPatterns] of [isValidSkill]:
    [/^[A-Z]{2,}$/], [/CAD$/i], [/^[A-Z][a-z]+[A-Z]/],
    [/Linux|Windows|Mac/i], [/SQL|Python|Java|JavaScript|HTML|CSS/i]. *)
Definition technicalPatterns : list pattern :=
  [ {| atStart := true;
       body := Seq (Class isUpperAZ) (Plus (Class isUpperAZ));
       atEnd := true |};
    {| atStart := false; body := literal true js"CAD"; atEnd := true |};
    {| atStart := true;
       body := Seq (Class isUpperAZ)
                 (Seq (Plus (Class isLowerAZ)) (Class isUpperAZ));
       atEnd := false |};
    {| atStart := false;
       body := oneOf true [js"Linux"; js"Windows"; js"Mac"];
       atEnd := false |};
    {| atStart := false;
       body := oneOf true [js"SQL"; js"Python"; js"Java"; js"JavaScript";
                            js"HTML"; js"CSS"];
       atEnd := false |} ].

(** [/^[A-Z]/] *)
Definition capitalRegex : pattern :=
  {| atStart := true; body := Class isUpperAZ; atEnd := false |}.

Definition isValidSkill (skill : jsstring) : bool :=
  let cleanSkill := trim skill in
  if (List.length cleanSkill <? 3)%nat then false
  else if includes excludeWords (toLowerCase host cleanSkill) then false
  else
    let isTechnical := existsb (fun p => test p cleanSkill) technicalPatterns in
    let isCapitalized := test capitalRegex cleanSkill in
    isTechnical || isCapitalized || (4 <? List.length cleanSkill)%nat.

(** [a || b] on values. *)
Definition orValue (a b : value) : value := if truthy a then a else b.

(** The display name of an element of [skills]:
    [skill.name || skill.skill || skill.title || ''] for a record,
    [String(skill || '')] for a string. *)
Definition skillName (skill : skillEntry) : value :=
  match skill with
  | SkillObject name skill title =>
      orValue name (orValue skill (orValue title (Str [])))
  | SkillString s => Str (if Js.eqb s [] then [] else s)
  end.

(** [skill.charAt(0).toUpperCase() + skill.slice(1)] *)
Definition capitalize (skill : jsstring) : jsstring :=
  toUpperCase host (firstn 1 skill) ++ skipn 1 skill.

Definition skillsArray (skills : list skillEntry) : list jsstring :=
  sortBy (localeCompareBase host)
    (List.map capitalize
       (filter (fun skill => Layout.nonEmpty skill && isValidSkill skill)
          (List.map cleanText (List.map skillName skills)))).

(** Drawing primitives, with this revision's [cleanText]. *)
Definition checkPageBreak := Layout.checkPageBreak pdf.
Definition addSectionHeader := Layout.addSectionHeader host pdf.
Definition addBulletPoints := Layout.addBulletPoints pdf.
Definition getTextWidth := Layout.getTextWidth pdf.
Definition splitTextToSize := Layout.splitTextToSize pdf.

(** One column of the relevant courses: the lines of a course are drawn at
    the column's own cursor [columnY], which is returned. *)
Definition coursesColumn (columnX columnWidth lineHeight : Q)
    (courses : list jsstring) (columnY : Q) : M Q :=
  foldEach courses columnY (fun columnY course =>
    checkPageBreak 5 ;;
    let courseText := [8226%Z; 32%Z] ++ course in
    wrappedLines <- splitTextToSize courseText columnWidth ;;
    columnY <- foldEachI wrappedLines columnY (fun lineIndex columnY l =>
      text l columnX columnY ;;
      ret (if (lineIndex <? List.length wrappedLines - 1)%nat
           then columnY + (lineHeight - 1) else columnY)) ;;
    ret (columnY + lineHeight)).

(** The block of the relevant courses of one education record: a title,
    then the courses in two columns. *)
Definition relevantCoursework (coursesText : jsstring) : M unit :=
  advance 3 ;;
  setFontSize 10 ;;
  setFont bold ;;
  setTextColor primary ;;
  y <- getY ;;
  text js"Relevant Coursework" margin y ;;
  headerWidth <- getTextWidth js"Relevant Coursework" ;;
  setLineWidth 0.3 ;;
  setDrawColor primary ;;
  line margin (y + 1) (margin + headerWidth) (y + 1) ;;
  advance 6 ;;
  let courses :=
    sortBy compareCodeUnits
      (filter (fun course => (0 <? List.length course)%nat)
         (List.map trim (split 44 coursesText))) in
  let maxWidth := pageWidth pdf - 2 * margin in
  let courseIndent := margin + 8 in
  let availableWidth := maxWidth - 16 in
  let columnWidth := availableWidth / 2 - 10 in
  let columnGap := 20 in
  setFont normal ;;
  setTextColor textColor ;;
  setFontSize 8.5 ;;
  y <- getY ;;
  let lineHeight := 4 in
  let midpoint := ceilHalf (List.length courses) in
  column1Y <- coursesColumn courseIndent columnWidth lineHeight
                (firstn midpoint courses) y ;;
  column2Y <- coursesColumn (courseIndent + columnWidth + columnGap)
                columnWidth lineHeight (skipn midpoint courses) y ;;
  setY ColumnJoin (Pdf.max column1Y column2Y + 2).

Definition educationSection (education : list Education.t) : M unit :=
  when (nonEmpty education) (
    addSectionHeader js"Education" ;;
    forEachI education (fun eduIndex edu =>
      checkPageBreak 25 ;;
      setFontSize 13 ;;
      setFont bold ;;
      setTextColor primary ;;
      let degreeText :=
        cleanText (Str (orElse (Education.degree edu) js"Degree")) in
      y <- getY ;;
      text degreeText margin y ;;
      when (present (Education.startDate edu) || present (Education.endDate edu)) (
        startDate <- lift (Dates.formatDate host (Education.startDate edu) false) ;;
        endDate <- lift (Dates.formatDate host (Education.endDate edu) true) ;;
        let dateInfo :=
          if nonEmpty startDate then startDate ++ dashSep ++ endDate
          else endDate in
        setFontSize 10 ;;
        setFont bold ;;
        setTextColor secondary ;;
        dateWidth <- getTextWidth dateInfo ;;
        y <- getY ;;
        text dateInfo (pageWidth pdf - margin - dateWidth) y) ;;
      advance 6 ;;
      setFontSize 11 ;;
      setFont bold ;;
      setTextColor accent ;;
      y <- getY ;;
      text (cleanText (Str (orElse (Education.school edu) js"School"))) margin y ;;
      advance 5 ;;
      let achievementDetails :=
        pushIf (Education.location edu) (fun e => cleanText (Str e))
        ++ pushIf (Education.gpa edu) (fun e => js"GPA: " ++ cleanText (Str e))
        ++ pushIf (Education.honors edu) (fun e => cleanText (Str e)) in
      when (nonEmpty achievementDetails) (
        setFontSize 9 ;;
        setFont normal ;;
        setTextColor secondary ;;
        let detailsText := join bulletSep achievementDetails in
        y <- getY ;;
        text detailsText margin y ;;
        advance 5) ;;
      whenSome (Education.description edu) (fun description =>
        advance 1 ;;
        setFontSize 9 ;;
        setFont normal ;;
        setTextColor textColor ;;
        descriptionLines <- splitTextToSize (cleanText (Str description))
                              (pageWidth pdf - 2 * margin - 8) ;;
        forEach descriptionLines (fun l =>
          checkPageBreak 4 ;;
          y <- getY ;;
          text l (margin + 4) y ;;
          advance 3.5) ;;
        advance 2) ;;
      whenSome (Education.courses edu) relevantCoursework ;;
      if (eduIndex <? List.length education - 1)%nat then
        advance 4 ;;
        setLineWidth 0.2 ;;
        setDrawColor lightGray ;;
        y <- getY ;;
        line (margin + 20) y (pageWidth pdf - margin - 20) y ;;
        advance 6
      else advance 8)).

(** [settings] of the skills section *)
Definition skillsLineHeight : Q := 4.5.
Definition skillsIndent : Q := 6.
Definition skillsSpacingAfter : Q := 4.
Definition skillsMaxWidth : Q := pageWidth pdf - 2 * margin - 6.
Definition skillsBulletPoint : jsstring := [8226%Z; 32%Z].
Definition skillsColumnGap : Q := 20.
Definition minSkillsForColumns : nat := 4.

(** The two columns of [renderSkillsInColumns]: [skills.slice(0, midpoint)]
    and [skills.slice(midpoint)] with [midpoint = Math.ceil(length / 2)]. *)
Definition skillColumns (skills : list jsstring)
  : list jsstring * list jsstring :=
  let midpoint := ceilHalf (List.length skills) in
  (firstn midpoint skills, skipn midpoint skills).

Definition renderSkillsInColumns (skills : list jsstring) : M unit :=
  let '(leftColumn, rightColumn) := skillColumns skills in
  let leftX := margin + skillsIndent in
  let rightX := margin + skillsIndent + skillsMaxWidth / 2 + skillsColumnGap in
  startY <- getY ;;
  forEach leftColumn (fun skill =>
    checkPageBreak skillsLineHeight ;;
    y <- getY ;;
    text (skillsBulletPoint ++ skill) leftX y ;;
    advance skillsLineHeight) ;;
  setY ColumnRewind startY ;;
  forEach rightColumn (fun skill =>
    checkPageBreak skillsLineHeight ;;
    y <- getY ;;
    text (skillsBulletPoint ++ skill) rightX y ;;
    advance skillsLineHeight) ;;
  setY ColumnJoin
    (startY
     + Pdf.max (inject_Z (Z.of_nat (List.length leftColumn)))
         (inject_Z (Z.of_nat (List.length rightColumn)))
       * skillsLineHeight).

Definition renderSkillsHorizontally (skills : list jsstring) : M unit :=
  let skillsText := join bulletSep skills in
  lines <- splitTextToSize skillsText skillsMaxWidth ;;
  if negb (nonEmpty lines) then ret tt
  else
    forEach lines (fun l =>
      when (nonEmpty (trim l)) (
        checkPageBreak skillsLineHeight ;;
        y <- getY ;;
        text l (margin + skillsIndent) y ;;
        advance skillsLineHeight)).

(** The choice between the two renderers. *)
Definition renderSkills (skills : list jsstring) : M unit :=
  if (minSkillsForColumns <=? List.length skills)%nat
  then renderSkillsInColumns skills
  else renderSkillsHorizontally skills.

Definition skillsSection (skills : list skillEntry) : M unit :=
  when (nonEmpty skills) (
    let skillsArray := skillsArray skills in
    when (nonEmpty skillsArray) (
      addSectionHeader js"Core Competencies & Technical Skills" ;;
      setFontSize 10 ;;
      setFont normal ;;
      setTextColor textColor ;;
      renderSkills skillsArray ;;
      advance skillsSpacingAfter)).

(** A language after cleaning: [{ name, proficiency }]. *)
Record cleanLanguage : Type := {
  langName : jsstring;
  langProficiency : jsstring
}.

(** [`${lang.name} (${lang.proficiency})`] *)
Definition languageText (lang : cleanLanguage) : jsstring :=
  langName lang ++ js" (" ++ langProficiency lang ++ js")".

(** jsPDF's [text] throws when it is given [undefined], here [lines[0]] of
    an empty array. *)
Definition textTypeError : jsstring := js"Type of text must be string or Array".

(** [settings] of the languages section *)
Definition languagesLineHeight : Q := 4.
Definition languagesIndent : Q := 6.
Definition languagesSpacingAfter : Q := 3.
Definition languagesMaxWidth : Q := pageWidth pdf - 2 * margin - 6.
Definition languagesBulletSize : Q := 0.8.
Definition languagesColumnGap : Q := 20.

(** Up to three languages: one below the other. *)
Definition languagesInList (languages : list cleanLanguage) : M unit :=
  forEach languages (fun lang =>
    checkPageBreak languagesLineHeight ;;
    setFillColor textColor ;;
    y <- getY ;;
    circle (margin + languagesIndent) (y - 1) languagesBulletSize ;;
    text (languageText lang) (margin + languagesIndent + 4) y ;;
    advance languagesLineHeight).

(** One column of languages, drawn at its own cursor [columnY], which
    starts at [startY]; the end of the column is returned. *)
Definition languagesColumn (col : nat) (columnX columnWidth startY : Q)
    (columnLanguages : list cleanLanguage) : M Q :=
  foldEach columnLanguages startY (fun columnY lang =>
    when (col =? 0)%nat (checkPageBreak languagesLineHeight ;; ret tt) ;;
    setFillColor textColor ;;
    circle columnX (columnY - 1) languagesBulletSize ;;
    lines <- splitTextToSize (languageText lang) (columnWidth - 6) ;;
    match lines with
    | [] => throw textTypeError
    | first :: _ => text first (columnX + 4) columnY
    end ;;
    ret (columnY + languagesLineHeight)).

(** More than three languages: three columns of contiguous slices. *)
Definition languagesInColumns (languages : list cleanLanguage) : M unit :=
  let columns := 3%nat in
  let columnWidth := (languagesMaxWidth - 2 * languagesColumnGap) / 3 in
  let itemsPerColumn := ceilDiv (List.length languages) 3 in
  startY <- getY ;;
  let columnPositions :=
    [margin + languagesIndent;
     margin + languagesIndent + columnWidth + languagesColumnGap;
     margin + languagesIndent + 2 * (columnWidth + languagesColumnGap)] in
  maxColumnHeight <- foldEach (seq 0 columns) 0 (fun maxColumnHeight col =>
    let startIndex := (col * itemsPerColumn)%nat in
    let endIndex :=
      Nat.min (startIndex + itemsPerColumn) (List.length languages) in
    let columnLanguages := slice startIndex endIndex languages in
    if negb (nonEmpty columnLanguages) then ret maxColumnHeight
    else
      let columnX := nth col columnPositions 0 in
      columnY <- languagesColumn col columnX columnWidth startY
                   columnLanguages ;;
      let columnHeight := columnY - startY in
      ret (Pdf.max maxColumnHeight columnHeight)) ;;
  setY ColumnJoin (startY + maxColumnHeight).

Definition languagesSection (languages : list Language.t) : M unit :=
  when (nonEmpty languages) (
    addSectionHeader js"Languages" ;;
    setFontSize 10 ;;
    setFont normal ;;
    setTextColor textColor ;;
    let languages :=
      sortBy (fun a b => localeCompare host (langName a) (langName b))
        (filter (fun lang => nonEmpty (langName lang)
                             && nonEmpty (langProficiency lang))
           (List.map (fun lang =>
              {| langName := cleanText (ofOption (Language.language lang));
                 langProficiency := cleanText (ofOption (Language.proficiency lang)) |})
              languages)) in
    (if (List.length languages <=? 3)%nat then languagesInList languages
     else languagesInColumns languages) ;;
    advance languagesSpacingAfter).

(** [settings.layout] of the interests section *)
Inductive interestsLayout : Type :=
  layoutLeft | layoutCenter | layoutRight | layoutJustified.

Definition layout : interestsLayout := layoutLeft.

Definition isJustified (l : interestsLayout) : bool :=
  match l with layoutJustified => true | _ => false end.

Definition interestsSection (interests : list jsstring) : M unit :=
  when (nonEmpty interests) (
    addSectionHeader js" Interests" ;;
    let lineHeight := 4 in
    let indent := 6 in
    let spacingAfter := 5 in
    let maxWidth := pageWidth pdf - 2 * margin - 6 in
    setFontSize 10 ;;
    setFont normal ;;
    setTextColor textColor ;;
    let cleanInterests :=
      sortBy compareCodeUnits
        (List.map (fun interest => cleanText (Str interest))
           (filter (fun interest => nonEmpty interest && nonEmpty (trim interest))
              interests)) in
    let interestsText := join bulletSep cleanInterests in
    lines <- splitTextToSize interestsText maxWidth ;;
    forEachI lines (fun index l =>
      checkPageBreak (lineHeight + 2) ;;
      lineWidth <- getTextWidth l ;;
      y <- getY ;;
      xPosition <-
        match layout with
        | layoutCenter => ret ((pageWidth pdf - lineWidth) / 2)
        | layoutRight => ret (pageWidth pdf - margin - lineWidth)
        | layoutJustified =>
            (if (index <? List.length lines - 1)%nat && contains [32%Z] l then
               let words := split 32 l in
               if (1 <? List.length words)%nat then
                 totalWordsWidth <- foldEach words 0 (fun sum word =>
                   w <- getTextWidth word ;; ret (sum + w)) ;;
                 let totalSpaceNeeded := maxWidth - totalWordsWidth in
                 let spaceBetweenWords :=
                   totalSpaceNeeded
                   / inject_Z (Z.of_nat (List.length words - 1)) in
                 foldEachI words (margin + indent) (fun wordIndex currentX word =>
                   text word currentX y ;;
                   if (wordIndex <? List.length words - 1)%nat then
                     w <- getTextWidth word ;;
                     ret (currentX + (w + spaceBetweenWords))
                   else ret currentX) ;;
                 ret tt
               else text l (margin + indent) y
             else text l (margin + indent) y) ;;
            ret 0
        | layoutLeft => ret (margin + indent)
        end ;;
      when (negb (isJustified layout)) (text l xPosition y) ;;
      advance lineHeight) ;;
    advance spacingAfter ;;
    match layout with
    | layoutCenter | layoutRight =>
        let decorativeLineWidth := 30 in
        let decorativeX :=
          match layout with
          | layoutCenter => (pageWidth pdf - decorativeLineWidth) / 2
          | _ => pageWidth pdf - margin - decorativeLineWidth
          end in
        setDrawColor accent ;;
        setLineWidth 0.3 ;;
        y <- getY ;;
        line decorativeX (y - 2) (decorativeX + decorativeLineWidth) (y - 2) ;;
        advance 3
    | _ => ret tt
    end).

(** [if (field && field.trim()) list.push(f(field))] *)
Definition pushIfNotBlank (o : option jsstring) (f : jsstring -> jsstring)
  : list jsstring :=
  match o with
  | Some s => if nonEmpty s && nonEmpty (trim s) then [f s] else []
  | None => []
  end.

Definition referencesSection (references : list Reference.t) : M unit :=
  when (nonEmpty references) (
    addSectionHeader js" References" ;;
    forEachI references (fun refIndex rawRef =>
      let ref := validateReference rawRef in
      checkPageBreak 25 ;;
      setFontSize 12 ;;
      setFont bold ;;
      setTextColor primary ;;
      let refName :=
        cleanText (Str (orElse (Reference.name ref) placeholderName)) in
      y <- getY ;;
      text refName margin y ;;
      advance 6 ;;
      let titleCompany :=
        pushIfNotBlank (Reference.title ref) (fun e => cleanText (Str e))
        ++ pushIfNotBlank (Reference.company ref) (fun e => cleanText (Str e)) in
      when (nonEmpty titleCompany) (
        setFontSize 10 ;;
        setFont italic ;;
        setTextColor accent ;;
        let titleText :=
          match titleCompany with
          | [a; b] => a ++ js" at " ++ b
          | a :: _ => a
          | [] => []
          end in
        y <- getY ;;
        text titleText margin y ;;
        advance 5) ;;
      when (nonEmpty (pushIfNotBlank (Reference.relationship ref) (fun e => e))) (
        setFontSize 9 ;;
        setFont normal ;;
        setTextColor secondary ;;
        y <- getY ;;
        text (js"Relationship: " ++ cleanText (ofOption (Reference.relationship ref)))
          margin y ;;
        advance 4) ;;
      let contactInfo :=
        pushIfNotBlank (Reference.email ref) (fun e => js"Email: " ++ cleanText (Str e))
        ++ pushIfNotBlank (Reference.phone ref) (fun e => js"Phone: " ++ cleanText (Str e)) in
      when (nonEmpty contactInfo) (
        setFontSize 9 ;;
        setFont normal ;;
        setTextColor textColor ;;
        let contactText := join js"  |  " contactInfo in
        textWidth <- getTextWidth contactText ;;
        let maxWidth := pageWidth pdf - margin * 2 in
        if gtb textWidth maxWidth then
          forEach contactInfo (fun contact =>
            y <- getY ;;
            text contact margin y ;;
            advance 3)
        else
          y <- getY ;;
          text contactText margin y ;;
          advance 4) ;;
      if (refIndex <? List.length references - 1)%nat then
        advance 2 ;;
        setDrawColor lightGray ;;
        setLineWidth 0.1 ;;
        y <- getY ;;
        line margin y (pageWidth pdf - margin) y ;;
        advance 6
      else advance 2)).

(** [pdf.save(filename)] *)
Definition save (filename : jsstring) : M unit := call (Save filename).

Definition invalidData : jsstring := js"Invalid resume data provided".
Definition generationFailed : jsstring :=
  js"Failed to generate PDF. Please try again.".

(** [generateTextPDF]: the statements of its [try] block, then the whole
    function run on a new document.  [resumeData] is [None] for a missing
    (null or undefined) argument. *)
Definition exportBody (resumeData : option ResumeData) (filename : jsstring)
    (jobDescription : option jsstring) : M unit :=
  match resumeData with
  | None => throw invalidData
  | Some resumeData =>
      embedJobDescription cleanText jobDescription ;;
      headerSection pdf cleanText (personal resumeData) ;;
      summarySection host pdf cleanText (personal resumeData) ;;
      experienceSection host pdf cleanText (experience resumeData) ;;
      educationSection (education resumeData) ;;
      skillsSection (skills resumeData) ;;
      projectsSection host pdf cleanText js" Projects" (projects resumeData) ;;
      certificationsSection host pdf cleanText js" Certifications"
        (certifications resumeData) ;;
      languagesSection (languages resumeData) ;;
      interestsSection (interests resumeData) ;;
      referencesSection (references resumeData) ;;
      save filename
  end.

Definition generateTextPDF (resumeData : option ResumeData) (templateId : Z)
    (filename : jsstring) (jobDescription : option jsstring)
  : completion unit * state :=
  tryCatchM (exportBody resumeData filename jobDescription)
    (fun _ => throw generationFailed)
    initial.

(** [generateAdvancedPDF] *)
Definition generateAdvancedPDF (resumeData : option ResumeData) (templateId : Z)
    (filename : jsstring) (jobDescription : option jsstring)
  : completion unit * state :=
  generateTextPDF resumeData templateId filename jobDescription.

End Model.
End Exporter.

(** ** The earlier revision of the exporter *)

Module BasicExporter.
Import Layout.
Section Model.
Context (host : JsHost) (pdf : PdfLib).

Local Open Scope Q_scope.
Local Open Scope pdf_scope.

Definition cleanText (t : value) : jsstring :=
  if negb (truthy t) || negb (isString t) then []
  else
    match t with
    | Str s =>
        trim
          (collapseWhiteSpace
             (removeAll isBulletOrDash
                (removeAll (fun c => negb (isPrintableAscii c)) s)))
    | _ => []
    end.

Definition checkPageBreak := Layout.checkPageBreak pdf.
Definition addSectionHeader := Layout.addSectionHeader host pdf.
Definition addBulletPoints := Layout.addBulletPoints pdf.
Definition getTextWidth := Layout.getTextWidth pdf.
Definition splitTextToSize := Layout.splitTextToSize pdf.

Definition educationSection (education : list Education.t) : M unit :=
  when (nonEmpty education) (
    addSectionHeader js"Education" ;;
    forEachI education (fun eduIndex edu =>
      checkPageBreak 12 ;;
      setFontSize 11 ;;
      setFont bold ;;
      setTextColor primary ;;
      y <- getY ;;
      text (cleanText (Str (orElse (Education.degree edu) js"Degree"))) margin y ;;
      when (present (Education.startDate edu) || present (Education.endDate edu)) (
        startDate <- lift (Dates.formatDate host (Education.startDate edu) false) ;;
        endDate <- lift (Dates.formatDate host (Education.endDate edu) true) ;;
        let dateInfo :=
          if nonEmpty startDate then startDate ++ dashSep ++ endDate
          else endDate in
        dateWidth <- getTextWidth dateInfo ;;
        setFont normal ;;
        setTextColor secondary ;;
        y <- getY ;;
        text dateInfo (pageWidth pdf - margin - dateWidth) y) ;;
      advance 4 ;;
      setFontSize 10 ;;
      setFont italic ;;
      setTextColor accent ;;
      y <- getY ;;
      text (cleanText (Str (orElse (Education.school edu) js"School"))) margin y ;;
      advance 3 ;;
      let locationGPA :=
        pushIf (Education.location edu) (fun e => cleanText (Str e))
        ++ pushIf (Education.gpa edu) (fun e => js"GPA: " ++ cleanText (Str e)) in
      when (nonEmpty locationGPA) (
        setFontSize 8 ;;
        setFont normal ;;
        setTextColor lightGray ;;
        y <- getY ;;
        text (join bulletSep locationGPA) margin y ;;
        advance 3) ;;
      whenSome (Education.description edu) (fun description =>
        advance 1 ;;
        addBulletPoints description 6 true ;;
        advance (-1)) ;;
      advance (if (eduIndex <? List.length education - 1)%nat then 3 else 5))).

(** What [skill.trim()] throws when [skill] is not a string. *)
Definition trimTypeError : jsstring := js"skill?.trim is not a function".

(** [typeof skill === 'object' && skill?.name ? skill.name : String(skill)],
    followed by the [skill?.trim()] of the filter, which needs a string. *)
Definition skillName (skill : skillEntry) : completion jsstring :=
  match skill with
  | SkillObject name _ _ =>
      if truthy name then
        match name with
        | Str s => Normal s
        | _ => Throw trimTypeError
        end
      else Normal js"[object Object]"
  | SkillString s => Normal s
  end.

Fixpoint skillsArray (skills : list skillEntry) : completion (list jsstring) :=
  match skills with
  | [] => Normal []
  | skill :: rest =>
      match skillName skill with
      | Throw e => Throw e
      | Normal n =>
          match skillsArray rest with
          | Throw e => Throw e
          | Normal ns => Normal (if nonEmpty (trim n) then n :: ns else ns)
          end
      end
  end.

Definition projectsAndAfter (resumeData : ResumeData) (filename : jsstring)
  : M unit :=
  projectsSection host pdf cleanText js"Notable Projects" (projects resumeData) ;;
  certificationsSection host pdf cleanText js"Professional Certifications"
    (certifications resumeData) ;;
  when (nonEmpty (languages resumeData)) (
    addSectionHeader js"Languages" ;;
    setFontSize 10 ;;
    setFont normal ;;
    setTextColor textColor ;;
    let languagesList :=
      join bulletSep
        (sortBy compareCodeUnits
           (List.map (fun lang =>
              cleanText (ofOption (Language.language lang)) ++ js" ("
              ++ cleanText (ofOption (Language.proficiency lang)) ++ js")")
              (languages resumeData))) in
    lines <- splitTextToSize languagesList (pageWidth pdf - 2 * margin - 6) ;;
    forEach lines (fun l =>
      checkPageBreak 4 ;;
      y <- getY ;;
      text l (margin + 6) y ;;
      advance 4) ;;
    advance 3) ;;
  when (nonEmpty (interests resumeData)) (
    addSectionHeader js"Professional Interests" ;;
    setFontSize 10 ;;
    setFont normal ;;
    setTextColor textColor ;;
    let interestsText :=
      join bulletSep
        (sortBy compareCodeUnits
           (List.map (fun interest => cleanText (Str interest))
              (filter (fun interest => nonEmpty interest && nonEmpty (trim interest))
                 (interests resumeData)))) in
    lines <- splitTextToSize interestsText (pageWidth pdf - 2 * margin - 6) ;;
    forEach lines (fun l =>
      checkPageBreak 4 ;;
      y <- getY ;;
      text l (margin + 6) y ;;
      advance 4) ;;
    advance 3) ;;
  when (nonEmpty (references resumeData)) (
    addSectionHeader js"Professional References" ;;
    forEachI (references resumeData) (fun refIndex ref =>
      checkPageBreak 20 ;;
      setFontSize 11 ;;
      setFont bold ;;
      setTextColor primary ;;
      y <- getY ;;
      text (cleanText (Str (orElse (Reference.name ref) js"Reference"))) margin y ;;
      advance 5 ;;
      setFontSize 10 ;;
      setFont italic ;;
      setTextColor accent ;;
      let titleCompany :=
        pushIf (Reference.title ref) (fun e => cleanText (Str e))
        ++ pushIf (Reference.company ref) (fun e => cleanText (Str e)) in
      when (nonEmpty titleCompany) (
        y <- getY ;;
        text (join js" at " titleCompany) margin y ;;
        advance 3) ;;
      whenSome (Reference.relationship ref) (fun relationship =>
        setFontSize 9 ;;
        setFont normal ;;
        setTextColor secondary ;;
        y <- getY ;;
        text (js"Professional Relationship: " ++ cleanText (Str relationship))
          margin y ;;
        advance 3) ;;
      setFontSize 9 ;;
      setFont normal ;;
      setTextColor textColor ;;
      let contactInfo :=
        pushIf (Reference.email ref) (fun e => cleanText (Str e))
        ++ pushIf (Reference.phone ref) (fun e => cleanText (Str e)) in
      let last := negb (refIndex <? List.length (references resumeData) - 1)%nat in
      if nonEmpty contactInfo then
        y <- getY ;;
        text (join bulletSep contactInfo) margin y ;;
        advance (if last then 2 else 4)
      else advance (if last then 2 else 3))) ;;
  call (Save filename).

(** The statements of the [try] block of [generateTextPDF].  The two
    [return] statements of the skills part leave the function: what
    follows them, down to [pdf.save(filename)], is not run. *)
Definition exportBody (resumeData : option ResumeData) (filename : jsstring)
    (jobDescription : option jsstring) : M unit :=
  match resumeData with
  | None => throw Exporter.invalidData
  | Some resumeData =>
      embedJobDescription cleanText jobDescription ;;
      headerSection pdf cleanText (personal resumeData) ;;
      summarySection host pdf cleanText (personal resumeData) ;;
      experienceSection host pdf cleanText (experience resumeData) ;;
      educationSection (education resumeData) ;;
      if negb (nonEmpty (skills resumeData)) then ret tt
      else
        addSectionHeader js"Core Competencies & Technical Skills" ;;
        skillsArray <- lift (skillsArray (skills resumeData)) ;;
        if negb (nonEmpty skillsArray) then ret tt
        else
          setFontSize 10 ;;
          setFont normal ;;
          setTextColor textColor ;;
          let skillsText :=
            join bulletSep
              (sortBy compareCodeUnits
                 (List.map (fun skill => cleanText (Str skill)) skillsArray)) in
          lines <- splitTextToSize skillsText (pageWidth pdf - 2 * margin - 6) ;;
          forEach lines (fun l =>
            checkPageBreak 4 ;;
            y <- getY ;;
            text l (margin + 6) y ;;
            advance 4) ;;
          advance 3 ;;
          projectsAndAfter resumeData filename
  end.

Definition generateTextPDF (resumeData : option ResumeData) (templateId : Z)
    (filename : jsstring) (jobDescription : option jsstring)
  : completion unit * state :=
  tryCatchM (exportBody resumeData filename jobDescription)
    (fun _ => throw Exporter.generationFailed)
    initial.

End Model.
End BasicExporter.

(** ** The builder page

    The page keeps the resume document and hands it to the exporter.  Its
    handlers are read as functions of the state they see; what they show
    in a toast and what they pass on is part of their result. *)

Module Builder.

(** What the page shows in a toast. *)
Inductive toast : Type :=
| ToastError (message : jsstring)
| ToastInfo (message : jsstring)
| ToastSuccess (message : jsstring).

(** [[•·‣▪▫-]] *)
Definition listMarkers : list Z := [8226; 183; 8227; 9642; 9643; 45].

Definition isListMarker (c : Z) : bool := existsb (Z.eqb c) listMarkers.

(** [/^[•·‣▪▫-]\s/] *)
Definition markedLine : pattern :=
  {| atStart := true;
     body := Seq (Class isListMarker) (Class isWhiteSpace);
     atEnd := false |}.

(** The lines of a text that hold something, trimmed:
    [text.split('\n').map(line => line.trim()).filter(line => line)]. *)
Definition trimmedLines (text : jsstring) : list jsstring :=
  filter (fun line => negb (Js.eqb line [])) (List.map trim (split 10 text)).

Definition formatWithBullets (text : jsstring) : jsstring :=
  if Js.eqb text [] then []
  else
    let lines := trimmedLines text in
    join [10]
      (List.map (fun line =>
         if negb (test markedLine line) then [8226; 32] ++ line else line)
         lines).

(** An entry of a section array as a form hands it over: the record the
    exporter reads, with an [id]. *)
Record item (A : Type) : Type := {
  id : option Z;
  fields : A
}.
Arguments id {A} _.
Arguments fields {A} _.

(** [x.id || index + 1] *)
Definition idOr (id : option Z) (index : nat) : Z :=
  match id with
  | Some n => if n =? 0 then Z.of_nat index + 1 else n
  | None => Z.of_nat index + 1
  end.

(** [l.map((x, index) => f(index, x))] *)
Fixpoint mapFrom {A B} (i : nat) (f : nat -> A -> B) (l : list A) : list B :=
  match l with
  | [] => []
  | x :: r => f i x :: mapFrom (S i) f r
  end.

(** [updateExperience]: the experience array it stores in the document. *)
Definition updateExperience (data : list (item Experience.t))
  : list (item Experience.t) :=
  mapFrom 0 (fun index exp =>
    let e := fields exp in
    {| id := Some (idOr (id exp) index);
       fields :=
         {| Experience.position := Experience.position e;
            Experience.company := Experience.company e;
            Experience.startDate := Experience.startDate e;
            Experience.endDate := Experience.endDate e;
            Experience.location := Experience.location e;
            Experience.description :=
              Some (match Experience.description e with
                    | Some d => if Js.eqb d [] then [] else formatWithBullets d
                    | None => []
                    end) |} |})
    data.

(** [[a-z0-9]] under the flag [i]: the ASCII letters and digits (without
    the flag [u] no character outside ASCII is canonicalised to an ASCII
    letter). *)
Definition isAlphaNumeric (c : Z) : bool := isLetter c || Dates.isDigit c.

(** [`${fullName.replace(/[^a-z0-9]/gi, '_')}_Resume.pdf`] *)
Definition downloadName (fullName : jsstring) : jsstring :=
  List.map (fun c => if isAlphaNumeric c then c else 95) fullName
  ++ js"_Resume.pdf".

Section Download.
(** [PDFGenerator.generateTextPDF] and what it leaves behind. *)
Context (generateTextPDF :
           option ResumeData -> Z -> jsstring -> option jsstring
           -> completion unit * state).

(** What [handleDownloadPDF] reads of the state of the page. *)
Record page : Type := {
  resumeData : ResumeData;
  jobDescription : jsstring;
  selectedTemplate : Z
}.

(** What a download shows and does: the toasts in the order shown, and the
    run of the exporter, if it was called. *)
Record download : Type := {
  toasts : list toast;
  exported : option (completion unit * state)
}.

(** [handleDownloadPDF].  The document goes to the exporter with the job
    description as an extra field, which the exporter does not read: its
    own fourth parameter is not given. *)
Definition handleDownloadPDF (p : page) : completion download :=
  match personal (resumeData p) with
  | None => Throw js"Cannot read properties of undefined (reading 'fullName')"
  | Some who =>
      match Personal.fullName who with
      | None =>
          Normal {| toasts := [ToastError js"Please add your name before downloading"];
                    exported := None |}
      | Some fullName =>
          if Js.eqb fullName [] then
            Normal {| toasts := [ToastError js"Please add your name before downloading"];
                      exported := None |}
          else
            let ats := negb (Js.eqb (jobDescription p) []) in
            let started :=
              if ats
              then ToastInfo js"Generating ATS-optimized PDF with embedded job keywords..."
              else ToastInfo js"Generating PDF... This may take a moment." in
            let filename := downloadName fullName in
            let run :=
              generateTextPDF (Some (resumeData p)) (selectedTemplate p) filename
                None in
            let finished :=
              match fst run with
              | Normal _ =>
                  if ats
                  then ToastSuccess
                         js"ATS-optimized PDF downloaded with hidden keywords for better matching!"
                  else ToastSuccess js"PDF downloaded successfully!"
              | Throw _ => ToastError js"Failed to download PDF. Please try again."
              end in
            Normal {| toasts := [started; finished]; exported := Some run |}
      end
  end.

End Download.

End Builder.

(** ** The education form *)

Module EducationForm.

(** The [id] of an entry: a number ([Date.now()] when the form makes the
    entry), or the text that [updateEducation] puts there when it is called
    on the key [id]. *)
Inductive ident : Type :=
| NumberId (n : Z)
| TextId (s : jsstring).

Record entry : Type := {
  id : ident;
  school : jsstring;
  degree : jsstring;
  location : jsstring;
  startDate : jsstring;
  endDate : jsstring;
  gpa : jsstring;
  description : option jsstring;
  courses : option jsstring;
  honors : option jsstring
}.

(** [keyof Education] *)
Inductive key : Type :=
| KId | KSchool | KDegree | KLocation | KStartDate | KEndDate | KGpa
| KDescription | KCourses | KHonors.

(** [createNewEducation], at the time [now]. *)
Definition createNewEducation (now : Z) : entry :=
  {| id := NumberId now; school := []; degree := []; location := [];
     startDate := []; endDate := []; gpa := [];
     description := Some []; courses := Some []; honors := Some [] |}.

(** [/^\d{4}-\d{2}$/] *)
Definition monthPattern : pattern :=
  let digit := Class Dates.isDigit in
  {| atStart := true;
     body := Seq digit (Seq digit (Seq digit (Seq digit
               (Seq (Chr 45) (Seq digit digit)))));
     atEnd := true |}.

(** [value === '' || /^\d{4}-\d{2}$/.test(value)] *)
Definition isValidDate (value : jsstring) : bool :=
  Js.eqb value [] || test monthPattern value.

Definition isDateKey (field : key) : bool :=
  match field with KStartDate | KEndDate => true | _ => false end.

(** [{ ...edu, [field]: value }] *)
Definition setField (edu : entry) (field : key) (value : jsstring) : entry :=
  {| id := match field with KId => TextId value | _ => id edu end;
     school := match field with KSchool => value | _ => school edu end;
     degree := match field with KDegree => value | _ => degree edu end;
     location := match field with KLocation => value | _ => location edu end;
     startDate := match field with KStartDate => value | _ => startDate edu end;
     endDate := match field with KEndDate => value | _ => endDate edu end;
     gpa := match field with KGpa => value | _ => gpa edu end;
     description :=
       match field with KDescription => Some value | _ => description edu end;
     courses := match field with KCourses => Some value | _ => courses edu end;
     honors := match field with KHonors => Some value | _ => honors edu end |}.

(** [edu.id === id] for a number [id] *)
Definition hasId (id0 : Z) (edu : entry) : bool :=
  match id edu with
  | NumberId n => n =? id0
  | TextId _ => false
  end.

(** What a handler leaves: the entries of the form, what it passed to
    [onChange] if it called it, and the toast it showed. *)
Record outcome : Type := {
  educations : list entry;
  notified : option (list entry);
  shown : option Builder.toast
}.

Definition updateEducation (current : list entry) (id0 : Z) (field : key)
    (value : jsstring) : outcome :=
  if isDateKey field && negb (isValidDate value) then
    {| educations := current; notified := None;
       shown := Some (Builder.ToastError
                        js"Please use YYYY-MM format for dates (e.g., 2020-09)") |}
  else
    let updatedEducations :=
      List.map (fun edu => if hasId id0 edu then setField edu field value else edu)
        current in
    {| educations := updatedEducations; notified := Some updatedEducations;
       shown := None |}.

Definition addEducation (current : list entry) (now : Z) : outcome :=
  let updatedEducations := current ++ [createNewEducation now] in
  {| educations := updatedEducations; notified := Some updatedEducations;
     shown := Some (Builder.ToastSuccess js"New education added") |}.

Definition removeEducation (current : list entry) (id0 : Z) : outcome :=
  if (List.length current =? 1)%nat then
    {| educations := current; notified := None;
       shown := Some (Builder.ToastError
                        js"At least one education entry is required") |}
  else
    let updatedEducations := filter (fun edu => negb (hasId id0 edu)) current in
    {| educations := updatedEducations; notified := Some updatedEducations;
       shown := Some (Builder.ToastSuccess js"Education removed") |}.

(** The entries the form starts with:
    [data.length > 0 ? data : [createNewEducation()]]. *)
Definition initialEducations (data : list entry) (now : Z) : list entry :=
  match data with
  | [] => [createNewEducation now]
  | _ :: _ => data
  end.

End EducationForm.

(** ** The interests form *)

Module InterestsForm.

(** What a handler leaves: what it passed to [onChange] if it called it,
    whether it emptied the input box, and the toast it showed. *)
Record outcome : Type := {
  notified : option (list jsstring);
  inputCleared : bool;
  shown : option Builder.toast
}.

Definition addInterest (data : list jsstring) (newInterest : jsstring)
  : outcome :=
  let trimmed := trim newInterest in
  if negb (Js.eqb trimmed []) && negb (includes data trimmed) then
    {| notified := Some (data ++ [trimmed]); inputCleared := true;
       shown := Some (Builder.ToastSuccess js"Interest added successfully!") |}
  else if includes data trimmed then
    {| notified := None; inputCleared := false;
       shown := Some (Builder.ToastError js"This interest is already added") |}
  else {| notified := None; inputCleared := false; shown := None |}.

Definition removeInterest (data : list jsstring) (interest : jsstring)
  : outcome :=
  {| notified := Some (filter (fun item => negb (Js.eqb item interest)) data);
     inputCleared := false;
     shown := Some (Builder.ToastSuccess js"Interest removed") |}.

End InterestsForm.

(** ** The skills form *)

Module SkillsForm.

Record skill : Type := {
  id : Z;
  name : jsstring;
  level : jsstring;
  category : jsstring
}.

(** The two shapes of the [skills] of a document: names, or records with a
    name, a level and a category. *)
Inductive skillsData : Type :=
| Simple (names : list jsstring)
| Enhanced (records : list (jsstring * jsstring * jsstring)).

(** [s || fallback] *)
Definition orDefault (s fallback : jsstring) : jsstring :=
  if Js.eqb s [] then fallback else s.

(** The effect that loads the form from its [data]: the skills, and
    whether the form is in enhanced mode. *)
Definition load (data : skillsData) : list skill * bool :=
  match data with
  | Simple [] | Enhanced [] => ([], false)
  | Enhanced records =>
      (Builder.mapFrom 0 (fun index '(n, l, c) =>
         {| id := Z.of_nat index + 1; name := n;
            level := orDefault l js"Intermediate";
            category := orDefault c js"Technical" |}) records,
       true)
  | Simple names =>
      (Builder.mapFrom 0 (fun index n =>
         {| id := Z.of_nat index + 1; name := n;
            level := js"Intermediate"; category := js"Technical" |}) names,
       false)
  end.

(** What the form passes to [onChange] in either mode. *)
Definition report (isEnhancedMode : bool) (skills : list skill) : skillsData :=
  if isEnhancedMode
  then Enhanced (List.map (fun s => (name s, level s, category s)) skills)
  else Simple (List.map name skills).

(** What a handler leaves: the skills of the form, its mode, what it
    passed to [onChange] if it called it, and whether it emptied the input
    box. *)
Record outcome : Type := {
  skills : list skill;
  isEnhancedMode : bool;
  notified : option skillsData;
  inputCleared : bool
}.

Definition updateSkillsData (mode : bool) (updatedSkills : list skill)
  : outcome :=
  {| skills := updatedSkills; isEnhancedMode := mode;
     notified := Some (report mode updatedSkills); inputCleared := false |}.

Definition toggleEnhancedMode (current : list skill) (mode : bool) : outcome :=
  let newMode := negb mode in
  {| skills := current; isEnhancedMode := newMode;
     notified := Some (report newMode current); inputCleared := false |}.

Section WithHost.
Context (host : JsHost).

(** [skills.some(skill => skill.name.toLowerCase() === lowered)] *)
Definition hasName (current : list skill) (lowered : jsstring) : bool :=
  existsb (fun s => Js.eqb (toLowerCase host (name s)) lowered) current.

(** [addSkill], at the time [now], with the level and the category chosen
    in the form. *)
Definition addSkill (current : list skill) (mode : bool)
    (newSkill newLevel newCategory : jsstring) (now : Z) : outcome :=
  let unchanged :=
    {| skills := current; isEnhancedMode := mode; notified := None;
       inputCleared := false |} in
  if Js.eqb (trim newSkill) [] then unchanged
  else if hasName current (toLowerCase host (trim newSkill)) then unchanged
  else
    let added :=
      {| id := now; name := trim newSkill; level := newLevel;
         category := newCategory |} in
    let updated := updateSkillsData mode (current ++ [added]) in
    {| skills := skills updated; isEnhancedMode := isEnhancedMode updated;
       notified := notified updated; inputCleared := true |}.

End WithHost.

Definition removeSkill (current : list skill) (mode : bool) (id0 : Z)
  : outcome :=
  updateSkillsData mode (filter (fun s => negb (id s =? id0)) current).

(** The elements of the document's [skills] as the exporter reads them: a
    name is a string, a record is an object whose [name] is the name and
    which has no [skill] and no [title]. *)
Definition toEntries (data : skillsData) : list skillEntry :=
  match data with
  | Simple names => List.map SkillString names
  | Enhanced records =>
      List.map (fun '(n, _, _) => SkillObject (Str n) Undefined Undefined) records
  end.

End SkillsForm.

(** ** A sample engine and page, for concrete runs *)

Module Sample.

Local Open Scope Q_scope.

(** An engine as engines behave on ASCII text: normalisation and the case
    of characters outside ASCII are left alone, strings are compared by
    code units (after lower-casing, for the [base] sensitivity), the
    engine's own date heuristics recognise nothing, and local time is at a
    fixed offset from UTC. *)
Definition host (tzOffsetMs : Z) : JsHost :=
  {| normalizeNFKD := fun s => s;
     lowerNonAscii := fun s i => [nth i s 0%Z];
     upperNonAscii := fun s i => [nth i s 0%Z];
     localeCompareBase := fun a b =>
       compareCodeUnits (List.map lowerAscii a) (List.map lowerAscii b);
     localeCompare := compareCodeUnits;
     legacyDateParse := fun _ => None;
     localTZA := fun _ => tzOffsetMs |}.

(** Five hours west of Greenwich, in milliseconds. *)
Definition utcMinus5 : Z := (-18000000)%Z.

(** An A4 page in millimetres (595.28 by 841.89 points), with a text
    metric of 0.18 mm per character and point of font size, for texts
    short enough to stay on one line. *)
Definition a4 : PdfLib :=
  {| pageWidth := 595.28 * 25.4 / 72;
     pageHeight := 841.89 * 25.4 / 72;
     getTextWidth := fun size _ t =>
       inject_Z (Z.of_nat (List.length t)) * size * 0.18;
     splitTextToSize := fun _ _ t _ => [t] |}.

(** ["Résumé • Summary"] *)
Definition resumeSummary : jsstring :=
  [82; 233; 115; 117; 109; 233; 32; 8226; 32; 83; 117; 109; 109; 97; 114; 121]%Z.

(** A document with only [personal.fullName = "Jane Doe"]. *)
Definition janeDoe : ResumeData :=
  {| personal :=
       Some {| Personal.fullName := Some js"Jane Doe"; Personal.email := None;
               Personal.phone := None; Personal.location := None;
               Personal.summary := None |};
     experience := []; education := []; skills := []; projects := [];
     certifications := []; languages := []; interests := [];
     references := [] |}.

(** The same document with some skills. *)
Definition withSkills (names : list jsstring) : ResumeData :=
  {| personal := personal janeDoe;
     experience := []; education := [];
     skills := List.map SkillString names;
     projects := []; certifications := []; languages := []; interests := [];
     references := [] |}.

End Sample.

(** * Notions used in the statements *)

Module Notions.

(** No two adjacent white-space characters; [prev] tells that the
    character before the string is white space. *)
Fixpoint noRun (prev : bool) (s : jsstring) : bool :=
  match s with
  | [] => true
  | c :: r =>
      if isWhiteSpace c then negb prev && noRun true r else noRun false r
  end.

(** The first character, if any, is not white space. *)
Definition headOk (s : jsstring) : bool :=
  match s with
  | [] => true
  | c :: _ => negb (isWhiteSpace c)
  end.

(** What a sanitized text looks like: printable ASCII only, no hyphen and
    no bullet glyph, no two neighbouring white-space characters, and no
    white space at either end. *)
Definition Sanitized (c : jsstring) : Prop :=
  (forall ch, In ch c -> 32 <= ch <= 126) /\
  (forall ch, In ch c -> ~ In ch bulletGlyphs) /\
  (forall l1 a b l2, c = l1 ++ a :: b :: l2 ->
     ~ (isWhiteSpace a = true /\ isWhiteSpace b = true)) /\
  (forall ch r, c = ch :: r -> isWhiteSpace ch = false) /\
  (forall r ch, c = r ++ [ch] -> isWhiteSpace ch = false).

(** The same, in the form the proofs use. *)
Definition Clean (c : jsstring) : Prop :=
  Forall (fun ch => isPrintableAscii ch = true) c /\
  Forall (fun ch => isBulletOrDash ch = false) c /\
  noRun false c = true /\ headOk c = true /\ headOk (rev c) = true.

(** The strings of a regular expression. *)
Inductive lang : regex -> jsstring -> Prop :=
| LEps : lang Eps []
| LClass p c : p c = true -> lang (Class p) [c]
| LSeq r1 r2 s1 s2 : lang r1 s1 -> lang r2 s2 -> lang (Seq r1 r2) (s1 ++ s2)
| LAltL r1 r2 s : lang r1 s -> lang (Alt r1 r2) s
| LAltR r1 r2 s : lang r2 s -> lang (Alt r1 r2) s
| LStarNil r : lang (Star r) []
| LStarApp r s1 s2 : lang r s1 -> lang (Star r) s2 -> lang (Star r) (s1 ++ s2).

(** A valid name: more than one and fewer than a hundred characters, one of
    them a letter. *)
Definition ValidName (name : jsstring) : Prop :=
  (1 < List.length name < 100)%nat /\
  exists c, In c name /\ isLetter c = true.

(** The skills of the example: ["AI"], ["to"], ["a"], ["early"],
    ["JavaScript"]. *)
Definition exampleSkills : list skillEntry :=
  List.map SkillString [js"AI"; js"to"; js"a"; js"early"; js"JavaScript"].

Local Open Scope Q_scope.

(** A cursor at 280 on the third page of an A4 document. *)
Definition nearBottom : state :=
  {| yPosition := 280; page := 3; fontSize := 10; style := normal;
     ops := []; headers := []; writes := [] |}.

(** The texts drawn so far with their horizontal positions, oldest
    first. *)
Definition drawnTexts (s : state) : list (jsstring * Q) :=
  rev (flat_map (fun o => match o with Text t x _ => [(t, x)] | _ => [] end)
         (ops s)).

Definition threeSkills : list jsstring := [js"Docker"; js"Python"; js"Rust"].

Definition fiveSkills : list jsstring :=
  [js"Docker"; js"Java"; js"Linux"; js"Python"; js"SQL"].

(** A write to the cursor is in order when it starts a page, is the rewind
    between the two skill columns, or does not lower the cursor. *)
Definition okWrite (w : write) : Prop :=
  kind w = PageReset \/ kind w = ColumnRewind \/ before w <= after w.

(** From [s] to [s'] only writes in order were made. *)
Definition extends (s s' : state) : Prop :=
  exists ws, writes s' = ws ++ writes s /\ Forall okWrite ws.

(** [Spec P m R]: run from a cursor at or below the top margin that
    satisfies [P], the statements [m] make only writes in order, leave the
    cursor at or below the top margin and, when they end normally with [a],
    leave it satisfying [R a]. *)
Definition Spec {A} (P : Q -> Prop) (m : M A) (R : A -> Q -> Prop) : Prop :=
  forall s, margin <= yPosition s -> P (yPosition s) ->
    extends s (snd (m s)) /\ margin <= yPosition (snd (m s)) /\
    match fst (m s) with
    | Normal a => R a (yPosition (snd (m s)))
    | Throw _ => True
    end.

(** Statements that keep the cursor in order, whatever its position. *)
Definition Steady {A} (m : M A) : Prop :=
  Spec (fun _ => True) m (fun _ _ => True).

(** Statements that do not touch the cursor. *)
Definition Still {A} (m : M A) : Prop :=
  forall s, yPosition (snd (m s)) = yPosition s /\ writes (snd (m s)) = writes s.

Definition isSave (o : op) : bool :=
  match o with Save _ => true | _ => false end.

(** [pdf.save] has been called. *)
Definition saved (s : state) : bool := existsb isSave (ops s).

(** A full name and nothing in any section array. *)
Definition OnlyPersonal (resumeData : ResumeData) : Prop :=
  (exists p fullName,
     personal resumeData = Some p /\ Personal.fullName p = Some fullName
     /\ fullName <> []) /\
  experience resumeData = [] /\ education resumeData = [] /\
  skills resumeData = [] /\ projects resumeData = [] /\
  certifications resumeData = [] /\ languages resumeData = [] /\
  interests resumeData = [] /\ references resumeData = [].

(** Statements that end normally, do not save, and draw no section header
    but that of the summary. *)
Definition Plain {A} (m : M A) : Prop :=
  forall s,
    (exists a, fst (m s) = Normal a) /\
    saved (snd (m s)) = saved s /\
    (forall h, In h (headers (snd (m s))) ->
       In h (headers s) \/ h = js"Executive Summary").

(** What comes before the sections: the job description, the name with
    the contact line, and the summary. *)
Definition prelude (host : JsHost) (pdf : PdfLib) (cleanText : value -> jsstring)
    (resumeData : ResumeData) (jobDescription : option jsstring) : M unit :=
  bind (Layout.embedJobDescription cleanText jobDescription) (fun _ =>
  bind (Layout.headerSection pdf cleanText (personal resumeData)) (fun _ =>
  Layout.summarySection host pdf cleanText (personal resumeData))).

(** ** Notions for the forms, the builder page and whole exports *)

Local Open Scope Z_scope.

(** An email address as [isValidEmail] wants it: a name, [@], a domain,
    a dot and an ending, none of them empty, with no white space and no
    [@] inside. *)
Definition EmailShape (email : jsstring) : Prop :=
  exists name domain ending,
    email = name ++ 64 :: domain ++ 46 :: ending /\
    name <> [] /\ domain <> [] /\ ending <> [] /\
    Forall (fun c => isWhiteSpace c = false /\ c <> 64) (name ++ domain ++ ending).

(** A skill as the skills section draws it: sanitized text of three
    characters at least, whose first character is not a small letter and
    which, in lower case, is not on the stoplist. *)
Definition DrawnSkill (skill : jsstring) : Prop :=
  Sanitized skill /\ (3 <= List.length skill)%nat /\
  (exists c r, skill = c :: r /\ isLowerAZ c = false) /\
  ~ In (List.map lowerAscii skill) Exporter.excludeWords.

(** The digit that ends the decimal writing of [n]. *)
Definition digitChar (n : Z) : Z := 48 + n mod 10.

(** The text [YYYY-MM] of a year and a month, as a month input gives it. *)
Definition yearMonth (y m : Z) : jsstring :=
  [digitChar (y / 1000); digitChar (y / 100); digitChar (y / 10); digitChar y;
   45; digitChar (m / 10); digitChar m].

(** The month before a month, with its year. *)
Definition monthBefore (y m : Z) : Z * Z :=
  if m =? 1 then (y - 1, 12) else (y, m - 1).

(** The texts of the [text] calls among some calls (newest first), oldest
    first. *)
Definition textStrings (l : list op) : list jsstring :=
  rev (flat_map (fun o => match o with Text t _ _ => [t] | _ => [] end) l).

(** What [formatWithBullets] makes of one line. *)
Definition markLine (line : jsstring) : jsstring :=
  if negb (test Builder.markedLine line) then [8226; 32] ++ line else line.

(** A line as [trimmedLines] leaves it: not empty, trimmed, without a line
    break. *)
Definition TrimmedLine (l : jsstring) : Prop :=
  l <> [] /\ trim l = l /\ ~ In 10 l.

(** An entry of the education form whose dates are empty or of the form
    [YYYY-MM]. *)
Definition WellDated (e : EducationForm.entry) : Prop :=
  EducationForm.isValidDate (EducationForm.startDate e) = true /\
  EducationForm.isValidDate (EducationForm.endDate e) = true.

(** No two entries of the education form have the same [id]. *)
Definition DistinctIds (l : list EducationForm.entry) : Prop :=
  NoDup (List.map EducationForm.id l).

(** A list of interests without repetition whose elements are trimmed and
    not empty. *)
Definition Tidy (data : list jsstring) : Prop :=
  NoDup data /\ Forall (fun i => i <> [] /\ trim i = i) data.

(** The names of the skills of the form, in lower case. *)
Definition lowerNames (host : JsHost) (l : list SkillsForm.skill)
  : list jsstring :=
  List.map (fun s => toLowerCase host (SkillsForm.name s)) l.

(** The calls that hide the job description: white as the text colour,
    and the font size 0.1. *)
Definition isHidden (o : op) : bool :=
  match o with
  | SetTextColor (r, g, b) => (r =? 255) && (g =? 255) && (b =? 255)
  | SetFontSize size => Qeq_bool size 0.1
  | _ => false
  end.

(** Any call but [save], and any call but [save] and those that hide
    text. *)
Definition notSave (o : op) : bool := negb (isSave o).

Definition ordinary (o : op) : bool := negb (isSave o) && negb (isHidden o).

(** [Emits allowed titles m]: from any state, the statements [m] make only
    calls that are [allowed] and draw the section headers [titles] (newest
    first), whether they end normally or not. *)
Definition Emits (allowed : op -> bool) (titles : list jsstring) {A} (m : M A)
  : Prop :=
  forall s, exists emitted,
    ops (snd (m s)) = emitted ++ ops s /\
    forallb allowed emitted = true /\
    headers (snd (m s)) = titles ++ headers s.

(** Statements that draw no section header. *)
Definition Quiet (allowed : op -> bool) {A} (m : M A) : Prop :=
  Emits allowed [] m.

(** [[title]] if [b], nothing otherwise. *)
Definition titleIf (b : bool) (title : jsstring) : list jsstring :=
  if b then [title] else [].

(** The document has a summary. *)
Definition summaryOf (p : option Personal.t) : bool :=
  match p with
  | Some p => present (Personal.summary p)
  | None => false
  end.

(** The document has a skill that passes the filter. *)
Definition skillsShown (host : JsHost) (skills : list skillEntry) : bool :=
  Layout.nonEmpty skills && Layout.nonEmpty (Exporter.skillsArray host skills).

(** The titles of the sections of a document that the current revision
    draws, in the order of the page. *)
Definition sectionTitles (host : JsHost) (r : ResumeData) : list jsstring :=
  titleIf (summaryOf (personal r)) js"Executive Summary"
  ++ titleIf (Layout.nonEmpty (experience r)) js"Professional Experience"
  ++ titleIf (Layout.nonEmpty (education r)) js"Education"
  ++ titleIf (skillsShown host (skills r)) js"Core Competencies & Technical Skills"
  ++ titleIf (Layout.nonEmpty (projects r)) js" Projects"
  ++ titleIf (Layout.nonEmpty (certifications r)) js" Certifications"
  ++ titleIf (Layout.nonEmpty (languages r)) js"Languages"
  ++ titleIf (Layout.nonEmpty (interests r)) js" Interests"
  ++ titleIf (Layout.nonEmpty (references r)) js" References".

(** Statements that draw the sections [titles] in this order, as far as
    they get, make only [allowed] calls on the way and, when they end
    normally, have drawn all of them and saved under [filename] last. *)
Definition Exports (allowed : op -> bool) (filename : jsstring)
    (titles : list jsstring) (m : M unit) : Prop :=
  forall s, exists emitted shown rest,
    titles = shown ++ rest /\
    headers (snd (m s)) = rev shown ++ headers s /\
    forallb allowed emitted = true /\
    match fst (m s) with
    | Normal _ => ops (snd (m s)) = Save filename :: emitted ++ ops s /\ rest = []
    | Throw _ => ops (snd (m s)) = emitted ++ ops s
    end.

(** Statements that end normally. *)
Definition Completes {A} (m : M A) : Prop :=
  forall s, exists a, fst (m s) = Normal a.

(** Statements that end normally with the document saved. *)
Definition Saves {A} (m : M A) : Prop :=
  forall s, (exists a, fst (m s) = Normal a) /\ saved (snd (m s)) = true.

(** jsPDF cuts a text that is not empty into one line at least. *)
Definition SplitsIntoLines (pdf : PdfLib) : Prop :=
  forall size st t maxWidth,
    t <> [] -> Pdf.splitTextToSize pdf size st t maxWidth <> [].

(** What is drawn for a language in the three columns: the first line of
    its text, cut to the width of a column under the font of [s]. *)
Definition languageLabel (pdf : PdfLib) (s : state)
    (lang : Exporter.cleanLanguage) : jsstring :=
  hd []
    (Pdf.splitTextToSize pdf (fontSize s) (style s) (Exporter.languageText lang)
       ((Exporter.languagesMaxWidth pdf - 2 * Exporter.languagesColumnGap) / 3
        - 6)%Q).

(** From [s] the statements [m] end normally, leave the font as it is and
    draw the texts [texts], in this order. *)
Definition Draws {A} (m : M A) (s : state) (texts : list jsstring) : Prop :=
  (exists a, fst (m s) = Normal a) /\
  fontSize (snd (m s)) = fontSize s /\ style (snd (m s)) = style s /\
  exists emitted,
    ops (snd (m s)) = emitted ++ ops s /\ textStrings emitted = texts.

(** *** Sample data *)

(** A reference with an email that is not one. *)
Definition adaLovelace : Reference.t :=
  {| Reference.name := Some js"Dr. Ada Lovelace"; Reference.title := Some js"CTO";
     Reference.company := None; Reference.relationship := Some js"";
     Reference.email := Some js"not-an-email";
     Reference.phone := Some js"+44 20-7946" |}.

(** A name of a hundred characters, ["Al"] and 98 spaces, and an email
    with a space at its end: as they are, the one is not a valid name and
    the other fails [isValidEmail]; sanitized, both pass. *)
Definition paddedName : jsstring := js"Al" ++ repeat 32 98.

Definition paddedEmail : jsstring := js"ada@example.org ".

Definition paddedReference : Reference.t :=
  {| Reference.name := Some paddedName; Reference.title := None;
     Reference.company := None; Reference.relationship := None;
     Reference.email := Some paddedEmail; Reference.phone := None |}.

(** Two entries of the education form. *)
Definition twoEducations : list EducationForm.entry :=
  [ {| EducationForm.id := EducationForm.NumberId 1;
       EducationForm.school := js"MIT"; EducationForm.degree := js"BSc";
       EducationForm.location := []; EducationForm.startDate := js"2016-09";
       EducationForm.endDate := js"2020-06"; EducationForm.gpa := [];
       EducationForm.description := None; EducationForm.courses := None;
       EducationForm.honors := None |};
    EducationForm.createNewEducation 1700000000000 ].

(** Two skills of the skills form. *)
Definition twoSkills : list SkillsForm.skill :=
  [ {| SkillsForm.id := 1; SkillsForm.name := js"Rust";
       SkillsForm.level := js"Expert"; SkillsForm.category := js"Technical" |};
    {| SkillsForm.id := 2; SkillsForm.name := js"SQL";
       SkillsForm.level := js"Advanced"; SkillsForm.category := js"Tool" |} ].

(** Four languages, sanitized. *)
Definition fourLanguages : list Exporter.cleanLanguage :=
  [ {| Exporter.langName := js"English"; Exporter.langProficiency := js"Native" |};
    {| Exporter.langName := js"French"; Exporter.langProficiency := js"Fluent" |};
    {| Exporter.langName := js"German"; Exporter.langProficiency := js"Basic" |};
    {| Exporter.langName := js"Swahili"; Exporter.langProficiency := js"Native" |} ].

(** The page of the builder with the document of Jane Doe and a job
    description. *)
Definition janeDoePage : Builder.page :=
  {| Builder.resumeData := Sample.withSkills fiveSkills;
     Builder.jobDescription := js"Rust and SQL";
     Builder.selectedTemplate := 0 |}.

End Notions.

(** * Properties *)

(** ** Strings *)

Module JsFacts.
Import Notions.

Lemma eqb_spec (s t : jsstring) : reflect (s = t) (Js.eqb s t).
Proof.
  revert t; induction s as [|c s IH]; intros [|d t]; simpl;
    try (constructor; congruence).
  destruct (Z.eqb_spec c d) as [->|Hn]; simpl.
  - destruct (IH t) as [->|Hn]; constructor; congruence.
  - constructor; congruence.
Qed.

Lemma eqb_refl (s : jsstring) : Js.eqb s s = true.
Proof. destruct (eqb_spec s s); congruence. Qed.

Lemma removeAll_Forall (P : Z -> Prop) p s :
  Forall P s -> Forall P (removeAll p s).
Proof.
  unfold removeAll. induction 1; simpl; auto.
  destruct (negb (p x)); auto.
Qed.

Lemma removeAll_none p s : Forall (fun c => p c = false) (removeAll p s).
Proof.
  unfold removeAll. induction s as [|c s IH]; simpl; auto.
  destruct (p c) eqn:E; simpl; auto.
Qed.

Lemma removeAll_id p s : Forall (fun c => p c = false) s -> removeAll p s = s.
Proof.
  unfold removeAll. induction 1 as [|c s Hc _ IH]; simpl; auto.
  rewrite Hc; simpl. now rewrite IH.
Qed.

Lemma collapseFrom_Forall (P : Z -> Prop) b s :
  P 32 -> Forall P s -> Forall P (collapseFrom b s).
Proof.
  intros H32 H. revert b. induction H as [|c s Hc _ IH]; intros b; simpl; auto.
  destruct (isWhiteSpace c); [destruct b|]; auto.
Qed.

Lemma collapseFrom_noRun b s : noRun b (collapseFrom b s) = true.
Proof.
  revert b. induction s as [|c s IH]; intros b; simpl; auto.
  destruct (isWhiteSpace c) eqn:E.
  - destruct b; simpl; rewrite ?IH; auto.
  - simpl. rewrite E. apply IH.
Qed.

Lemma noRun_weaken b s : noRun b s = true -> noRun false s = true.
Proof.
  destruct s as [|c r]; simpl; auto.
  destruct (isWhiteSpace c); auto.
  rewrite andb_true_iff. intros [_ H]. now rewrite H.
Qed.

Lemma noRun_suffix p s b : noRun b (p ++ s) = true -> noRun false s = true.
Proof.
  revert b. induction p as [|c p IH]; intros b; simpl.
  - apply noRun_weaken.
  - destruct (isWhiteSpace c).
    + rewrite andb_true_iff. intros [_ H]. eapply IH; eauto.
    + apply IH.
Qed.

Lemma noRun_prefix s q b : noRun b (s ++ q) = true -> noRun b s = true.
Proof.
  revert b. induction s as [|c s IH]; intros b; simpl; auto.
  destruct (isWhiteSpace c).
  - rewrite !andb_true_iff. intros [H1 H2]. split; eauto.
  - apply IH.
Qed.

Lemma trimStart_suffix s : exists p, s = p ++ trimStart s.
Proof.
  induction s as [|c s [p IH]]; simpl.
  - now exists [].
  - destruct (isWhiteSpace c).
    + exists (c :: p). simpl. now rewrite <- IH.
    + now exists [].
Qed.

Lemma trimStart_headOk s : headOk (trimStart s) = true.
Proof.
  induction s as [|c s IH]; simpl; auto.
  destruct (isWhiteSpace c) eqn:E; auto. simpl. now rewrite E.
Qed.

Lemma trimStart_id s : headOk s = true -> trimStart s = s.
Proof.
  destruct s as [|c s]; simpl; auto.
  destruct (isWhiteSpace c); simpl; auto. discriminate.
Qed.

Lemma trimEnd_prefix s : exists q, s = trimEnd s ++ q.
Proof.
  unfold trimEnd. destruct (trimStart_suffix (rev s)) as [p Hp].
  exists (rev p).
  rewrite <- rev_app_distr, <- Hp. now rewrite rev_involutive.
Qed.

Lemma trimEnd_headOk s : headOk s = true -> headOk (trimEnd s) = true.
Proof.
  intros H. destruct (trimEnd_prefix s) as [q Hq].
  destruct (trimEnd s) as [|c t]; auto.
  rewrite Hq in H. exact H.
Qed.

Lemma trimEnd_lastOk s : headOk (rev (trimEnd s)) = true.
Proof.
  unfold trimEnd. rewrite rev_involutive. apply trimStart_headOk.
Qed.

Lemma trimEnd_id s : headOk (rev s) = true -> trimEnd s = s.
Proof.
  intros H. unfold trimEnd. rewrite trimStart_id by exact H.
  apply rev_involutive.
Qed.

Lemma trim_infix s : exists p q, s = p ++ trim s ++ q.
Proof.
  unfold trim. destruct (trimStart_suffix s) as [p Hp].
  destruct (trimEnd_prefix (trimStart s)) as [q Hq].
  exists p, q. now rewrite <- Hq.
Qed.

Lemma trim_Forall (P : Z -> Prop) s : Forall P s -> Forall P (trim s).
Proof.
  intros H. destruct (trim_infix s) as (p & q & E). rewrite E in H.
  apply Forall_app in H as [_ H]. now apply Forall_app in H as [H _].
Qed.

Lemma trim_noRun b s : noRun b s = true -> noRun false (trim s) = true.
Proof.
  intros H. destruct (trim_infix s) as (p & q & E). rewrite E in H.
  apply noRun_suffix in H. now apply noRun_prefix in H.
Qed.

Lemma trim_headOk s : headOk (trim s) = true.
Proof. unfold trim. apply trimEnd_headOk, trimStart_headOk. Qed.

Lemma trim_lastOk s : headOk (rev (trim s)) = true.
Proof. unfold trim. apply trimEnd_lastOk. Qed.

Lemma trim_id s : headOk s = true -> headOk (rev s) = true -> trim s = s.
Proof.
  intros H1 H2. unfold trim. rewrite (trimStart_id s H1). now apply trimEnd_id.
Qed.

Lemma collapseFrom_id b s :
  Forall (fun c => isWhiteSpace c = true -> c = 32) s ->
  noRun b s = true -> collapseFrom b s = s.
Proof.
  intros H. revert b. induction H as [|c s Hc _ IH]; intros b; simpl; auto.
  destruct (isWhiteSpace c) eqn:E.
  - rewrite andb_true_iff. intros [Hb Hr]. destruct b; [discriminate|].
    rewrite (Hc eq_refl). now rewrite IH.
  - intros Hr. now rewrite IH.
Qed.

(** The reading of [noRun]: no two neighbours are both white space. *)
Lemma noRun_neighbours s :
  noRun false s = true ->
  forall l1 a b l2, s = l1 ++ a :: b :: l2 ->
    ~ (isWhiteSpace a = true /\ isWhiteSpace b = true).
Proof.
  intros H l1 a b l2 E [Ha Hb]. subst s.
  apply noRun_suffix in H. simpl in H. rewrite Ha, Hb in H. discriminate.
Qed.

Lemma headOk_first s : headOk s = true ->
  forall c r, s = c :: r -> isWhiteSpace c = false.
Proof. intros H c r ->. simpl in H. now apply negb_true_iff in H. Qed.

Lemma lastOk_last s : headOk (rev s) = true ->
  forall r c, s = r ++ [c] -> isWhiteSpace c = false.
Proof.
  intros H r c ->. rewrite rev_app_distr in H. simpl in H.
  now apply negb_true_iff in H.
Qed.

End JsFacts.

(** ** The text sanitizer *)

Module SanitizerFacts.
Import Notions JsFacts.

Lemma isBulletOrDash_false ch : isBulletOrDash ch = false -> ~ In ch bulletGlyphs.
Proof.
  unfold isBulletOrDash. intros H Hin.
  assert (existsb (Z.eqb ch) bulletGlyphs = true) as E.
  { apply existsb_exists. exists ch. split; auto. apply Z.eqb_refl. }
  congruence.
Qed.

Lemma Clean_Sanitized c : Clean c -> Sanitized c.
Proof.
  intros (Hp & Hb & Hr & Hh & Hl). repeat split.
  - rewrite Forall_forall in Hp. specialize (Hp _ H).
    unfold isPrintableAscii in Hp. lia.
  - rewrite Forall_forall in Hp. specialize (Hp _ H).
    unfold isPrintableAscii in Hp. lia.
  - intros ch Hin. rewrite Forall_forall in Hb.
    apply isBulletOrDash_false. auto.
  - now apply noRun_neighbours.
  - now apply headOk_first.
  - now apply lastOk_last.
Qed.

Lemma printable_space ch :
  isPrintableAscii ch = true -> isWhiteSpace ch = true -> ch = 32.
Proof. unfold isPrintableAscii, isWhiteSpace. lia. Qed.

Lemma printable_not_control ch :
  isPrintableAscii ch = true -> isControl ch = false.
Proof. unfold isPrintableAscii, isControl. lia. Qed.

Lemma Clean_nil : Clean [].
Proof. repeat split; constructor. Qed.

(** White space collapsed and trimmed, on a text already restricted to
    printable ASCII without hyphens. *)
Lemma collapse_trim_Clean t :
  Forall (fun ch => isPrintableAscii ch = true) t ->
  Forall (fun ch => isBulletOrDash ch = false) t ->
  Clean (trim (collapseWhiteSpace t)).
Proof.
  intros Hp Hb. unfold collapseWhiteSpace. repeat split.
  - apply trim_Forall, collapseFrom_Forall; auto.
  - apply trim_Forall, collapseFrom_Forall; auto.
  - eapply trim_noRun, collapseFrom_noRun.
  - apply trim_headOk.
  - apply trim_lastOk.
Qed.

Lemma collapse_trim_id c : Clean c -> trim (collapseWhiteSpace c) = c.
Proof.
  intros (Hp & Hb & Hr & Hh & Hl). unfold collapseWhiteSpace.
  rewrite collapseFrom_id; auto using trim_id.
  eapply Forall_impl; [|exact Hp]. intros ch. apply printable_space.
Qed.

Lemma keepPrintable_id c :
  Forall (fun ch => isPrintableAscii ch = true) c ->
  removeAll (fun ch => negb (isPrintableAscii ch)) c = c.
Proof.
  intros H. apply removeAll_id. eapply Forall_impl; [|exact H].
  intros ch E. simpl. now rewrite E.
Qed.

Lemma keepPrintable_all s :
  Forall (fun ch => isPrintableAscii ch = true)
    (removeAll (fun ch => negb (isPrintableAscii ch)) s).
Proof.
  eapply Forall_impl; [|apply removeAll_none]. intros ch E. simpl in E.
  now apply negb_false_iff in E.
Qed.

Lemma removeControl_id c :
  Forall (fun ch => isPrintableAscii ch = true) c -> removeAll isControl c = c.
Proof.
  intros H. apply removeAll_id. eapply Forall_impl; [|exact H].
  intros ch. apply printable_not_control.
Qed.

Section Current.
Context (host : JsHost).

Lemma cleanText_Str s :
  Exporter.cleanText host (Str s) =
  if Js.eqb s [] then []
  else trim (collapseWhiteSpace
         (removeAll isControl
            (removeAll isBulletOrDash
               (removeAll (fun c => negb (isPrintableAscii c))
                  (normalizeNFKD host s))))).
Proof.
  unfold Exporter.cleanText. simpl. destruct (Js.eqb s []); reflexivity.
Qed.

Lemma cleanText_Clean x : Clean (Exporter.cleanText host (Str x)).
Proof.
  rewrite cleanText_Str. destruct (Js.eqb x []); [apply Clean_nil|].
  apply collapse_trim_Clean.
  - apply removeAll_Forall, removeAll_Forall, keepPrintable_all.
  - apply removeAll_Forall, removeAll_none.
Qed.

Lemma cleanText_fixes_Clean c :
  normalizeNFKD host c = c -> Clean c -> Exporter.cleanText host (Str c) = c.
Proof.
  intros Hn HC. rewrite cleanText_Str.
  destruct (eqb_spec c []) as [->|_]; [reflexivity|].
  pose proof HC as (Hp & Hb & _).
  rewrite Hn, keepPrintable_id, (removeAll_id isBulletOrDash),
    removeControl_id by assumption.
  now apply collapse_trim_id.
Qed.

End Current.

Lemma basic_cleanText_Str s :
  BasicExporter.cleanText (Str s) =
  if Js.eqb s [] then []
  else trim (collapseWhiteSpace
         (removeAll isBulletOrDash
            (removeAll (fun c => negb (isPrintableAscii c)) s))).
Proof.
  unfold BasicExporter.cleanText. simpl. destruct (Js.eqb s []); reflexivity.
Qed.

Lemma basic_cleanText_Clean x : Clean (BasicExporter.cleanText (Str x)).
Proof.
  rewrite basic_cleanText_Str. destruct (Js.eqb x []); [apply Clean_nil|].
  apply collapse_trim_Clean.
  - apply removeAll_Forall, keepPrintable_all.
  - apply removeAll_none.
Qed.

Lemma basic_cleanText_fixes_Clean c :
  Clean c -> BasicExporter.cleanText (Str c) = c.
Proof.
  intros HC. rewrite basic_cleanText_Str.
  destruct (eqb_spec c []) as [->|_]; [reflexivity|].
  pose proof HC as (Hp & Hb & _).
  rewrite keepPrintable_id, (removeAll_id isBulletOrDash) by assumption.
  now apply collapse_trim_id.
Qed.

(** C2.  [cleanText] is idempotent, and its result holds printable ASCII
    only, no hyphen or bullet glyph, no run of white space and no white
    space at either end; in both revisions.  The current revision first
    normalises its input (NFKD), which leaves a text of printable ASCII
    characters as it is: that is what is asked from the engine.  In
    particular the result for ["Résumé • Summary"] holds no bullet and no
    accented letter; the earlier revision, which does not normalise, makes
    it ["Rsum Summary"]. *)
Theorem cleanText_idempotent_and_ascii (host : JsHost)
    (nfkd_ascii : forall s, Forall (fun c => isPrintableAscii c = true) s ->
                            normalizeNFKD host s = s)
    (x : jsstring) :
  let clean := fun s => Exporter.cleanText host (Str s) in
  let cleanBasic := fun s => BasicExporter.cleanText (Str s) in
  (clean (clean x) = clean x /\ Sanitized (clean x)) /\
  (cleanBasic (cleanBasic x) = cleanBasic x /\ Sanitized (cleanBasic x)) /\
  Sanitized (clean Sample.resumeSummary) /\
  cleanBasic Sample.resumeSummary = js"Rsum Summary".
Proof.
  cbv zeta. split; [split | split; [split | split]].
  - apply cleanText_fixes_Clean; [|apply cleanText_Clean].
    apply nfkd_ascii. apply cleanText_Clean.
  - apply Clean_Sanitized, cleanText_Clean.
  - apply basic_cleanText_fixes_Clean, basic_cleanText_Clean.
  - apply Clean_Sanitized, basic_cleanText_Clean.
  - apply Clean_Sanitized, cleanText_Clean.
  - reflexivity.
Qed.

Lemma cleanText_idempotent_and_ascii_witness :
  (forall s, Forall (fun c => isPrintableAscii c = true) s ->
             normalizeNFKD (Sample.host 0) s = s) /\
  let x := js"  Senior - Engineer   (C++)  " in
  let clean := fun s => Exporter.cleanText (Sample.host 0) (Str s) in
  let cleanBasic := fun s => BasicExporter.cleanText (Str s) in
  (clean (clean x) = clean x /\ Sanitized (clean x)) /\
  (cleanBasic (cleanBasic x) = cleanBasic x /\ Sanitized (cleanBasic x)) /\
  Sanitized (clean Sample.resumeSummary) /\
  cleanBasic Sample.resumeSummary = js"Rsum Summary".
Proof.
  split.
  - intros s _. reflexivity.
  - apply (cleanText_idempotent_and_ascii (Sample.host 0)).
    intros s _. reflexivity.
Defined.

(** C10.  On a value that is not a string, and on the empty string,
    [cleanText] returns the empty string; in both revisions. *)
Theorem cleanText_non_string_is_empty (host : JsHost) (v : value) :
  isString v = false \/ v = Str [] ->
  Exporter.cleanText host v = [] /\ BasicExporter.cleanText v = [].
Proof.
  intros [H | ->].
  - destruct v; try discriminate; simpl;
      unfold Exporter.cleanText, BasicExporter.cleanText; simpl;
      rewrite ?orb_true_r; auto.
  - split; reflexivity.
Qed.

Lemma cleanText_non_string_is_empty_witness :
  (isString (Number (Some (7 # 2))) = false \/ Number (Some (7 # 2)) = Str []) /\
  Exporter.cleanText (Sample.host 0) (Number (Some (7 # 2))) = [] /\
  BasicExporter.cleanText (Number (Some (7 # 2))) = [].
Proof.
  split.
  - left. reflexivity.
  - apply (cleanText_non_string_is_empty (Sample.host 0)). left. reflexivity.
Defined.

End SanitizerFacts.

(** ** Regular expressions: the matcher decides the language *)

Module RegexFacts.
Import Notions.

#[local] Hint Constructors lang : core.

Ltac invert H := inversion H; subst; clear H.

Lemma lang_cons r1 r2 c s1 s2 :
  lang r1 (c :: s1) -> lang r2 s2 -> lang (Seq r1 r2) (c :: s1 ++ s2).
Proof. intros H1 H2. change (c :: s1 ++ s2) with ((c :: s1) ++ s2). auto. Qed.

Lemma nullable_lang r : nullable r = true <-> lang r [].
Proof.
  induction r; simpl; split; intros H; auto; try discriminate.
  - invert H.
  - invert H.
  - apply andb_true_iff in H as [H1 H2].
    change (@nil Z) with (@nil Z ++ []). constructor; tauto.
  - invert H.
    match goal with E : _ ++ _ = [] |- _ => apply app_eq_nil in E as [-> ->] end.
    apply andb_true_iff. tauto.
  - apply orb_true_iff in H as [H|H]; [apply LAltL|apply LAltR]; tauto.
  - apply orb_true_iff. invert H; tauto.
Qed.

Lemma deriv_sound c r s : lang (deriv c r) s -> lang r (c :: s).
Proof.
  revert s. induction r; simpl; intros s H.
  - invert H.
  - invert H.
  - destruct (inClass c) eqn:E; invert H. now constructor.
  - destruct (nullable r1) eqn:N.
    + invert H.
      * match goal with X : lang (Seq _ _) _ |- _ => invert X end.
        apply lang_cons; auto.
      * change (c :: s) with ([] ++ c :: s). constructor; auto.
        now apply nullable_lang.
    + invert H. apply lang_cons; auto.
  - invert H; auto.
  - invert H. change (c :: s1 ++ s2) with ((c :: s1) ++ s2). auto.
Qed.

Lemma deriv_complete c r s : lang r (c :: s) -> lang (deriv c r) s.
Proof.
  intros H. remember (c :: s) as cs eqn:E. revert c s E.
  induction H as [|p d Hd|r1 r2 s1 s2 H1 IH1 H2 IH2|r1 r2 t H1 IH1
                  |r1 r2 t H2 IH2|r|r s1 s2 H1 IH1 H2 IH2];
    intros c0 s0 E; simpl; try discriminate.
  - invert E. rewrite Hd. constructor.
  - destruct s1 as [|d s1]; simpl in E.
    + subst s2. assert (nullable r1 = true) as N by now apply nullable_lang.
      rewrite N. apply LAltR. now apply IH2.
    + invert E.
      destruct (nullable r1); [apply LAltL|]; constructor; auto.
  - apply LAltL. now apply IH1.
  - apply LAltR. now apply IH2.
  - destruct s1 as [|d s1]; simpl in E.
    + subst s2. now apply IH2.
    + invert E. constructor; auto.
Qed.

Theorem matches_lang r s : matches r s = true <-> lang r s.
Proof.
  revert r. induction s as [|c s IH]; intros r; simpl.
  - apply nullable_lang.
  - rewrite IH. split; [apply deriv_sound | apply deriv_complete].
Qed.

Lemma lang_anything s : lang anything s.
Proof.
  unfold anything. induction s as [|c s IH]; [constructor|].
  change (c :: s) with ([c] ++ s). constructor; auto.
Qed.

(** [/[class]/.test(s)]: some character of [s] is in the class. *)
Lemma test_class p s :
  test {| atStart := false; body := Class p; atEnd := false |} s = existsb p s.
Proof.
  unfold test; simpl.
  destruct (existsb p s) eqn:E.
  - apply matches_lang. apply existsb_exists in E as (c & Hin & Hc).
    apply in_split in Hin as (l1 & l2 & ->).
    constructor; [apply lang_anything|].
    change (c :: l2) with ([c] ++ l2). constructor; auto using lang_anything.
  - destruct (matches _ s) eqn:M; auto.
    apply matches_lang in M. invert M.
    match goal with X : lang (Seq _ _) _ |- _ => invert X end.
    match goal with X : lang (Class _) _ |- _ => invert X end.
    match goal with |- _ = false => exfalso end.
    match goal with X : existsb p (?a ++ [?c] ++ ?b) = false |- _ =>
      assert (existsb p (a ++ [c] ++ b) = true) as Y;
        [apply existsb_exists; exists c; split; auto;
         apply in_or_app; right; now left | congruence]
    end.
Qed.

End RegexFacts.

(** ** The validators of the references section *)

Module ValidatorFacts.
Import Notions JsFacts.

Lemma isValidName_spec name : Exporter.isValidName name = true <-> ValidName name.
Proof.
  unfold Exporter.isValidName, ValidName, Exporter.letterRegex.
  rewrite RegexFacts.test_class, !andb_true_iff, !Nat.ltb_lt, existsb_exists.
  tauto.
Qed.

(** C7 fails as stated: the name and the email are tested after they are
    sanitized, not as they are.  A name of a hundred characters, ["Al"] and
    98 spaces, is not a valid name, and the email ["ada@example.org "], with
    a space at its end, fails [isValidEmail]; [validateReference] keeps
    both, as they are. *)
Lemma padded_name_and_email_are_kept :
  let out := Exporter.validateReference (Sample.host 0) paddedReference in
  ~ ValidName paddedName /\
  Exporter.isValidEmail paddedEmail = false /\
  Reference.name out = Some paddedName /\
  Reference.name out <> Some Exporter.placeholderName /\
  Reference.email out = Some paddedEmail.
Proof.
  cbv zeta.
  assert (Reference.name
            (Exporter.validateReference (Sample.host 0) paddedReference)
          = Some paddedName) as Hname by (vm_compute; reflexivity).
  split; [|split; [reflexivity|split; [exact Hname|split]]].
  - intros [[_ H] _].
    assert (List.length paddedName = 100%nat) as L by reflexivity.
    rewrite L in H. lia.
  - rewrite Hname. intros E. vm_compute in E. discriminate E.
  - vm_compute. reflexivity.
Qed.

Section WithHost.
Context (host : JsHost).

(** C7.  [validateReference]: a name that is missing, empty or, once
    sanitized, not valid becomes the placeholder, and any other name is
    kept as it is; an email that is present and, once sanitized, fails
    [isValidEmail] is cleared, and any other email is kept as it is; title,
    company, relationship and phone, when present, are replaced by their
    sanitized text and otherwise left as they are.  [{name: ""}] gets the
    placeholder name and [{email: "not-an-email"}] loses its email. *)
Theorem validateReference_spec (ref : Reference.t) :
  let out := Exporter.validateReference host ref in
  let cleanName := Exporter.cleanText host (ofOption (Reference.name ref)) in
  let cleanEmail := Exporter.cleanText host (ofOption (Reference.email ref)) in
  ((present (Reference.name ref) = false \/ ~ ValidName cleanName)
     -> Reference.name out = Some Exporter.placeholderName) /\
  ((present (Reference.name ref) = true /\ ValidName cleanName)
     -> Reference.name out = Reference.name ref) /\
  ((present (Reference.email ref) = true
    /\ Exporter.isValidEmail cleanEmail = false)
     -> Reference.email out = None) /\
  ((present (Reference.email ref) = false
    \/ Exporter.isValidEmail cleanEmail = true)
     -> Reference.email out = Reference.email ref) /\
  Reference.title out = Exporter.cleanIfPresent host (Reference.title ref) /\
  Reference.company out = Exporter.cleanIfPresent host (Reference.company ref) /\
  Reference.relationship out
    = Exporter.cleanIfPresent host (Reference.relationship ref) /\
  Reference.phone out = Exporter.cleanIfPresent host (Reference.phone ref) /\
  (forall field,
     Exporter.cleanIfPresent host field
     = match field with
       | Some s =>
           if Js.eqb s [] then Some [] else Some (Exporter.cleanText host (Str s))
       | None => None
       end) /\
  (forall r, Reference.name r = Some [] ->
     Reference.name (Exporter.validateReference host r)
     = Some js"Reference Name Not Provided") /\
  (forall r, Reference.email r = Some js"not-an-email" ->
     normalizeNFKD host js"not-an-email" = js"not-an-email" ->
     Reference.email (Exporter.validateReference host r) = None).
Proof.
  cbv zeta. repeat apply conj; try reflexivity.
  - intros [H | H]; simpl.
    + now rewrite H.
    + destruct (Exporter.isValidName _) eqn:E.
      * apply isValidName_spec in E. contradiction.
      * now rewrite orb_true_r.
  - intros [H1 H2]; simpl. apply isValidName_spec in H2. now rewrite H1, H2.
  - intros [H1 H2]; simpl. now rewrite H1, H2.
  - intros [H | H]; simpl; rewrite H; [reflexivity|].
    now rewrite andb_false_r.
  - intros [s|]; unfold Exporter.cleanIfPresent, present; simpl; auto.
    destruct (eqb_spec s []) as [->|]; reflexivity.
  - intros r H; simpl. now rewrite H.
  - intros r H Hn; simpl. rewrite H.
    unfold Exporter.cleanText; simpl. rewrite Hn. reflexivity.
Qed.

End WithHost.

Lemma validateReference_spec_witness :
  let ref :=
    {| Reference.name := Some js"Dr. Ada Lovelace"; Reference.title := Some js"CTO";
       Reference.company := None; Reference.relationship := Some js"";
       Reference.email := Some js"not-an-email";
       Reference.phone := Some js"+44 20-7946" |} in
  let out := Exporter.validateReference (Sample.host 0) ref in
  Reference.name out = Some js"Dr. Ada Lovelace" /\
  Reference.email out = None /\
  Reference.title out = Some js"CTO" /\
  Reference.company out = None /\
  Reference.relationship out = Some js"" /\
  Reference.phone out = Some js"+44 207946".
Proof.
  cbv zeta.
  pose proof (validateReference_spec (Sample.host 0)
    {| Reference.name := Some js"Dr. Ada Lovelace"; Reference.title := Some js"CTO";
       Reference.company := None; Reference.relationship := Some js"";
       Reference.email := Some js"not-an-email";
       Reference.phone := Some js"+44 20-7946" |})
    as (_ & Hname & Hemail & _ & Htitle & Hcompany & Hrel & Hphone & _).
  cbv zeta in *.
  repeat apply conj.
  - rewrite Hname; [reflexivity|]. split; [reflexivity|].
    split; [vm_compute; lia|]. exists 68. split; [vm_compute; tauto | reflexivity].
  - apply Hemail. split; reflexivity.
  - rewrite Htitle. reflexivity.
  - rewrite Hcompany. reflexivity.
  - rewrite Hrel. reflexivity.
  - rewrite Hphone. reflexivity.
Defined.

End ValidatorFacts.

(** ** The date formatter *)

Module DateFacts.
Import JsFacts.

Lemma lowerAscii_bound c : lowerAscii c < 128 -> c < 128.
Proof. unfold lowerAscii, isUpperAZ. destruct (_ && _) eqn:E; lia. Qed.

Lemma mapCase_ascii f other whole i s :
  Forall (fun c => c < 128) s -> mapCase f other whole i s = List.map f s.
Proof.
  intros H. revert i. induction H as [|c s Hc _ IH]; intros i; simpl; auto.
  apply Z.ltb_lt in Hc. rewrite Hc, IH. reflexivity.
Qed.

Section WithHost.
Context (host : JsHost).

(** [formatDate] always returns: no call it makes throws, so its [catch]
    block is never entered. *)
Lemma formatDate_returns date isEndDate :
  exists s, Dates.formatDate host date isEndDate = Normal s.
Proof.
  unfold Dates.formatDate.
  destruct date as [date|]; [|eauto].
  destruct (Js.eqb date []); [eauto|].
  destruct (Js.eqb (toLowerCase host date) _); [eauto|].
  unfold Dates.newDate, Dates.toLocaleMonthYear, tryCatch.
  destruct (Dates.parse host _) as [tv|]; [|eauto].
  destruct (Dates.civilFromDays _). eauto.
Qed.

(** What [formatDate] returns for a string that does not parse. *)
Lemma formatDate_unparsable date isEndDate :
  date <> [] ->
  toLowerCase host date <> js"present" ->
  Dates.parse host (date ++ js"-01") = None ->
  Dates.formatDate host (Some date) isEndDate = Normal js"Invalid Date".
Proof.
  intros Hne Hp Hparse. unfold Dates.formatDate.
  destruct (eqb_spec date []); [contradiction|].
  destruct (eqb_spec (toLowerCase host date) js"present"); [contradiction|].
  unfold Dates.newDate. rewrite Hparse. reflexivity.
Qed.

(** C3, at the input ["2020-13"]: with ["-01"] appended it has the shape of
    a date and an illegal month, so it parses to an invalid date on every
    engine, and [formatDate] returns ["Invalid Date"], not the input. *)
Theorem formatDate_unparsable_input_lost (isEndDate : bool) :
  Dates.parse host (js"2020-13" ++ js"-01") = None /\
  Dates.formatDate host (Some js"2020-13") isEndDate = Normal js"Invalid Date" /\
  Dates.formatDate host (Some js"2020-13") isEndDate <> Normal js"2020-13".
Proof.
  split; [reflexivity|]. split; [reflexivity|].
  intros H. vm_compute in H. discriminate H.
Qed.

(** The parts of C9 that hold on every engine: empty or missing input, and
    ["present"] in any letter case. *)
Lemma formatDate_missing isEndDate :
  Dates.formatDate host None isEndDate
    = Normal (if isEndDate then js"Present" else js"") /\
  Dates.formatDate host (Some []) isEndDate
    = Normal (if isEndDate then js"Present" else js"").
Proof. split; reflexivity. Qed.

Lemma formatDate_present date isEndDate :
  List.map lowerAscii date = js"present" ->
  Dates.formatDate host (Some date) isEndDate = Normal js"Present".
Proof.
  intros H. unfold Dates.formatDate.
  destruct (eqb_spec date []) as [->|_]; [discriminate|].
  unfold toLowerCase. rewrite mapCase_ascii, H; [reflexivity|].
  assert (Forall (fun c => c < 128) (List.map lowerAscii date)) as F.
  { rewrite H. repeat constructor. }
  rewrite Forall_map in F. eapply Forall_impl; [|exact F].
  intros c. apply lowerAscii_bound.
Qed.

(** September 2020 where local time is at or ahead of UTC (by less than a
    day). *)
Lemma formatDate_2020_09_east :
  0 <= localTZA host 1598918400000 < Dates.msPerDay ->
  Dates.formatDate host (Some js"2020-09") false = Normal js"Sep 2020".
Proof.
  intros H. unfold Dates.formatDate. simpl Js.eqb. cbv iota.
  change (toLowerCase host js"2020-09") with (js"2020-09").
  change (Js.eqb js"2020-09" js"present") with false. cbv iota.
  change (Dates.newDate host (js"2020-09" ++ js"-01"))
    with (Normal (A := option Z) (Some 1598918400000)).
  unfold tryCatch, Dates.toLocaleMonthYear.
  replace ((1598918400000 + localTZA host 1598918400000) / Dates.msPerDay)
    with 18506.
  - reflexivity.
  - apply Z.div_unique with
      (r := 1598918400000 + localTZA host 1598918400000 - 18506 * Dates.msPerDay);
      unfold Dates.msPerDay in *; lia.
Qed.

End WithHost.

(** C9, at the input ["2020-09"] on an engine whose local time is behind
    UTC (by a day at most): the string is parsed as midnight UTC of the
    first of September, which is still the 31st of August in local time,
    and [formatDate] returns ["Aug 2020"]. *)
Theorem formatDate_2020_09_west_of_utc (host : JsHost) :
  - Dates.msPerDay <= localTZA host 1598918400000 < 0 ->
  Dates.parse host (js"2020-09" ++ js"-01") = Some 1598918400000 /\
  Dates.formatDate host (Some js"2020-09") false = Normal js"Aug 2020".
Proof.
  intros H. split; [reflexivity|].
  unfold Dates.formatDate. simpl Js.eqb. cbv iota.
  change (toLowerCase host js"2020-09") with (js"2020-09").
  change (Js.eqb js"2020-09" js"present") with false. cbv iota.
  change (Dates.newDate host (js"2020-09" ++ js"-01"))
    with (Normal (A := option Z) (Some 1598918400000)).
  unfold tryCatch, Dates.toLocaleMonthYear.
  replace ((1598918400000 + localTZA host 1598918400000) / Dates.msPerDay)
    with 18505.
  - reflexivity.
  - apply Z.div_unique with
      (r := 1598918400000 + localTZA host 1598918400000 - 18505 * Dates.msPerDay);
      unfold Dates.msPerDay in *; lia.
Qed.

Lemma formatDate_2020_09_west_of_utc_witness :
  - Dates.msPerDay <= localTZA (Sample.host Sample.utcMinus5) 1598918400000 < 0 /\
  Dates.parse (Sample.host Sample.utcMinus5) (js"2020-09" ++ js"-01")
    = Some 1598918400000 /\
  Dates.formatDate (Sample.host Sample.utcMinus5) (Some js"2020-09") false
    = Normal js"Aug 2020".
Proof.
  assert (- Dates.msPerDay
          <= localTZA (Sample.host Sample.utcMinus5) 1598918400000 < 0) as H
    by (vm_compute; split; [discriminate | reflexivity]).
  split; [exact H|].
  apply (formatDate_2020_09_west_of_utc (Sample.host Sample.utcMinus5) H).
Defined.

End DateFacts.

(** ** The skills filter *)

Module SkillsFacts.
Import Notions JsFacts.

(** C4 fails as stated: of the example, ["AI"] does not survive; it has two
    characters and the filter discards what is shorter than three. *)
Lemma example_skills_lose_AI :
  Exporter.isValidSkill (Sample.host 0) js"AI" = false /\
  Exporter.skillsArray (Sample.host 0) exampleSkills = [js"JavaScript"] /\
  ~ In js"AI" (Exporter.skillsArray (Sample.host 0) exampleSkills).
Proof.
  split; [reflexivity|]. split; [reflexivity|].
  intros H. vm_compute in H. intuition discriminate.
Qed.

(** [/^[class]/.test(s)]: the first character of [s] is in the class. *)
Lemma test_first_class p s :
  test {| atStart := true; body := Class p; atEnd := false |} s
  = match s with c :: _ => p c | [] => false end.
Proof.
  unfold test; simpl. destruct s as [|c s]; [reflexivity|]. simpl.
  destruct (p c); simpl.
  - apply RegexFacts.matches_lang. apply LAltR.
    change s with ([] ++ s).
    constructor; [constructor | apply RegexFacts.lang_anything].
  - destruct (matches _ s) eqn:M; auto.
    apply RegexFacts.matches_lang in M.
    RegexFacts.invert M;
      match goal with X : lang (Seq _ _) _ |- _ => RegexFacts.invert X end;
      match goal with X : lang Fail _ |- _ => inversion X end.
Qed.

Section WithHost.
Context (host : JsHost).

(** C4, amended: of the example only ["JavaScript"] survives; ["AI"],
    ["to"], ["a"] and ["early"] are discarded.  In general [isValidSkill]
    discards a token that, trimmed, is shorter than three characters or is,
    in lower case, on the stoplist; any other token is accepted exactly
    when it matches a technical pattern, starts with a capital letter or is
    longer than four characters. *)
Theorem skills_filter_spec
    (nfkd_ascii : forall s, Forall (fun c => isPrintableAscii c = true) s ->
                            normalizeNFKD host s = s) :
  Exporter.skillsArray host exampleSkills = [js"JavaScript"] /\
  (forall skill,
     let cleanSkill := trim skill in
     ((List.length cleanSkill < 3)%nat -> Exporter.isValidSkill host skill = false) /\
     (In (toLowerCase host cleanSkill) Exporter.excludeWords ->
        Exporter.isValidSkill host skill = false) /\
     ((3 <= List.length cleanSkill)%nat ->
      ~ In (toLowerCase host cleanSkill) Exporter.excludeWords ->
      Exporter.isValidSkill host skill
      = existsb (fun p => test p cleanSkill) Exporter.technicalPatterns
        || match cleanSkill with c :: _ => isUpperAZ c | [] => false end
        || (4 <? List.length cleanSkill)%nat)).
Proof.
  split.
  - unfold Exporter.skillsArray, exampleSkills. simpl List.map.
    unfold Exporter.cleanText. simpl.
    rewrite !nfkd_ascii by (repeat constructor).
    reflexivity.
  - intros skill. cbv zeta. unfold Exporter.isValidSkill, Exporter.capitalRegex.
    rewrite test_first_class.
    assert (forall w, Js.includes Exporter.excludeWords w = true
                      <-> In w Exporter.excludeWords) as Hinc.
    { intros w. unfold Js.includes. rewrite existsb_exists. split.
      - intros (x & Hin & E). destruct (eqb_spec w x); congruence.
      - intros Hin. exists w. split; auto. apply eqb_refl. }
    repeat split.
    + intros H. apply Nat.ltb_lt in H. now rewrite H.
    + intros H. apply Hinc in H. rewrite H. now destruct (_ <? _)%nat.
    + intros H1 H2. apply Nat.ltb_ge in H1. rewrite H1.
      destruct (Js.includes _ _) eqn:E; [|reflexivity].
      apply Hinc in E. contradiction.
Qed.

End WithHost.

Lemma skills_filter_spec_witness :
  (forall s, Forall (fun c => isPrintableAscii c = true) s ->
             normalizeNFKD (Sample.host 0) s = s) /\
  Exporter.skillsArray (Sample.host 0) exampleSkills = [js"JavaScript"] /\
  Exporter.isValidSkill (Sample.host 0) js"AI" = false /\
  Exporter.isValidSkill (Sample.host 0) js"early" = false /\
  Exporter.isValidSkill (Sample.host 0) js"JavaScript" = true.
Proof.
  split; [intros s _; reflexivity|].
  destruct (skills_filter_spec (Sample.host 0) (fun s _ => eq_refl))
    as [Hex Hgen].
  split; [exact Hex|].
  pose proof (Hgen js"AI") as HA. pose proof (Hgen js"early") as HE.
  cbv zeta in HA, HE.
  destruct HA as (HA & _). destruct HE as (_ & HE & _).
  split; [apply HA; vm_compute; lia|].
  split; [apply HE; vm_compute; tauto|].
  reflexivity.
Defined.

End SkillsFacts.

(** ** Pagination *)

Module PaginationFacts.
Import Notions.

Local Open Scope Q_scope.

Lemma gtb_true a b : gtb a b = true <-> b < a.
Proof.
  unfold gtb. rewrite negb_true_iff, <- not_true_iff_false, Qle_bool_iff.
  split; [apply Qnot_le_lt | apply Qlt_not_le].
Qed.

Lemma gtb_false a b : gtb a b = false <-> a <= b.
Proof. unfold gtb. rewrite negb_false_iff. apply Qle_bool_iff. Qed.

(** C5.  [checkPageBreak(requiredSpace)]: when the cursor plus the required
    space is beyond the printable area (the page height less 20) it adds
    one page, puts the cursor at the top margin and returns [true];
    otherwise it returns [false] and changes nothing.  Either way at most
    one page is added. *)
Theorem checkPageBreak_spec (pdf : PdfLib) (requiredSpace : Q) (s : state) :
  let result := fst (Layout.checkPageBreak pdf requiredSpace s) in
  let s' := snd (Layout.checkPageBreak pdf requiredSpace s) in
  (pageHeight pdf - 20 < yPosition s + requiredSpace ->
     result = Normal true /\ page s' = S (page s) /\ yPosition s' = margin /\
     ops s' = AddPage :: ops s) /\
  (yPosition s + requiredSpace <= pageHeight pdf - 20 ->
     result = Normal false /\ s' = s) /\
  (page s' = page s \/ page s' = S (page s)).
Proof.
  cbv zeta. unfold Layout.checkPageBreak, bind, getY. simpl.
  destruct (gtb (yPosition s + requiredSpace) (pageHeight pdf - 20)) eqn:E; simpl.
  - apply gtb_true in E. split; [|split].
    + intros _. repeat split.
    + intros H. exfalso. apply (Qlt_not_le _ _ E H).
    + now right.
  - apply gtb_false in E. split; [|split].
    + intros H. exfalso. apply (Qlt_not_le _ _ H E).
    + intros _. split; reflexivity.
    + now left.
Qed.

Lemma checkPageBreak_spec_witness :
  (pageHeight Sample.a4 - 20 < yPosition nearBottom + 12) /\
  fst (Layout.checkPageBreak Sample.a4 12 nearBottom) = Normal true /\
  page (snd (Layout.checkPageBreak Sample.a4 12 nearBottom)) = 4%nat /\
  yPosition (snd (Layout.checkPageBreak Sample.a4 12 nearBottom)) = margin /\
  (yPosition initial + 12 <= pageHeight Sample.a4 - 20) /\
  Layout.checkPageBreak Sample.a4 12 initial = (Normal false, initial).
Proof.
  pose proof (checkPageBreak_spec Sample.a4 12 nearBottom) as (Hb & _ & _).
  pose proof (checkPageBreak_spec Sample.a4 12 initial) as (_ & Hn & _).
  assert (pageHeight Sample.a4 - 20 < yPosition nearBottom + 12) as H1
    by (vm_compute; reflexivity).
  assert (yPosition initial + 12 <= pageHeight Sample.a4 - 20) as H2
    by (vm_compute; discriminate).
  destruct (Hb H1) as (R1 & R2 & R3 & _). destruct (Hn H2) as (R4 & R5).
  repeat split; auto.
Defined.

End PaginationFacts.

(** ** The layout of the skills section *)

Module SkillsLayoutFacts.
Import Notions.

Local Open Scope Q_scope.

(** C8 fails as stated: three skills, below the threshold of four, are
    drawn as one flowing line and not in two columns. *)
Lemma three_skills_flow_in_one_line :
  (List.length threeSkills < Exporter.minSkillsForColumns)%nat /\
  List.map fst
    (drawnTexts (snd (Exporter.renderSkills Sample.a4 threeSkills initial)))
  = [js"Docker" ++ bulletSep ++ js"Python" ++ bulletSep ++ js"Rust"] /\
  List.map fst
    (drawnTexts (snd (Exporter.renderSkillsInColumns Sample.a4 threeSkills initial)))
  = [[8226; 32] ++ js"Docker"; [8226; 32] ++ js"Python"; [8226; 32] ++ js"Rust"]%Z /\
  Exporter.renderSkills Sample.a4 threeSkills initial
  <> Exporter.renderSkillsInColumns Sample.a4 threeSkills initial.
Proof.
  split; [vm_compute; lia|]. split; [reflexivity|]. split; [reflexivity|].
  intros H.
  apply (f_equal (fun r => List.length (ops (snd r)))) in H.
  vm_compute in H. discriminate H.
Qed.

Lemma ceilHalf_spec n : ceilHalf n = ((n + 1) / 2)%nat.
Proof.
  set (k := ((n + 1) / 2)%nat).
  unfold ceilHalf, Qceiling, Qfloor. simpl. subst k.
  apply Nat2Z.inj. rewrite Nat2Z.inj_div, Nat2Z.inj_add.
  rewrite Z2Nat.id.
  - change (Z.of_nat 2) with 2%Z. change (Z.of_nat 1) with 1%Z.
    rewrite Z.mul_1_r.
    pose proof (Z.div_mod (- Z.of_nat n) 2 ltac:(lia)).
    pose proof (Z.mod_pos_bound (- Z.of_nat n) 2 ltac:(lia)).
    pose proof (Z.div_mod (Z.of_nat n + 1) 2 ltac:(lia)).
    pose proof (Z.mod_pos_bound (Z.of_nat n + 1) 2 ltac:(lia)).
    lia.
  - rewrite Z.mul_1_r.
    pose proof (Z.div_mod (- Z.of_nat n) 2 ltac:(lia)).
    pose proof (Z.mod_pos_bound (- Z.of_nat n) 2 ltac:(lia)).
    lia.
Qed.

Section WithPage.
Context (pdf : PdfLib).

Lemma drawnTexts_ops s s' : ops s = ops s' -> drawnTexts s = drawnTexts s'.
Proof. unfold drawnTexts. now intros ->. Qed.

(** A loop whose body draws one text per element draws them in order. *)
Lemma drawnTexts_forEach {A} (body : A -> M unit) (g : A -> jsstring * Q) l :
  (forall x s, exists s', body x s = (Normal tt, s')
                          /\ drawnTexts s' = drawnTexts s ++ [g x]) ->
  forall s, exists s', forEach l body s = (Normal tt, s')
                       /\ drawnTexts s' = drawnTexts s ++ List.map g l.
Proof.
  intros Hbody. induction l as [|x l IH]; intros s; simpl.
  - exists s. now rewrite app_nil_r.
  - unfold bind. destruct (Hbody x s) as (s1 & E1 & T1). rewrite E1.
    destruct (IH s1) as (s2 & E2 & T2). exists s2. split; [exact E2|].
    rewrite T2, T1, <- app_assoc. reflexivity.
Qed.

(** One skill of a column: drawn at the column's position, whether or not
    a page break comes first. *)
Lemma drawnTexts_skill x skill s :
  exists s',
    bind (Exporter.checkPageBreak pdf Exporter.skillsLineHeight) (fun _ =>
      bind getY (fun y =>
        bind (Layout.text (Exporter.skillsBulletPoint ++ skill) x y) (fun _ =>
          advance Exporter.skillsLineHeight))) s = (Normal tt, s')
    /\ drawnTexts s' = drawnTexts s ++ [(Exporter.skillsBulletPoint ++ skill, x)].
Proof.
  unfold Exporter.checkPageBreak, Layout.checkPageBreak, Layout.text, bind,
    getY, addPage, setY, advance, call, ret.
  destruct (gtb (yPosition s + Exporter.skillsLineHeight) (pageHeight pdf - 20));
    eexists; (split; [reflexivity|]); unfold drawnTexts; simpl; reflexivity.
Qed.

(** C8, amended: the skills are drawn as one flowing line below four
    skills and in two columns from four skills on; in two columns, the
    left column is the first [ceil(n / 2)] skills and the right column the
    rest, and they are drawn so. *)
Theorem skills_layout_spec (skills : list jsstring) :
  let n := List.length skills in
  let leftX := margin + Exporter.skillsIndent in
  let rightX := margin + Exporter.skillsIndent + Exporter.skillsMaxWidth pdf / 2
                + Exporter.skillsColumnGap in
  ((n < 4)%nat ->
     Exporter.renderSkills pdf skills = Exporter.renderSkillsHorizontally pdf skills) /\
  ((4 <= n)%nat ->
     Exporter.renderSkills pdf skills = Exporter.renderSkillsInColumns pdf skills) /\
  fst (Exporter.skillColumns skills) = firstn ((n + 1) / 2) skills /\
  snd (Exporter.skillColumns skills) = skipn ((n + 1) / 2) skills /\
  List.length (fst (Exporter.skillColumns skills)) = ((n + 1) / 2)%nat /\
  List.length (snd (Exporter.skillColumns skills)) = (n / 2)%nat /\
  (forall s,
     drawnTexts (snd (Exporter.renderSkillsInColumns pdf skills s))
     = drawnTexts s
       ++ List.map (fun skill => (Exporter.skillsBulletPoint ++ skill, leftX))
            (fst (Exporter.skillColumns skills))
       ++ List.map (fun skill => (Exporter.skillsBulletPoint ++ skill, rightX))
            (snd (Exporter.skillColumns skills))).
Proof.
  cbv zeta.
  assert ((List.length skills + 1) / 2 <= List.length skills)%nat as Hle.
  { destruct skills as [|a l]; [reflexivity|].
    apply Nat.Div0.div_le_upper_bound. simpl List.length. lia. }
  unfold Exporter.renderSkills, Exporter.minSkillsForColumns,
    Exporter.skillColumns. rewrite ceilHalf_spec. cbn [fst snd].
  repeat apply conj; try reflexivity.
  - intros H. apply Nat.leb_gt in H. now rewrite H.
  - intros H. apply Nat.leb_le in H. now rewrite H.
  - rewrite length_firstn. apply Nat.min_l. exact Hle.
  - rewrite length_skipn.
    generalize (List.length skills). intros n.
    pose proof (Nat.div_mod_eq (n + 1) 2).
    pose proof (Nat.mod_upper_bound (n + 1) 2 ltac:(lia)).
    pose proof (Nat.div_mod_eq n 2).
    pose proof (Nat.mod_upper_bound n 2 ltac:(lia)).
    lia.
  - intros s. unfold Exporter.renderSkillsInColumns, Exporter.skillColumns.
    rewrite ceilHalf_spec.
    set (left := firstn _ skills). set (right := skipn _ skills).
    unfold bind at 1. unfold getY at 1.
    unfold bind at 1.
    match goal with |- context [forEach left ?b s] =>
      destruct (drawnTexts_forEach b _ left
                  (drawnTexts_skill (margin + Exporter.skillsIndent)) s)
        as (s1 & E1 & T1)
    end.
    rewrite E1. unfold bind at 1. unfold setY at 1.
    unfold bind at 1.
    match goal with |- context [forEach right ?b ?s0] =>
      destruct (drawnTexts_forEach b _ right
                  (drawnTexts_skill
                     (margin + Exporter.skillsIndent
                      + Exporter.skillsMaxWidth pdf / 2
                      + Exporter.skillsColumnGap)) s0)
        as (s2 & E2 & T2)
    end.
    rewrite E2. unfold setY. cbn [snd].
    transitivity (drawnTexts s2); [apply drawnTexts_ops; reflexivity|].
    rewrite T2. rewrite (drawnTexts_ops _ s1) by reflexivity.
    rewrite T1. now rewrite <- app_assoc.
Qed.

End WithPage.

Lemma skills_layout_spec_witness :
  (4 <= List.length fiveSkills)%nat /\
  Exporter.renderSkills Sample.a4 fiveSkills
  = Exporter.renderSkillsInColumns Sample.a4 fiveSkills /\
  fst (Exporter.skillColumns fiveSkills) = [js"Docker"; js"Java"; js"Linux"] /\
  snd (Exporter.skillColumns fiveSkills) = [js"Python"; js"SQL"].
Proof.
  pose proof (skills_layout_spec Sample.a4 fiveSkills) as H. cbv zeta in H.
  destruct H as (_ & Hcolumns & Hleft & Hright & _).
  assert (4 <= List.length fiveSkills)%nat as H4 by (vm_compute; lia).
  split; [exact H4|]. split; [exact (Hcolumns H4)|].
  split; [rewrite Hleft | rewrite Hright]; reflexivity.
Defined.

End SkillsLayoutFacts.

(** ** The cursor within a page *)

Module CursorFacts.
Import Notions.

Local Open Scope Q_scope.

Lemma extends_refl s : extends s s.
Proof. exists []. split; [reflexivity | constructor]. Qed.

Lemma extends_same s s' : writes s' = writes s -> extends s s'.
Proof. intros E. exists []. split; [exact E | constructor]. Qed.

Lemma extends_trans s1 s2 s3 : extends s1 s2 -> extends s2 s3 -> extends s1 s3.
Proof.
  intros (w1 & E1 & F1) (w2 & E2 & F2). exists (w2 ++ w1). split.
  - now rewrite E2, E1, app_assoc.
  - apply Forall_app. split; assumption.
Qed.

Lemma max_l a b : a <= Pdf.max a b.
Proof.
  unfold Pdf.max. destruct (Qle_bool a b) eqn:E.
  - now apply Qle_bool_iff.
  - apply Qle_refl.
Qed.

Lemma max_r a b : b <= Pdf.max a b.
Proof.
  unfold Pdf.max. destruct (Qle_bool a b) eqn:E.
  - apply Qle_refl.
  - apply Qlt_le_weak, Qnot_le_lt. intros H. apply Qle_bool_iff in H. congruence.
Qed.

(** *** Rules *)

Lemma spec_conseq {A} (P P' : Q -> Prop) (R R' : A -> Q -> Prop) (m : M A) :
  Spec P m R ->
  (forall y, margin <= y -> P' y -> P y) ->
  (forall a y, margin <= y -> R a y -> R' a y) ->
  Spec P' m R'.
Proof.
  intros H HP HR s Hm Hp. destruct (H s Hm (HP _ Hm Hp)) as (E & M' & Hr).
  repeat split; auto. destruct (fst (m s)); auto.
Qed.

Lemma spec_post {A} (P : Q -> Prop) (R R' : A -> Q -> Prop) (m : M A) :
  Spec P m R -> (forall a y, margin <= y -> R a y -> R' a y) -> Spec P m R'.
Proof. intros H HR. apply (spec_conseq P P R R' m H); auto. Qed.

Lemma spec_pre {A} (P P' : Q -> Prop) (R : A -> Q -> Prop) (m : M A) :
  Spec P m R -> (forall y, margin <= y -> P' y -> P y) -> Spec P' m R.
Proof. intros H HP. apply (spec_conseq P P' R R m H); auto. Qed.

Lemma spec_assume {A} (P : Q -> Prop) (fact : Prop) (m : M A) R :
  (forall y, margin <= y -> P y -> fact) ->
  (fact -> Spec P m R) ->
  Spec P m R.
Proof. intros Hf H s Hm Hp. exact (H (Hf _ Hm Hp) s Hm Hp). Qed.

Lemma spec_bind {A B} (P : Q -> Prop) (Q' : A -> Q -> Prop) (R : B -> Q -> Prop)
    (m : M A) (f : A -> M B) :
  Spec P m Q' -> (forall a, Spec (Q' a) (f a) R) -> Spec P (bind m f) R.
Proof.
  intros Hm Hf s Hs Hp. unfold bind.
  destruct (Hm s Hs Hp) as (E1 & M1 & R1).
  destruct (m s) as [[a|e] s1]; simpl in *.
  - destruct (Hf a s1 M1 R1) as (E2 & M2 & R2).
    repeat split; eauto using extends_trans.
  - repeat split; auto.
Qed.

Lemma spec_still {A} (P : Q -> Prop) (m : M A) :
  Still m -> Spec P m (fun _ y => P y).
Proof.
  intros H s Hs Hp. destruct (H s) as [Ey Ew].
  split; [now apply extends_same|]. rewrite Ey. split; auto.
  destruct (fst (m s)); auto.
Qed.

Lemma spec_ret {A} (P : Q -> Prop) (a : A) :
  Spec P (ret a) (fun b y => b = a /\ P y).
Proof. intros s Hs Hp. simpl. auto using extends_refl. Qed.

Lemma spec_getY (P : Q -> Prop) : Spec P getY (fun a y => a = y /\ P y).
Proof. intros s Hs Hp. simpl. auto using extends_refl. Qed.

Lemma spec_setY (k : writeKind) (v : Q) :
  margin <= v ->
  Spec (fun y => k = PageReset \/ k = ColumnRewind \/ y <= v) (setY k v)
    (fun _ y => y = v).
Proof.
  intros Hv s Hs Hp. simpl. repeat split; auto.
  eexists [_]. split; [reflexivity|]. constructor; [|constructor].
  unfold okWrite. simpl. tauto.
Qed.

Lemma spec_advance (P : Q -> Prop) (d : Q) :
  0 <= d ->
  Spec P (advance d) (fun _ y' => exists y, P y /\ margin <= y /\ y' = y + d).
Proof.
  intros Hd s Hs Hp. unfold advance. simpl. repeat split.
  - eexists [_]. split; [reflexivity|]. constructor; [|constructor].
    unfold okWrite. simpl. right. right. lra.
  - lra.
  - eauto.
Qed.

Section WithPage.
Context (pdf : PdfLib).

Lemma spec_checkPageBreak (P : Q -> Prop) (requiredSpace : Q) :
  Spec P (Layout.checkPageBreak pdf requiredSpace)
    (fun _ y' => exists y, P y /\ margin <= y /\ (y' = y \/ y' = margin)).
Proof.
  intros s Hs Hp. unfold Layout.checkPageBreak, bind, getY. simpl.
  destruct (gtb _ _); simpl.
  - repeat split.
    + eexists [_]. split; [reflexivity|]. constructor; [|constructor].
      unfold okWrite. simpl. tauto.
    + apply Qle_refl.
    + eauto.
  - repeat split; eauto using extends_refl.
Qed.

End WithPage.

(** *** Statements that keep the cursor in order *)

Lemma steady_of_spec {A} (m : M A) R : Spec (fun _ => True) m R -> Steady m.
Proof. intros H. eapply spec_conseq; [exact H | auto | auto]. Qed.

Lemma steady_still {A} (m : M A) : Still m -> Steady m.
Proof. intros H. apply (steady_of_spec _ _ (spec_still _ m H)). Qed.

Lemma steady_bind {A B} (m : M A) (f : A -> M B) :
  Steady m -> (forall a, Steady (f a)) -> Steady (bind m f).
Proof. intros Hm Hf. eapply spec_bind; [exact Hm | exact Hf]. Qed.

Lemma steady_ret {A} (a : A) : Steady (ret a).
Proof. apply steady_still. intros s. split; reflexivity. Qed.

Lemma steady_throw {A} e : Steady (@throw A e).
Proof. apply steady_still. intros s. split; reflexivity. Qed.

Lemma steady_lift {A} (c : completion A) : Steady (lift c).
Proof. apply steady_still. intros s. split; reflexivity. Qed.

Lemma steady_call o : Steady (call o).
Proof. apply steady_still. intros s. split; reflexivity. Qed.

Lemma steady_getY : Steady getY.
Proof. apply steady_still. intros s. split; reflexivity. Qed.

Lemma steady_noteHeader t : Steady (noteHeader t).
Proof. apply steady_still. intros s. split; reflexivity. Qed.

Lemma steady_advance d : 0 <= d -> Steady (advance d).
Proof. intros H. apply (steady_of_spec _ _ (spec_advance _ d H)). Qed.

Lemma steady_when b (m : M unit) : Steady m -> Steady (when b m).
Proof. destruct b; simpl; auto using steady_ret. Qed.

Lemma steady_forEach {A} (l : list A) (body : A -> M unit) :
  (forall x, Steady (body x)) -> Steady (forEach l body).
Proof.
  intros H. induction l as [|x l IH]; simpl.
  - apply steady_ret.
  - apply steady_bind; auto.
Qed.

Lemma steady_forEachFrom {A} i (l : list A) (body : nat -> A -> M unit) :
  (forall i x, Steady (body i x)) -> Steady (forEachFrom i l body).
Proof.
  intros H. revert i. induction l as [|x l IH]; intros i; simpl.
  - apply steady_ret.
  - apply steady_bind; auto.
Qed.

Lemma steady_forEachI {A} (l : list A) (body : nat -> A -> M unit) :
  (forall i x, Steady (body i x)) -> Steady (forEachI l body).
Proof. apply steady_forEachFrom. Qed.

Lemma steady_foldEachFrom {A B} i (l : list A) (acc : B) body :
  (forall i acc x, Steady (body i acc x)) -> Steady (foldEachFrom i l acc body).
Proof.
  intros H. revert i acc. induction l as [|x l IH]; intros i acc; simpl.
  - apply steady_ret.
  - apply steady_bind; auto.
Qed.

Lemma steady_foldEachI {A B} (l : list A) (acc : B) body :
  (forall i acc x, Steady (body i acc x)) -> Steady (foldEachI l acc body).
Proof. apply steady_foldEachFrom. Qed.

Lemma steady_foldEach {A B} (l : list A) (acc : B) body :
  (forall acc x, Steady (body acc x)) -> Steady (foldEach l acc body).
Proof. intros H. apply steady_foldEachFrom. auto. Qed.

Lemma steady_tryCatchM {A} (body : M A) handler :
  Steady body -> (forall e, Steady (handler e)) -> Steady (tryCatchM body handler).
Proof.
  intros Hb Hh s Hs Hp. unfold tryCatchM.
  destruct (Hb s Hs Hp) as (E1 & M1 & _).
  destruct (body s) as [[a|e] s1]; simpl in *.
  - auto.
  - destruct (Hh e s1 M1 I) as (E2 & M2 & _).
    repeat split; eauto using extends_trans.
    destruct (fst (handler e s1)); auto.
Qed.

Section Shared.
Context (host : JsHost) (pdf : PdfLib) (cleanText : value -> jsstring).

Lemma steady_checkPageBreak r : Steady (Layout.checkPageBreak pdf r).
Proof. apply (steady_of_spec _ _ (spec_checkPageBreak pdf _ r)). Qed.

Lemma steady_getTextWidth t : Steady (Layout.getTextWidth pdf t).
Proof. apply steady_still. intros s. split; reflexivity. Qed.

Lemma steady_splitTextToSize t w : Steady (Layout.splitTextToSize pdf t w).
Proof. apply steady_still. intros s. split; reflexivity. Qed.

Lemma steady_whenSome o (body : jsstring -> M unit) :
  (forall s, Steady (body s)) -> Steady (Layout.whenSome o body).
Proof.
  intros H. destruct o as [s|]; simpl; [|apply steady_ret].
  destruct (Js.eqb s []); auto using steady_ret.
Qed.

End Shared.

(** A non-negative increment: a positive constant, or a choice between two
    of them. *)
Ltac nonneg :=
  repeat match goal with
         | |- context [if ?b then _ else _] => destruct b
         end;
  solve [ assumption | lra | unfold Qle; simpl; lia ].

Create HintDb steady.

(** One step through statements built from the drawing primitives. *)
Ltac steady_step :=
  cbv beta zeta;
  lazymatch goal with
  | |- Steady (bind _ _) => apply steady_bind; [|intros ?]
  | |- Steady (ret _) => apply steady_ret
  | |- Steady (call _) => apply steady_call
  | |- Steady getY => apply steady_getY
  | |- Steady (noteHeader _) => apply steady_noteHeader
  | |- Steady (lift _) => apply steady_lift
  | |- Steady (throw _) => apply steady_throw
  | |- Steady (advance _) => apply steady_advance; nonneg
  | |- Steady (when _ _) => apply steady_when
  | |- Steady (forEach _ _) => apply steady_forEach; intros ?
  | |- Steady (forEachI _ _) => apply steady_forEachI; intros ? ?
  | |- Steady (foldEachI _ _ _) => apply steady_foldEachI; intros ? ? ?
  | |- Steady (foldEach _ _ _) => apply steady_foldEach; intros ? ?
  | |- Steady (Layout.checkPageBreak _ _) => apply steady_checkPageBreak
  | |- Steady (Layout.getTextWidth _ _) => apply steady_getTextWidth
  | |- Steady (Layout.splitTextToSize _ _ _) => apply steady_splitTextToSize
  | |- Steady (Layout.whenSome _ _) => apply steady_whenSome; intros ?
  | |- Steady (Exporter.checkPageBreak _ _) => apply steady_checkPageBreak
  | |- Steady (Exporter.getTextWidth _ _) => apply steady_getTextWidth
  | |- Steady (Exporter.splitTextToSize _ _ _) => apply steady_splitTextToSize
  | |- Steady (BasicExporter.checkPageBreak _ _) => apply steady_checkPageBreak
  | |- Steady (BasicExporter.getTextWidth _ _) => apply steady_getTextWidth
  | |- Steady (BasicExporter.splitTextToSize _ _ _) => apply steady_splitTextToSize
  | |- Steady (Layout.setFontSize _) => apply steady_call
  | |- Steady (Layout.setFont _) => apply steady_call
  | |- Steady (Layout.setTextColor _) => apply steady_call
  | |- Steady (Layout.setDrawColor _) => apply steady_call
  | |- Steady (Layout.setFillColor _) => apply steady_call
  | |- Steady (Layout.setLineWidth _) => apply steady_call
  | |- Steady (Layout.text _ _ _) => apply steady_call
  | |- Steady (Layout.line _ _ _ _) => apply steady_call
  | |- Steady (Layout.rect _ _ _ _) => apply steady_call
  | |- Steady (Layout.circle _ _ _) => apply steady_call
  | |- Steady (if ?b then _ else _) => destruct b
  | |- Steady (match ?x with _ => _ end) => destruct x
  | |- Steady _ => solve [auto with steady]
  end.

Ltac steady := repeat steady_step.

Section SharedSections.
Context (host : JsHost) (pdf : PdfLib) (cleanText : value -> jsstring).

Lemma steady_addSectionHeader title :
  Steady (Layout.addSectionHeader host pdf title).
Proof. unfold Layout.addSectionHeader. steady. Qed.

Lemma steady_addText t size st indent c :
  0 <= size -> Steady (Layout.addText pdf cleanText t size st indent c).
Proof.
  intros H. assert (0 <= size * 0.5) by (apply Qmult_le_0_compat; lra).
  unfold Layout.addText. steady.
Qed.

Lemma steady_addBulletPoints t indent showBullets :
  Steady (Layout.addBulletPoints pdf t indent showBullets).
Proof. unfold Layout.addBulletPoints. steady. Qed.

Lemma steady_embedJobDescription jd :
  Steady (Layout.embedJobDescription cleanText jd).
Proof. unfold Layout.embedJobDescription. steady. Qed.

Lemma steady_headerSection p : Steady (Layout.headerSection pdf cleanText p).
Proof. unfold Layout.headerSection. steady. Qed.

Lemma steady_summarySection p :
  Steady (Layout.summarySection host pdf cleanText p).
Proof.
  pose proof steady_addSectionHeader. pose proof steady_addText.
  unfold Layout.summarySection. steady.
  apply steady_addText. lra.
Qed.

Lemma steady_experienceSection l :
  Steady (Layout.experienceSection host pdf cleanText l).
Proof.
  pose proof steady_addSectionHeader. pose proof steady_addBulletPoints.
  unfold Layout.experienceSection. steady.
Qed.

Lemma steady_projectsSection title l :
  Steady (Layout.projectsSection host pdf cleanText title l).
Proof.
  pose proof steady_addSectionHeader. pose proof steady_addBulletPoints.
  unfold Layout.projectsSection. steady.
Qed.

Lemma steady_certificationsSection title l :
  Steady (Layout.certificationsSection host pdf cleanText title l).
Proof.
  pose proof steady_addSectionHeader.
  unfold Layout.certificationsSection. steady.
Qed.

End SharedSections.


(** *** Loops with an invariant *)

Lemma spec_foldEachFrom {A B} (P : Q -> Prop) (I : B -> Prop) i (l : list A)
    (acc : B) body :
  (forall i acc x, I acc ->
     Spec P (body i acc x) (fun acc' y => I acc' /\ P y)) ->
  I acc ->
  Spec P (foldEachFrom i l acc body) (fun acc' y => I acc' /\ P y).
Proof.
  intros Hbody. revert i acc. induction l as [|x l IH]; intros i acc Hacc; simpl.
  - eapply spec_post; [apply spec_ret|].
    intros a y _ [-> Hp]. auto.
  - eapply spec_bind; [apply Hbody; exact Hacc|].
    intros a. apply spec_assume with (fact := I a); [tauto|].
    intros Ha. eapply spec_pre; [apply IH; exact Ha | tauto].
Qed.

(** A loop over a list with an invariant on what remains of the list. *)
Lemma spec_forEach_remaining {A} (I : list A -> Q -> Prop) (l : list A) body :
  (forall x r, Spec (I (x :: r)) (body x) (fun _ y => I r y)) ->
  Spec (I l) (forEach l body) (fun _ y => I [] y).
Proof.
  intros Hbody. induction l as [|x l IH]; simpl.
  - eapply spec_post; [apply spec_ret|]. cbv beta. tauto.
  - eapply spec_bind; [apply Hbody|]. intros ?. exact IH.
Qed.

(** The cursor stays at or below a bound through [checkPageBreak]. *)
Lemma spec_checkPageBreak_below pdf (bound requiredSpace : Q) :
  Spec (fun y => y <= bound) (Layout.checkPageBreak pdf requiredSpace)
    (fun _ y => y <= bound).
Proof.
  eapply spec_post; [apply spec_checkPageBreak|].
  intros ? y' _ (y & Hy & Hm & [-> | ->]); lra.
Qed.

Lemma still_call o : Still (call o).
Proof. intros s. split; reflexivity. Qed.

Lemma still_splitTextToSize pdf t w : Still (Layout.splitTextToSize pdf t w).
Proof. intros s. split; reflexivity. Qed.

Section Current.
Context (host : JsHost) (pdf : PdfLib).

Lemma steady_addSectionHeader' title :
  Steady (Exporter.addSectionHeader host pdf title).
Proof. apply steady_addSectionHeader. Qed.

Lemma steady_addBulletPoints' t indent showBullets :
  Steady (Exporter.addBulletPoints pdf t indent showBullets).
Proof. apply steady_addBulletPoints. Qed.

#[local] Hint Resolve steady_addSectionHeader' steady_addBulletPoints' : steady.

(** One column of courses leaves the cursor at or below where it was, and
    ends at or below where it began. *)
Lemma spec_coursesColumn (bound columnX columnWidth lineHeight : Q)
    (courses : list jsstring) (columnY : Q) :
  1 <= lineHeight ->
  Spec (fun y => y <= bound)
    (Exporter.coursesColumn pdf columnX columnWidth lineHeight courses columnY)
    (fun columnY' y => columnY <= columnY' /\ y <= bound).
Proof.
  intros Hlh. unfold Exporter.coursesColumn, foldEach.
  apply spec_foldEachFrom with (I := fun acc => columnY <= acc); [|lra].
  intros _ acc course Hacc.
  eapply spec_bind; [apply spec_checkPageBreak_below|]. intros ?. cbv zeta.
  eapply spec_bind; [apply spec_still, still_splitTextToSize|].
  intros wrappedLines.
  eapply spec_bind.
  - unfold foldEachI.
    apply spec_foldEachFrom with (I := fun acc' => acc <= acc'); [|lra].
    intros lineIndex acc' l Hacc'.
    eapply spec_bind; [apply spec_still, still_call|].
    intros ?. eapply spec_post; [apply spec_ret|].
    intros r0 y0 _ [-> Hy]. split; [|exact Hy].
    destruct (_ <? _)%nat; lra.
  - intros acc'. apply spec_assume with (fact := acc <= acc'); [tauto|].
    intros Hacc'. eapply spec_post; [apply spec_ret|].
    intros r0 y0 _ [-> [_ Hy]]. split; [lra | exact Hy].
Qed.

Lemma steady_relevantCoursework coursesText :
  Steady (Exporter.relevantCoursework pdf coursesText).
Proof.
  unfold Exporter.relevantCoursework.
  do 11 (apply steady_bind; [solve [steady] | intros ?]). cbv beta zeta.
  do 3 (apply steady_bind; [solve [steady] | intros ?]).
  (* from the cursor [y] on: two columns, then the join *)
  eapply spec_bind; [apply spec_getY|]. intros y.
  apply spec_assume with (fact := margin <= y); [intros ? ? [-> _]; assumption|].
  intros Hy.
  eapply spec_bind.
  { eapply spec_pre; [apply (spec_coursesColumn y); lra|].
    intros ? _ [-> _]. lra. }
  intros column1Y. cbv beta.
  apply spec_assume with (fact := y <= column1Y); [tauto|]. intros H1.
  eapply spec_bind.
  { eapply spec_pre; [apply (spec_coursesColumn y); lra | tauto]. }
  intros column2Y. cbv beta.
  pose proof (max_l column1Y column2Y).
  eapply spec_conseq; [apply spec_setY | | auto].
  - lra.
  - intros y' _ [_ Hy']. right. right. lra.
Qed.


#[local] Hint Resolve steady_relevantCoursework : steady.

Lemma steady_educationSection l : Steady (Exporter.educationSection host pdf l).
Proof. unfold Exporter.educationSection. steady. Qed.

(** One skill of a column: a page break if needed, the text, one line
    down. *)
Lemma spec_skill_line (bound : Q) (x : Q) (skill : jsstring) :
  Spec (fun y => y + Exporter.skillsLineHeight <= bound)
    (bind (Exporter.checkPageBreak pdf Exporter.skillsLineHeight) (fun _ =>
       bind getY (fun y =>
         bind (Layout.text (Exporter.skillsBulletPoint ++ skill) x y) (fun _ =>
           advance Exporter.skillsLineHeight))))
    (fun _ y => y <= bound).
Proof.
  eapply spec_bind; [apply spec_checkPageBreak|]. intros ?.
  eapply spec_bind; [apply spec_getY|]. intros y.
  eapply spec_bind; [apply spec_still, still_call|]. intros ?.
  eapply spec_post; [apply spec_advance; unfold Exporter.skillsLineHeight; lra|].
  intros ? y' _ (y1 & (_ & y0 & H0 & Hm & Hy) & _ & ->).
  destruct Hy as [-> | ->]; lra.
Qed.

Lemma steady_renderSkillsInColumns skills :
  Steady (Exporter.renderSkillsInColumns pdf skills).
Proof.
  unfold Exporter.renderSkillsInColumns.
  destruct (Exporter.skillColumns skills) as [leftColumn rightColumn].
  cbv zeta.
  eapply spec_bind; [apply spec_getY|]. intros startY.
  apply spec_assume with (fact := margin <= startY);
    [intros ? ? [-> _]; assumption|].
  intros HstartY.
  assert (0 <= Exporter.skillsLineHeight) as Hlh
    by (unfold Exporter.skillsLineHeight; lra).
  (* the left column *)
  eapply spec_bind.
  { eapply spec_pre; [|intros; exact I]. apply steady_forEach. intros skill. steady. }
  intros ?.
  (* back to the top of the columns *)
  eapply spec_bind.
  { eapply spec_pre; [apply spec_setY; exact HstartY|].
    intros; right; left; reflexivity. }
  intros ?.
  (* the right column: after [k] skills the cursor is at most [k] lines
     below the top *)
  set (len := fun l : list jsstring => inject_Z (Z.of_nat (List.length l))).
  eapply spec_bind.
  { eapply spec_pre.
    - apply spec_forEach_remaining with
        (I := fun remaining y =>
                y + len remaining * Exporter.skillsLineHeight
                <= startY + len rightColumn * Exporter.skillsLineHeight).
      intros skill remaining. cbv beta.
      eapply spec_conseq;
        [apply (spec_skill_line
                  (startY + len rightColumn * Exporter.skillsLineHeight
                   - len remaining * Exporter.skillsLineHeight) _ skill) | |].
      + intros y _ H. unfold len in H at 1. simpl List.length in H.
        rewrite Nat2Z.inj_succ, <- Z.add_1_r, inject_Z_plus in H.
        fold (len remaining) in H. change (inject_Z 1) with 1 in H.
        cbv beta. unfold Exporter.skillsLineHeight in *. lra.
      + intros ? y _ H. unfold Exporter.skillsLineHeight in *. lra.
    - intros y _ ->. lra. }
  intros ?.
  fold (len leftColumn) (len rightColumn).
  pose proof (max_l (len leftColumn) (len rightColumn)) as Hl.
  pose proof (max_r (len leftColumn) (len rightColumn)) as Hr.
  assert (0 <= len leftColumn) as H0.
  { unfold len. change 0 with (inject_Z 0). rewrite <- Zle_Qle. lia. }
  set (longest := Pdf.max (len leftColumn) (len rightColumn)) in *.
  assert (len [] == 0) as Hnil by reflexivity.
  clearbody longest. clearbody len.
  eapply spec_conseq; [apply spec_setY | | auto].
  - unfold Exporter.skillsLineHeight. lra.
  - intros y _ H. right. right. cbn [List.length] in H.
    unfold Exporter.skillsLineHeight in *. lra.
Qed.

Lemma steady_renderSkillsHorizontally skills :
  Steady (Exporter.renderSkillsHorizontally pdf skills).
Proof. unfold Exporter.renderSkillsHorizontally. steady. Qed.

#[local] Hint Resolve steady_renderSkillsInColumns
  steady_renderSkillsHorizontally : steady.

Lemma steady_skillsSection skills :
  Steady (Exporter.skillsSection host pdf skills).
Proof.
  unfold Exporter.skillsSection, Exporter.renderSkills.
  unfold Exporter.skillsSpacingAfter. steady.
Qed.


Lemma steady_languagesInList languages :
  Steady (Exporter.languagesInList pdf languages).
Proof.
  unfold Exporter.languagesInList, Exporter.languagesLineHeight. steady.
Qed.

(** One column of languages: the cursor stays at or below a bound, and the
    column ends at or below its start. *)
Lemma spec_languagesColumn (bound : Q) col columnX columnWidth startY languages :
  Spec (fun y => y <= bound)
    (Exporter.languagesColumn pdf col columnX columnWidth startY languages)
    (fun columnY y => startY <= columnY /\ y <= bound).
Proof.
  unfold Exporter.languagesColumn, foldEach.
  apply spec_foldEachFrom with (I := fun acc => startY <= acc); [|lra].
  intros _ columnY lang HcolumnY.
  eapply spec_bind with (Q' := fun _ y => y <= bound).
  { destruct (col =? 0)%nat; simpl.
    - eapply spec_bind; [apply spec_checkPageBreak_below|]. intros ?.
      eapply spec_post; [apply spec_ret|]. cbv beta. tauto.
    - eapply spec_post; [apply spec_ret|]. cbv beta. tauto. }
  intros ?.
  eapply spec_bind; [apply spec_still, still_call|]. intros ?.
  eapply spec_bind; [apply spec_still, still_call|]. intros ?.
  eapply spec_bind; [apply spec_still, still_splitTextToSize|]. intros lines.
  eapply spec_bind with (Q' := fun _ y => y <= bound).
  { destruct lines as [|first rest].
    - apply spec_still. intros s. split; reflexivity.
    - apply spec_still, still_call. }
  intros ?. eapply spec_post; [apply spec_ret|].
  intros r0 y0 _ [-> Hy]. split; [|exact Hy].
  unfold Exporter.languagesLineHeight. lra.
Qed.

Lemma steady_languagesInColumns languages :
  Steady (Exporter.languagesInColumns pdf languages).
Proof.
  unfold Exporter.languagesInColumns. cbv zeta.
  eapply spec_bind; [apply spec_getY|]. intros startY.
  apply spec_assume with (fact := margin <= startY);
    [intros ? ? [-> _]; assumption|].
  intros HstartY.
  eapply spec_bind.
  { eapply spec_pre.
    - unfold foldEach.
      apply spec_foldEachFrom with
        (P := fun y => y <= startY) (I := fun acc => 0 <= acc); [|lra].
      intros _ maxColumnHeight col Hmax.
      destruct (negb _).
      + eapply spec_post; [apply spec_ret|].
        intros r0 y0 _ [-> Hy]. auto.
      + eapply spec_bind; [apply (spec_languagesColumn startY)|].
        intros columnY. eapply spec_post; [apply spec_ret|].
        intros r0 y0 _ [-> [_ Hy]]. split; [|exact Hy].
        pose proof (max_l maxColumnHeight (columnY - startY)). lra.
    - intros y _ [-> _]. lra. }
  intros maxColumnHeight. cbv beta.
  apply spec_assume with (fact := 0 <= maxColumnHeight); [tauto|]. intros Hmax.
  eapply spec_conseq; [apply spec_setY | | auto].
  - lra.
  - intros y' _ [_ Hy']. right. right. lra.
Qed.

#[local] Hint Resolve steady_languagesInList steady_languagesInColumns : steady.

Lemma steady_languagesSection l : Steady (Exporter.languagesSection host pdf l).
Proof.
  unfold Exporter.languagesSection, Exporter.languagesSpacingAfter. steady.
Qed.

Lemma steady_interestsSection l : Steady (Exporter.interestsSection host pdf l).
Proof. unfold Exporter.interestsSection, Exporter.layout. steady. Qed.

Lemma steady_referencesSection l : Steady (Exporter.referencesSection host pdf l).
Proof. unfold Exporter.referencesSection. steady. Qed.

Lemma steady_exportBody resumeData filename jobDescription :
  Steady (Exporter.exportBody host pdf resumeData filename jobDescription).
Proof.
  pose proof (steady_embedJobDescription (Exporter.cleanText host)).
  pose proof (steady_headerSection pdf (Exporter.cleanText host)).
  pose proof (steady_summarySection host pdf (Exporter.cleanText host)).
  pose proof (steady_experienceSection host pdf (Exporter.cleanText host)).
  pose proof (steady_projectsSection host pdf (Exporter.cleanText host)).
  pose proof (steady_certificationsSection host pdf (Exporter.cleanText host)).
  pose proof steady_educationSection. pose proof steady_skillsSection.
  pose proof steady_languagesSection. pose proof steady_interestsSection.
  pose proof steady_referencesSection.
  unfold Exporter.exportBody, Exporter.save. steady.
Qed.

End Current.

(** C6, amended: in an export of the current revision, every write to the
    cursor either starts a new page, or is the rewind to the top of the
    columns that [renderSkillsInColumns] makes between its left and its
    right column, or leaves the cursor where it was or further down. *)
Theorem cursor_lowered_only_by_column_rewind (host : JsHost) (pdf : PdfLib)
    (resumeData : option ResumeData) (templateId : Z) (filename : jsstring)
    (jobDescription : option jsstring) :
  forall w,
    In w (writes (snd (Exporter.generateTextPDF host pdf resumeData templateId
                         filename jobDescription))) ->
    kind w = PageReset \/ kind w = ColumnRewind \/ before w <= after w.
Proof.
  assert (Steady (tryCatchM
                    (Exporter.exportBody host pdf resumeData filename jobDescription)
                    (fun _ => throw Exporter.generationFailed))) as H.
  { apply steady_tryCatchM; [apply steady_exportBody | intros; apply steady_throw]. }
  destruct (H initial (Qle_refl _) I) as ((ws & E & F) & _).
  unfold Exporter.generateTextPDF. rewrite E, app_nil_r.
  rewrite Forall_forall in F. exact F.
Qed.

Lemma cursor_lowered_only_by_column_rewind_witness :
  let final :=
    snd (Exporter.generateTextPDF (Sample.host 0) Sample.a4
           (Some (Sample.withSkills [js"Docker"; js"Java"; js"Linux"; js"Python"]))
           0 js"resume.pdf" None) in
  exists w, In w (writes final) /\ kind w = ColumnJoin /\
            (kind w = PageReset \/ kind w = ColumnRewind \/ before w <= after w).
Proof.
  cbv zeta.
  assert (exists w,
            In w (writes (snd (Exporter.generateTextPDF (Sample.host 0) Sample.a4
                                 (Some (Sample.withSkills
                                          [js"Docker"; js"Java"; js"Linux"; js"Python"]))
                                 0 js"resume.pdf" None)))
            /\ kind w = ColumnJoin) as (w & Hin & Hkind).
  { vm_compute. eexists. split; [right; left; reflexivity | reflexivity]. }
  exists w. split; [exact Hin|]. split; [exact Hkind|].
  exact (cursor_lowered_only_by_column_rewind (Sample.host 0) Sample.a4 _ 0
           js"resume.pdf" None w Hin).
Defined.

(** C6 fails as stated: with four skills and no page break anywhere in the
    export, the write between the two columns takes the cursor from 53
    back up to 44 on the one page. *)
Lemma skills_columns_rewind_the_cursor :
  let final :=
    snd (Exporter.generateTextPDF (Sample.host 0) Sample.a4
           (Some (Sample.withSkills [js"Docker"; js"Java"; js"Linux"; js"Python"]))
           0 js"resume.pdf" None) in
  page final = 1%nat /\
  exists w, In w (writes final) /\ kind w = ColumnRewind /\ onPage w = 1%nat /\
            before w == 53 /\ after w == 44 /\ after w < before w.
Proof.
  cbv zeta.
  remember (snd (Exporter.generateTextPDF _ _ _ _ _ _)) as final eqn:E.
  vm_compute in E. subst final. simpl.
  split; [reflexivity|].
  eexists. split.
  - do 4 right. left. reflexivity.
  - repeat split; reflexivity.
Qed.

End CursorFacts.

(** ** A document with personal details only *)

Module ExportFacts.
Import Notions.

Local Open Scope Q_scope.

Lemma plain_ret {A} (a : A) : Plain (ret a).
Proof. intros s. simpl. eauto. Qed.

Lemma plain_bind {A B} (m : M A) (f : A -> M B) :
  Plain m -> (forall a, Plain (f a)) -> Plain (bind m f).
Proof.
  intros Hm Hf s. unfold bind.
  destruct (Hm s) as ((a & Ea) & S1 & H1).
  destruct (m s) as [r s1]. simpl in *. subst r.
  destruct (Hf a s1) as (N2 & S2 & H2).
  split; [exact N2|]. split; [congruence|].
  intros h Hh. destruct (H2 h Hh) as [Hin|]; auto.
Qed.

Lemma plain_call o : isSave o = false -> Plain (call o).
Proof.
  intros H s. unfold saved. simpl. rewrite H. eauto.
Qed.

Lemma plain_getY : Plain getY.
Proof. intros s. simpl. eauto. Qed.

Lemma plain_advance d : Plain (advance d).
Proof. intros s. simpl. eauto. Qed.

Lemma plain_when b (m : M unit) : Plain m -> Plain (when b m).
Proof. destruct b; simpl; auto using plain_ret. Qed.

Lemma plain_forEach {A} (l : list A) (body : A -> M unit) :
  (forall x, Plain (body x)) -> Plain (forEach l body).
Proof.
  intros H. induction l as [|x l IH]; simpl.
  - apply plain_ret.
  - apply plain_bind; auto.
Qed.

Lemma plain_forEachFrom {A} i (l : list A) (body : nat -> A -> M unit) :
  (forall i x, Plain (body i x)) -> Plain (forEachFrom i l body).
Proof.
  intros H. revert i. induction l as [|x l IH]; intros i; simpl.
  - apply plain_ret.
  - apply plain_bind; auto.
Qed.

Section Shared.
Context (host : JsHost) (pdf : PdfLib) (cleanText : value -> jsstring).

Lemma plain_checkPageBreak r : Plain (Layout.checkPageBreak pdf r).
Proof.
  intros s. unfold Layout.checkPageBreak, bind, getY. simpl.
  destruct (gtb _ _); simpl; eauto.
Qed.

Lemma plain_getTextWidth t : Plain (Layout.getTextWidth pdf t).
Proof. intros s. simpl. eauto. Qed.

Lemma plain_splitTextToSize t w : Plain (Layout.splitTextToSize pdf t w).
Proof. intros s. simpl. eauto. Qed.

Lemma plain_whenSome o (body : jsstring -> M unit) :
  (forall s, Plain (body s)) -> Plain (Layout.whenSome o body).
Proof.
  intros H. destruct o as [s|]; simpl; [|apply plain_ret].
  destruct (Js.eqb s []); auto using plain_ret.
Qed.

Lemma plain_noteSummary : Plain (noteHeader js"Executive Summary").
Proof.
  intros s. unfold noteHeader. cbn [fst snd headers ops saved].
  split; [eauto|]. split; [reflexivity|].
  intros h [<-|Hh]; auto.
Qed.

End Shared.

Ltac plain_step :=
  cbv beta zeta;
  lazymatch goal with
  | |- Plain (bind _ _) => apply plain_bind; [|intros ?]
  | |- Plain (ret _) => apply plain_ret
  | |- Plain (call _) => apply plain_call; reflexivity
  | |- Plain getY => apply plain_getY
  | |- Plain (advance _) => apply plain_advance
  | |- Plain (when _ _) => apply plain_when
  | |- Plain (forEach _ _) => apply plain_forEach; intros ?
  | |- Plain (forEachI _ _) => apply plain_forEachFrom; intros ? ?
  | |- Plain (Layout.checkPageBreak _ _) => apply plain_checkPageBreak
  | |- Plain (Layout.getTextWidth _ _) => apply plain_getTextWidth
  | |- Plain (Layout.splitTextToSize _ _ _) => apply plain_splitTextToSize
  | |- Plain (Layout.whenSome _ _) => apply plain_whenSome; intros ?
  | |- Plain (noteHeader _) => apply plain_noteSummary
  | |- Plain (Layout.setFontSize _) => apply plain_call; reflexivity
  | |- Plain (Layout.setFont _) => apply plain_call; reflexivity
  | |- Plain (Layout.setTextColor _) => apply plain_call; reflexivity
  | |- Plain (Layout.setDrawColor _) => apply plain_call; reflexivity
  | |- Plain (Layout.setLineWidth _) => apply plain_call; reflexivity
  | |- Plain (Layout.text _ _ _) => apply plain_call; reflexivity
  | |- Plain (Layout.line _ _ _ _) => apply plain_call; reflexivity
  | |- Plain (if ?b then _ else _) => destruct b
  | |- Plain (match ?x with _ => _ end) => destruct x
  end.

Ltac plain := repeat plain_step.

Section Prelude.
Context (host : JsHost) (pdf : PdfLib) (cleanText : value -> jsstring).

Lemma plain_prelude resumeData jobDescription :
  Plain (prelude host pdf cleanText resumeData jobDescription).
Proof.
  unfold prelude, Layout.embedJobDescription, Layout.headerSection,
    Layout.summarySection, Layout.addText, Layout.addSectionHeader.
  plain.
Qed.

End Prelude.

(** C1, in the earlier revision: for a document with a full name and empty
    section arrays, [generateTextPDF] ends normally without having called
    [pdf.save]: it returns at [if (!resumeData.skills?.length) return;]. *)
Theorem basic_export_returns_before_save (host : JsHost) (pdf : PdfLib)
    (resumeData : ResumeData) (templateId : Z) (filename : jsstring)
    (jobDescription : option jsstring) :
  OnlyPersonal resumeData ->
  let result := BasicExporter.generateTextPDF host pdf (Some resumeData)
                  templateId filename jobDescription in
  fst result = Normal tt /\
  saved (snd result) = false /\
  (forall f, ~ In (Save f) (ops (snd result))).
Proof.
  intros (_ & Hexp & Hedu & Hskills & _). cbv zeta.
  unfold BasicExporter.generateTextPDF, tryCatchM, BasicExporter.exportBody.
  rewrite Hexp, Hedu, Hskills.
  change (BasicExporter.educationSection host pdf []) with (ret tt : M unit).
  change (Layout.experienceSection host pdf (BasicExporter.cleanText) [])
    with (ret tt : M unit).
  destruct (plain_prelude host pdf BasicExporter.cleanText resumeData
              jobDescription initial) as ((a & N) & S & _).
  unfold prelude in N, S. unfold bind in *.
  destruct (Layout.embedJobDescription _ _ initial) as [[[]|e1] s1];
    cbn [fst snd] in *; [|discriminate N].
  destruct (Layout.headerSection _ _ _ s1) as [[[]|e2] s2];
    cbn [fst snd] in *; [|discriminate N].
  destruct (Layout.summarySection _ _ _ _ s2) as [[[]|e3] s3];
    cbn [fst snd] in *; [|discriminate N].
  unfold ret. cbn [negb Layout.nonEmpty fst snd].
  split; [reflexivity|]. split; [exact S|].
  intros f Hin. change (saved initial) with false in S. unfold saved in S.
  assert (existsb isSave (ops s3) = true) as X
    by (apply existsb_exists; exists (Save f); auto).
  congruence.
Qed.

Lemma basic_export_returns_before_save_witness :
  OnlyPersonal Sample.janeDoe /\
  let result := BasicExporter.generateTextPDF (Sample.host 0) Sample.a4
                  (Some Sample.janeDoe) 0 js"Jane_Doe_Resume.pdf" None in
  fst result = Normal tt /\
  saved (snd result) = false /\
  (forall f, ~ In (Save f) (ops (snd result))).
Proof.
  assert (OnlyPersonal Sample.janeDoe) as H.
  { unfold OnlyPersonal. simpl. repeat split; try reflexivity.
    eexists _, _. repeat split; try reflexivity. discriminate. }
  split; [exact H|].
  apply (basic_export_returns_before_save (Sample.host 0) Sample.a4
           Sample.janeDoe 0 js"Jane_Doe_Resume.pdf" None H).
Defined.

(** In the current revision the same documents are saved, with no section
    drawn but, if there is a summary, that of the summary. *)
Lemma current_export_saves (host : JsHost) (pdf : PdfLib)
    (resumeData : ResumeData) (templateId : Z) (filename : jsstring)
    (jobDescription : option jsstring) :
  OnlyPersonal resumeData ->
  let result := Exporter.generateTextPDF host pdf (Some resumeData)
                  templateId filename jobDescription in
  fst result = Normal tt /\
  hd_error (ops (snd result)) = Some (Save filename) /\
  (forall h, In h (headers (snd result)) -> h = js"Executive Summary").
Proof.
  intros (_ & Hexp & Hedu & Hskills & Hproj & Hcert & Hlang & Hint & Href).
  cbv zeta.
  unfold Exporter.generateTextPDF, tryCatchM, Exporter.exportBody.
  rewrite Hexp, Hedu, Hskills, Hproj, Hcert, Hlang, Hint, Href.
  change (Exporter.educationSection host pdf []) with (ret tt : M unit).
  change (Exporter.skillsSection host pdf []) with (ret tt : M unit).
  change (Exporter.languagesSection host pdf []) with (ret tt : M unit).
  change (Exporter.interestsSection host pdf []) with (ret tt : M unit).
  change (Exporter.referencesSection host pdf []) with (ret tt : M unit).
  change (Layout.experienceSection host pdf (Exporter.cleanText host) [])
    with (ret tt : M unit).
  change (Layout.projectsSection host pdf (Exporter.cleanText host)
            js" Projects" []) with (ret tt : M unit).
  change (Layout.certificationsSection host pdf (Exporter.cleanText host)
            js" Certifications" []) with (ret tt : M unit).
  destruct (plain_prelude host pdf (Exporter.cleanText host) resumeData
              jobDescription initial) as ((a & N) & _ & Hh).
  unfold prelude in N, Hh. unfold bind in *.
  destruct (Layout.embedJobDescription _ _ initial) as [[[]|e1] s1];
    cbn [fst snd] in *; [|discriminate N].
  destruct (Layout.headerSection _ _ _ s1) as [[[]|e2] s2];
    cbn [fst snd] in *; [|discriminate N].
  destruct (Layout.summarySection _ _ _ _ s2) as [[[]|e3] s3];
    cbn [fst snd] in *; [|discriminate N].
  unfold ret, Exporter.save, call. cbn [fst snd ops headers hd_error].
  repeat split; auto.
  intros h Hin. destruct (Hh h Hin) as [[]|]; assumption.
Qed.

End ExportFacts.

(** * Further properties of the exporter, the builder page and the forms *)

(** ** Sanitized text, email addresses, references and skills *)

Module TextFacts.
Import Notions JsFacts SanitizerFacts RegexFacts.

(** X1.  On a string that is not empty, [cleanText] of the current
    revision is [cleanText] of the earlier revision applied to the NFKD
    normalisation of the string: the step that removes control characters
    never finds one to remove. *)
Theorem cleanText_is_basic_after_nfkd (host : JsHost) (s : jsstring) :
  s <> [] ->
  Exporter.cleanText host (Str s) =
  BasicExporter.cleanText (Str (normalizeNFKD host s)).
Proof.
  intros Hs. rewrite cleanText_Str, basic_cleanText_Str.
  destruct (eqb_spec s []) as [|_]; [contradiction|].
  rewrite removeControl_id
    by apply removeAll_Forall, keepPrintable_all.
  destruct (eqb_spec (normalizeNFKD host s) []) as [E|_]; [|reflexivity].
  rewrite E. reflexivity.
Qed.

Lemma cleanText_is_basic_after_nfkd_witness :
  Sample.resumeSummary <> [] /\
  Exporter.cleanText (Sample.host 0) (Str Sample.resumeSummary)
  = BasicExporter.cleanText
      (Str (normalizeNFKD (Sample.host 0) Sample.resumeSummary)).
Proof.
  split; [discriminate|].
  apply (cleanText_is_basic_after_nfkd (Sample.host 0) Sample.resumeSummary).
  discriminate.
Defined.

Lemma lang_plus_class p s :
  lang (Plus (Class p)) s <-> s <> [] /\ Forall (fun c => p c = true) s.
Proof.
  unfold Plus. split.
  - intros H. invert H.
    match goal with X : lang (Class _) _ |- _ => invert X end.
    split; [discriminate|]. constructor; auto.
    match goal with X : lang (Star _) ?t |- _ =>
      remember (Star (Class p)) as r eqn:Er; induction X; try discriminate
    end.
    + constructor.
    + invert Er. match goal with X : lang (Class _) _ |- _ => invert X end.
      constructor; auto.
  - intros [Hne H]. destruct s as [|c s]; [congruence|].
    invert H. change (c :: s) with ([c] ++ s). constructor; [now constructor|].
    clear Hne. induction s as [|d s IH]; [constructor|].
    match goal with X : Forall _ (d :: s) |- _ => invert X end.
    change (d :: s) with ([d] ++ s). constructor; [now constructor|auto].
Qed.

Lemma notSpaceNorAt_spec c :
  Exporter.notSpaceNorAt c = true <-> isWhiteSpace c = false /\ c <> 64.
Proof.
  unfold Exporter.notSpaceNorAt. rewrite negb_true_iff, orb_false_iff.
  rewrite Z.eqb_neq. tauto.
Qed.

(** X2.  [isValidEmail] accepts exactly the strings of the form
    [name@domain.ending] where the three parts are not empty and hold
    neither white space nor an [@] (the domain and the ending may hold
    dots). *)
Theorem isValidEmail_shape (email : jsstring) :
  Exporter.isValidEmail email = true <-> EmailShape email.
Proof.
  unfold Exporter.isValidEmail, test, Exporter.emailRegex; simpl.
  rewrite matches_lang. split.
  - intros H. invert H.
    match goal with X : lang Eps _ |- _ => invert X end.
    match goal with X : lang (Seq (Seq _ _) Eps) _ |- _ => invert X end.
    match goal with X : lang Eps _ |- _ => invert X end.
    repeat match goal with
           | X : lang (Seq _ _) _ |- _ => invert X
           | X : lang (Chr _) _ |- _ => invert X
           end.
    repeat match goal with
           | X : lang (Plus _) _ |- _ => apply lang_plus_class in X; destruct X
           | X : (_ =? _) = true |- _ => apply Z.eqb_eq in X; subst
           end.
    simpl. rewrite app_nil_r.
    match goal with |- EmailShape (?a ++ _ :: ?b ++ _ :: ?c) => exists a, b, c end.
    repeat split; auto.
    rewrite !Forall_app. repeat split;
      (eapply Forall_impl; [|eassumption]; intros ?; apply notSpaceNorAt_spec).
  - intros (name & domain & ending & -> & H1 & H2 & H3 & HF).
    rewrite !Forall_app in HF. destruct HF as (F1 & F2 & F3).
    change (name ++ 64 :: domain ++ 46 :: ending)
      with ([] ++ (name ++ [64] ++ domain ++ [46] ++ ending)).
    constructor; [constructor|].
    rewrite <- (app_nil_r (name ++ _)).
    constructor; [|constructor].
    assert (forall l, l <> [] -> Forall (fun c => isWhiteSpace c = false /\ c <> 64) l ->
                      lang (Plus (Class Exporter.notSpaceNorAt)) l) as P.
    { intros l Hl Fl. apply lang_plus_class. split; auto.
      eapply Forall_impl; [|exact Fl]. intros ?. apply notSpaceNorAt_spec. }
    constructor; [auto|]. constructor; [constructor; reflexivity|].
    constructor; [auto|]. constructor; [constructor; reflexivity|auto].
Qed.

Section Idempotence.
Context (host : JsHost).
Hypothesis nfkd_ascii :
  forall s, Forall (fun c => isPrintableAscii c = true) s ->
            normalizeNFKD host s = s.

Lemma cleanText_idem s :
  Exporter.cleanText host (Str (Exporter.cleanText host (Str s)))
  = Exporter.cleanText host (Str s).
Proof.
  apply cleanText_fixes_Clean; [|apply cleanText_Clean].
  apply nfkd_ascii, cleanText_Clean.
Qed.

Lemma cleanIfPresent_idem f :
  Exporter.cleanIfPresent host (Exporter.cleanIfPresent host f)
  = Exporter.cleanIfPresent host f.
Proof.
  unfold Exporter.cleanIfPresent, present. destruct f as [s|]; simpl; auto.
  destruct (eqb_spec s []) as [->|Hs]; simpl; auto.
  destruct (eqb_spec (Exporter.cleanText host (Str s)) []) as [E|_]; simpl; auto.
  now rewrite cleanText_idem.
Qed.

Lemma placeholder_valid :
  Exporter.isValidName (Exporter.cleanText host (Str Exporter.placeholderName)) = true.
Proof.
  rewrite cleanText_fixes_Clean.
  - reflexivity.
  - apply nfkd_ascii. repeat constructor.
  - repeat split; repeat constructor.
Qed.

(** X3.  [validateReference] changes nothing in a reference it has
    validated: the placeholder name passes [isValidName], a removed email
    stays removed and sanitized fields stay as they are.  As for the
    sanitizer, the engine's NFKD normalisation is asked to leave printable
    ASCII text unchanged. *)
Theorem validateReference_idempotent (ref : Reference.t) :
  Exporter.validateReference host (Exporter.validateReference host ref)
  = Exporter.validateReference host ref.
Proof.
  unfold Exporter.validateReference at 1 3.
  cbn [Reference.name Reference.email Reference.title Reference.company
       Reference.relationship Reference.phone Exporter.validateReference].
  rewrite !cleanIfPresent_idem. f_equal.
  - destruct (negb (present (Reference.name ref))
              || negb (Exporter.isValidName
                         (Exporter.cleanText host (ofOption (Reference.name ref)))))
      eqn:E.
    + change (ofOption (Some Exporter.placeholderName))
        with (Str Exporter.placeholderName).
      rewrite placeholder_valid. reflexivity.
    + rewrite E. reflexivity.
  - destruct (present (Reference.email ref)
              && negb (Exporter.isValidEmail
                         (Exporter.cleanText host (ofOption (Reference.email ref)))))
      eqn:E.
    + reflexivity.
    + rewrite E. reflexivity.
Qed.

End Idempotence.

Lemma validateReference_idempotent_witness :
  (forall s, Forall (fun c => isPrintableAscii c = true) s ->
             normalizeNFKD (Sample.host 0) s = s) /\
  Exporter.validateReference (Sample.host 0)
    (Exporter.validateReference (Sample.host 0) adaLovelace)
  = Exporter.validateReference (Sample.host 0) adaLovelace.
Proof.
  split; [intros s _; reflexivity|].
  apply (validateReference_idempotent (Sample.host 0)).
  intros s _. reflexivity.
Defined.

Lemma In_insertBy {A} (cmp : A -> A -> Z) x y l :
  In y (insertBy cmp x l) <-> y = x \/ In y l.
Proof.
  induction l as [|z l IH]; simpl.
  - intuition.
  - destruct (cmp x z <=? 0); simpl; rewrite ?IH; intuition.
Qed.

Lemma In_sortBy {A} (cmp : A -> A -> Z) y l :
  In y (sortBy cmp l) <-> In y l.
Proof.
  induction l as [|z l IH]; simpl; [tauto|].
  rewrite In_insertBy, IH. intuition.
Qed.

Lemma Clean_ascii c : Clean c -> Forall (fun ch => ch < 128) c.
Proof.
  intros (Hp & _). eapply Forall_impl; [|exact Hp].
  intros ch. unfold isPrintableAscii. lia.
Qed.

Lemma includes_In l w : Js.includes l w = true <-> In w l.
Proof.
  unfold Js.includes. rewrite existsb_exists. split.
  - intros (x & Hin & E). destruct (eqb_spec w x); congruence.
  - intros Hin. exists w. split; auto. apply eqb_refl.
Qed.

Lemma lower_upper c : lowerAscii (upperAscii c) = lowerAscii c.
Proof.
  unfold lowerAscii, upperAscii, isLowerAZ, isUpperAZ.
  destruct ((97 <=? c) && (c <=? 122)) eqn:E1;
    destruct ((65 <=? c) && (c <=? 90)) eqn:E2;
    try destruct ((65 <=? c - 32) && (c - 32 <=? 90)) eqn:E3; lia.
Qed.

Lemma upperAscii_keeps c :
  isPrintableAscii c = true -> isBulletOrDash c = false ->
  isWhiteSpace c = false ->
  isPrintableAscii (upperAscii c) = true /\ isBulletOrDash (upperAscii c) = false
  /\ isWhiteSpace (upperAscii c) = false /\ isLowerAZ (upperAscii c) = false
  /\ (c <? 128) = true.
Proof.
  unfold upperAscii, isLowerAZ, isPrintableAscii, isBulletOrDash, bulletGlyphs,
    isWhiteSpace. simpl.
  destruct ((97 <=? c) && (c <=? 122)) eqn:E; intros; repeat split; lia.
Qed.

Lemma capitalize_Clean host c r :
  Clean (c :: r) ->
  Exporter.capitalize host (c :: r) = upperAscii c :: r /\
  Clean (upperAscii c :: r) /\ isLowerAZ (upperAscii c) = false.
Proof.
  intros (Hp & Hb & Hr & Hh & Hl).
  assert (isPrintableAscii c = true) as Pc by now inversion Hp.
  assert (isBulletOrDash c = false) as Bc by now inversion Hb.
  assert (isWhiteSpace c = false) as Wc by (simpl in Hh; now apply negb_true_iff in Hh).
  destruct (upperAscii_keeps c Pc Bc Wc) as (Pu & Bu & Wu & Lu & A).
  split.
  - unfold Exporter.capitalize, toUpperCase. simpl. now rewrite A.
  - split; [|exact Lu]. unfold Clean. split; [|split; [|split; [|split]]].
    + constructor; auto. now inversion Hp.
    + constructor; auto. now inversion Hb.
    + simpl in *. now rewrite Wu, Wc in *.
    + simpl. now rewrite Wu.
    + destruct r as [|d r]; [simpl; now rewrite Wu|].
      simpl in *. revert Hl. generalize (rev r ++ [d]). intros l.
      destruct l; simpl; auto. intros _. now rewrite Wu.
Qed.

Lemma cleanText_value_Clean host v : Clean (Exporter.cleanText host v).
Proof.
  destruct v; try apply cleanText_Clean; unfold Exporter.cleanText;
    simpl isString; simpl negb; rewrite orb_true_r; apply Clean_nil.
Qed.

(** X4.  Every skill of the list the skills section draws is sanitized
    text of three characters at least, does not begin with a small letter
    and is not, in lower case, one of the excluded words. *)
Theorem skillsArray_elements (host : JsHost) (skills : list skillEntry)
    (skill : jsstring) :
  In skill (Exporter.skillsArray host skills) -> DrawnSkill skill.
Proof.
  unfold Exporter.skillsArray. rewrite In_sortBy, in_map_iff.
  intros (c & <- & Hin). apply filter_In in Hin as [Hin Hv].
  apply andb_true_iff in Hv as [Hne Hv].
  rewrite map_map in Hin. apply in_map_iff in Hin as (raw & <- & _).
  set (c := Exporter.cleanText host (Exporter.skillName raw)) in *.
  assert (Clean c) as HC by apply cleanText_value_Clean.
  unfold Exporter.isValidSkill in Hv.
  assert (trim c = c) as Ht by (destruct HC as (_ & _ & _ & H1 & H2); now apply trim_id).
  rewrite Ht in Hv.
  destruct (List.length c <? 3)%nat eqn:L; [discriminate|]. apply Nat.ltb_ge in L.
  destruct (Js.includes _ _) eqn:I; [discriminate|].
  destruct c as [|c0 r]; [simpl in L; lia|].
  destruct (capitalize_Clean host c0 r HC) as (-> & HC' & Lu).
  split; [now apply Clean_Sanitized | split; [exact L | split; [eauto|]]].
  intros Hx. simpl in Hx. rewrite lower_upper in Hx.
  unfold toLowerCase in I. rewrite DateFacts.mapCase_ascii in I by now apply Clean_ascii.
  assert (Js.includes Exporter.excludeWords (List.map lowerAscii (c0 :: r)) = true)
    by now apply includes_In.
  congruence.
Qed.

Lemma skillsArray_elements_witness :
  In js"Docker"
    (Exporter.skillsArray (Sample.host 0) (List.map SkillString fiveSkills)) /\
  DrawnSkill js"Docker".
Proof.
  assert (In js"Docker"
            (Exporter.skillsArray (Sample.host 0)
               (List.map SkillString fiveSkills))) as H
    by (vm_compute; auto).
  split; [exact H|].
  exact (skillsArray_elements (Sample.host 0) (List.map SkillString fiveSkills)
           js"Docker" H).
Defined.

End TextFacts.

(** ** Months: from the month input to the exported text *)

Module MonthFacts.
Import Notions JsFacts RegexFacts.

Lemma range_check (f : Z -> bool) (lo len : Z) :
  forallb f (List.map (fun i => lo + Z.of_nat i) (seq 0 (Z.to_nat len))) = true ->
  forall z, lo <= z < lo + len -> f z = true.
Proof.
  intros H z Hz. rewrite forallb_forall in H. apply H.
  apply in_map_iff. exists (Z.to_nat (z - lo)). split; [lia|].
  apply in_seq. lia.
Qed.

Lemma daysFromCivil_shift y m d k :
  Dates.daysFromCivil (y + 400 * k) m d = Dates.daysFromCivil y m d + 146097 * k.
Proof.
  unfold Dates.daysFromCivil.
  set (y0 := if m <=? 2 then y - 1 else y).
  replace (if m <=? 2 then y + 400 * k - 1 else y + 400 * k) with (y0 + k * 400)
    by (subst y0; destruct (m <=? 2); lia).
  cbv zeta. rewrite Z.div_add by lia.
  replace (y0 + k * 400 - (y0 / 400 + k) * 400) with (y0 - y0 / 400 * 400) by ring.
  ring.
Qed.

Lemma civilFromDays_shift z k :
  Dates.civilFromDays (z + 146097 * k)
  = (fst (Dates.civilFromDays z) + 400 * k, snd (Dates.civilFromDays z)).
Proof.
  unfold Dates.civilFromDays. cbv zeta.
  replace (z + 146097 * k + 719468) with (z + 719468 + k * 146097) by ring.
  rewrite Z.div_add by lia.
  set (e := (z + 719468) / 146097).
  replace (z + 719468 + k * 146097 - (e + k) * 146097)
    with (z + 719468 - e * 146097) by ring.
  set (doe := z + 719468 - e * 146097).
  set (yoe := (doe - doe / 1460 + doe / 36524 - doe / 146096) / 365).
  set (mp := (5 * (doe - (365 * yoe + yoe / 4 - yoe / 100)) + 2) / 153).
  cbn [fst snd].
  destruct ((if mp <? 10 then mp + 3 else mp - 9) <=? 2); f_equal; ring.
Qed.

Lemma first_of_month y m :
  1 <= m <= 12 ->
  let days := Dates.daysFromCivil y m 1 in
  Dates.civilFromDays days = (y, m) /\
  Dates.civilFromDays (days - 1) = monthBefore y m.
Proof.
  intros Hm.
  pose (ok := fun r m =>
    let days := Dates.daysFromCivil r m 1 in
    (let '(y', m') := Dates.civilFromDays days in (y' =? r) && (m' =? m))
    && (let '(y', m') := Dates.civilFromDays (days - 1) in
        let '(y'', m'') := monthBefore r m in (y' =? y'') && (m' =? m''))).
  assert (forallb (fun r => forallb (ok r)
                     (List.map (fun i => 1 + Z.of_nat i) (seq 0 (Z.to_nat 12))))
            (List.map (fun i => 0 + Z.of_nat i) (seq 0 (Z.to_nat 400))) = true) as All
    by (vm_compute; reflexivity).
  assert (0 <= y mod 400 < 0 + 400) as Hr by (pose proof (Z.mod_pos_bound y 400); lia).
  assert (1 <= m < 1 + 12) as Hm' by lia.
  pose proof (range_check _ 0 400 All (y mod 400) Hr) as Hrow. clear All.
  pose proof (range_check _ 1 12 Hrow m Hm') as Hok. clear Hrow.
  subst ok. cbv beta zeta in Hok.
  assert (y = y mod 400 + 400 * (y / 400)) as Ey
    by (pose proof (Z.div_mod y 400); lia).
  set (r := y mod 400) in *. set (k := y / 400) in *. clearbody r k. subst y.
  cbv zeta. rewrite daysFromCivil_shift.
  replace (Dates.daysFromCivil r m 1 + 146097 * k - 1)
    with (Dates.daysFromCivil r m 1 - 1 + 146097 * k) by ring.
  rewrite !civilFromDays_shift.
  apply andb_true_iff in Hok as [H1 H2].
  destruct (Dates.civilFromDays (Dates.daysFromCivil r m 1)) as [y1 m1].
  destruct (Dates.civilFromDays (Dates.daysFromCivil r m 1 - 1)) as [y2 m2].
  unfold monthBefore in *. cbn [fst snd].
  apply andb_true_iff in H1 as [Ha Hb]. apply Z.eqb_eq in Ha, Hb. subst.
  split; [reflexivity|].
  destruct (m =? 1); apply andb_true_iff in H2 as [Ha Hb];
    apply Z.eqb_eq in Ha, Hb; subst; f_equal; ring.
Qed.

Lemma digitChar_digit n : Dates.isDigit (digitChar n) = true.
Proof.
  unfold Dates.isDigit, digitChar. pose proof (Z.mod_pos_bound n 10). lia.
Qed.

Lemma yearMonth_parse y m :
  0 <= y <= 9999 -> 1 <= m <= 12 ->
  Dates.parseIsoDate (yearMonth y m ++ js"-01")
  = Dates.IsoTime (Dates.daysFromCivil y m 1 * Dates.msPerDay).
Proof.
  intros Hy Hm. unfold yearMonth.
  cbn [app Dates.parseIsoDate lit List.map list_ascii_of_string].
  change (Z.of_N (N_of_ascii "-")) with 45.
  change (Z.of_N (N_of_ascii "0")) with 48.
  change (Z.of_N (N_of_ascii "1")) with 49.
  cbn [Dates.parseIsoDate forallb].
  rewrite !digitChar_digit. cbn [andb Dates.isDigit].
  change ((48 <=? 48) && (48 <=? 57) && ((48 <=? 49) && (49 <=? 57) && true)) with true.
  cbv iota.
  assert (Dates.digitsValue [digitChar (y / 1000); digitChar (y / 100);
                             digitChar (y / 10); digitChar y] = y) as ->.
  { unfold Dates.digitsValue, digitChar. cbn [fold_left].
    Z.div_mod_to_equations. lia. }
  assert (Dates.digitsValue [digitChar (m / 10); digitChar m] = m) as ->.
  { unfold Dates.digitsValue, digitChar. cbn [fold_left].
    Z.div_mod_to_equations. lia. }
  change (Dates.digitsValue [48; 49]) with 1.
  unfold Dates.isoOfFields.
  assert ((m <? 1) || (12 <? m) || (1 <? 1) || (31 <? 1) = false) as -> by lia.
  assert ((Dates.daysInMonth y m <? 1) = false) as ->.
  { unfold Dates.daysInMonth.
    destruct (m =? 2); [destruct (Dates.isLeapYear y)|destruct (_ || _)]; reflexivity. }
  reflexivity.
Qed.

Lemma yearMonth_not_present host y m :
  Js.eqb (yearMonth y m) [] = false /\
  Js.eqb (toLowerCase host (yearMonth y m)) js"present" = false.
Proof.
  split; [reflexivity|].
  unfold toLowerCase. rewrite DateFacts.mapCase_ascii.
  - unfold yearMonth. cbn [List.map Js.eqb lit list_ascii_of_string].
    replace (lowerAscii (digitChar (y / 1000)) =? Z.of_N (N_of_ascii "p")) with false;
      [reflexivity|].
    change (Z.of_N (N_of_ascii "p")) with 112.
    unfold lowerAscii, isUpperAZ, digitChar.
    pose proof (Z.mod_pos_bound (y / 1000) 10).
    destruct ((65 <=? 48 + (y / 1000) mod 10) && (48 + (y / 1000) mod 10 <=? 90)) eqn:E; lia.
  - unfold yearMonth, digitChar.
    repeat constructor;
      match goal with |- 48 + ?n mod 10 < 128 => pose proof (Z.mod_pos_bound n 10); lia end.
Qed.

Section WithHost.
Context (host : JsHost).

Lemma formatDate_yearMonth y m isEndDate :
  0 <= y <= 9999 -> 1 <= m <= 12 ->
  Dates.formatDate host (Some (yearMonth y m)) isEndDate
  = Dates.toLocaleMonthYear host (Some (Dates.daysFromCivil y m 1 * Dates.msPerDay)).
Proof.
  intros Hy Hm. unfold Dates.formatDate.
  destruct (yearMonth_not_present host y m) as [-> ->].
  unfold Dates.newDate, Dates.parse. rewrite yearMonth_parse by assumption.
  unfold tryCatch, Dates.toLocaleMonthYear.
  destruct (Dates.civilFromDays _). reflexivity.
Qed.

(** X5.  Where local time is at or ahead of UTC (by less than a day) at
    the first midnight of the month, [formatDate] renders [YYYY-MM], for a
    year from 1 to 9999 and a month from 1 to 12, as the short name of
    that month and the year. *)
Theorem formatDate_renders_month y m isEndDate :
  1 <= y <= 9999 -> 1 <= m <= 12 ->
  0 <= localTZA host (Dates.daysFromCivil y m 1 * Dates.msPerDay) < Dates.msPerDay ->
  Dates.formatDate host (Some (yearMonth y m)) isEndDate
  = Normal (Dates.monthShort m ++ js" " ++ Dates.decimal y).
Proof.
  intros Hy Hm Htz. rewrite formatDate_yearMonth by lia.
  unfold Dates.toLocaleMonthYear.
  set (days := Dates.daysFromCivil y m 1) in *.
  replace ((days * Dates.msPerDay + localTZA host (days * Dates.msPerDay)) / Dates.msPerDay)
    with days.
  - subst days. destruct (first_of_month y m Hm) as [-> _].
    replace (y <=? 0) with false by lia. reflexivity.
  - apply Z.div_unique with (r := localTZA host (days * Dates.msPerDay));
      unfold Dates.msPerDay in *; lia.
Qed.

(** X6.  Where local time is behind UTC (by a day at most) at the first
    midnight of the month, [formatDate] renders [YYYY-MM] as the month
    before: the month before of the same year, or December of the year
    before for January. *)
Theorem formatDate_renders_month_before y m isEndDate :
  1 < y <= 9999 -> 1 <= m <= 12 ->
  - Dates.msPerDay <= localTZA host (Dates.daysFromCivil y m 1 * Dates.msPerDay) < 0 ->
  Dates.formatDate host (Some (yearMonth y m)) isEndDate
  = Normal (Dates.monthShort (snd (monthBefore y m)) ++ js" "
            ++ Dates.decimal (fst (monthBefore y m))).
Proof.
  intros Hy Hm Htz. rewrite formatDate_yearMonth by lia.
  unfold Dates.toLocaleMonthYear.
  set (days := Dates.daysFromCivil y m 1) in *.
  replace ((days * Dates.msPerDay + localTZA host (days * Dates.msPerDay)) / Dates.msPerDay)
    with (days - 1).
  - subst days. destruct (first_of_month y m Hm) as [_ ->].
    unfold monthBefore. destruct (m =? 1); cbn [fst snd].
    + replace (y - 1 <=? 0) with false by lia. reflexivity.
    + replace (y <=? 0) with false by lia. reflexivity.
  - apply Z.div_unique
      with (r := localTZA host (days * Dates.msPerDay) + Dates.msPerDay);
      unfold Dates.msPerDay in *; lia.
Qed.

End WithHost.

Lemma formatDate_renders_month_witness :
  1 <= 2019 <= 9999 /\ 1 <= 2 <= 12 /\
  Dates.formatDate (Sample.host 3600000) (Some js"2019-02") true = Normal js"Feb 2019".
Proof.
  split; [lia|]. split; [lia|].
  apply (formatDate_renders_month (Sample.host 3600000) 2019 2 true);
    [lia | lia | vm_compute; split; [discriminate | reflexivity]].
Defined.

Lemma formatDate_renders_month_before_witness :
  1 < 2021 <= 9999 /\ 1 <= 1 <= 12 /\
  Dates.formatDate (Sample.host Sample.utcMinus5) (Some js"2021-01") false
  = Normal js"Dec 2020".
Proof.
  split; [lia|]. split; [lia|].
  apply (formatDate_renders_month_before (Sample.host Sample.utcMinus5) 2021 1 false);
    [lia | lia | vm_compute; split; [discriminate | reflexivity]].
Defined.

Lemma monthPattern_shape value :
  test EducationForm.monthPattern value = true <->
  exists y1 y2 y3 y4 m1 m2,
    value = [y1; y2; y3; y4; 45; m1; m2] /\
    forallb Dates.isDigit [y1; y2; y3; y4; m1; m2] = true.
Proof.
  unfold test, EducationForm.monthPattern. cbn [atStart body atEnd].
  rewrite matches_lang. split.
  - intros H.
    repeat match goal with
           | X : lang (Seq _ _) _ |- _ => invert X
           | X : lang Eps _ |- _ => invert X
           | X : lang (Class _) _ |- _ => invert X
           | X : lang (Chr _) _ |- _ => invert X
           end.
    repeat match goal with X : (_ =? _) = true |- _ => apply Z.eqb_eq in X; subst end.
    cbn [app]. do 6 eexists. split; [reflexivity|].
    cbn [forallb].
    repeat match goal with X : Dates.isDigit _ = true |- _ => rewrite X; clear X end.
    reflexivity.
  - intros (y1 & y2 & y3 & y4 & m1 & m2 & -> & D).
    cbn [forallb] in D. rewrite !andb_true_iff in D.
    destruct D as (D1 & D2 & D3 & D4 & D5 & D6 & _).
    change [y1; y2; y3; y4; 45; m1; m2]
      with ([] ++ ([y1] ++ [y2] ++ [y3] ++ [y4] ++ [45] ++ [m1] ++ [m2]) ++ []).
    constructor; [constructor|]. constructor; [|constructor].
    repeat (constructor; [constructor; auto; apply Z.eqb_refl|]).
    now constructor.
Qed.

Lemma digits_yearMonth y1 y2 y3 y4 m1 m2 :
  forallb Dates.isDigit [y1; y2; y3; y4; m1; m2] = true ->
  let y := Dates.digitsValue [y1; y2; y3; y4] in
  let m := Dates.digitsValue [m1; m2] in
  [y1; y2; y3; y4; 45; m1; m2] = yearMonth y m /\ 0 <= y <= 9999 /\ 0 <= m <= 99.
Proof.
  cbn [forallb]. rewrite !andb_true_iff. unfold Dates.isDigit.
  intros (D1 & D2 & D3 & D4 & D5 & D6 & _). cbv zeta.
  unfold Dates.digitsValue, yearMonth, digitChar. cbn [fold_left].
  split; [|lia].
  repeat f_equal; Z.div_mod_to_equations; lia.
Qed.

Lemma yearMonth_out_of_bounds y m :
  0 <= y <= 9999 -> 0 <= m <= 99 -> ~ 1 <= m <= 12 ->
  Dates.parseIsoDate (yearMonth y m ++ js"-01") = Dates.IsoOutOfBounds.
Proof.
  intros Hy Hm Hout. unfold yearMonth.
  cbn [app Dates.parseIsoDate lit List.map list_ascii_of_string].
  change (Z.of_N (N_of_ascii "-")) with 45.
  change (Z.of_N (N_of_ascii "0")) with 48.
  change (Z.of_N (N_of_ascii "1")) with 49.
  cbn [Dates.parseIsoDate forallb].
  rewrite !digitChar_digit. cbn [andb Dates.isDigit].
  change ((48 <=? 48) && (48 <=? 57) && ((48 <=? 49) && (49 <=? 57) && true)) with true.
  cbv iota.
  assert (Dates.digitsValue [digitChar (m / 10); digitChar m] = m) as ->.
  { unfold Dates.digitsValue, digitChar. cbn [fold_left].
    Z.div_mod_to_equations. lia. }
  unfold Dates.isoOfFields.
  assert ((m <? 1) || (12 <? m) = true) as -> by lia.
  reflexivity.
Qed.

Lemma monthYear_not_invalid m rest :
  Dates.monthShort m ++ js" " ++ rest <> js"Invalid Date".
Proof.
  unfold Dates.monthShort. generalize (Z.to_nat (m - 1)). intros n.
  do 13 (destruct n as [|n]; [discriminate|]).
  destruct n; discriminate.
Qed.



End MonthFacts.

(** ** The embedded job description *)

Module EmbeddingFacts.
Import Notions JsFacts.

Lemma chunksOf_spec fuel n s :
  (0 < n)%nat -> (List.length s <= fuel)%nat ->
  List.concat (Layout.chunksOf fuel n s) = s /\
  Forall (fun c => (0 < List.length c <= n)%nat) (Layout.chunksOf fuel n s).
Proof.
  intros Hn. revert s. induction fuel as [|fuel IH]; intros s Hs.
  - destruct s; [|simpl in Hs; lia]. split; [reflexivity|constructor].
  - destruct s as [|c s]; [split; [reflexivity|constructor]|].
    cbn [Layout.chunksOf].
    destruct (IH (skipn n (c :: s))) as [E F].
    { rewrite length_skipn. cbn [List.length] in *. lia. }
    split.
    + cbn [List.concat]. rewrite E. apply firstn_skipn.
    + constructor; [|exact F]. rewrite length_firstn. cbn [List.length]. lia.
Qed.

Lemma textStrings_app a b : textStrings (a ++ b) = textStrings b ++ textStrings a.
Proof. unfold textStrings. now rewrite flat_map_app, rev_app_distr. Qed.

Section Embed.
Context (cleanText : value -> jsstring).

Lemma embed_chunks (x y : nat -> Q) chunks i s :
  let r := forEachFrom i chunks (fun index chunk =>
             Layout.text chunk (x index) (y index)) s in
  fst r = Normal tt /\
  (exists emitted, ops (snd r) = emitted ++ ops s /\ textStrings emitted = chunks) /\
  yPosition (snd r) = yPosition s /\ page (snd r) = page s /\
  writes (snd r) = writes s.
Proof.
  revert i s. induction chunks as [|c chunks IH]; intros i s; cbv zeta.
  - simpl. repeat split; auto. exists []. auto.
  - cbn [forEachFrom]. unfold bind.
    set (st := snd (Layout.text c (x i) (y i) s)).
    change (Layout.text c (x i) (y i) s) with (Normal tt, st).
    destruct (IH (S i) st) as (N & (em & E1 & E2) & Y & P & W).
    cbv zeta in N, E1, Y, P, W.
    split; [exact N|]. split; [|rewrite Y, P, W; repeat split; reflexivity].
    exists (em ++ [Text c (x i) (y i)]). split.
    + rewrite E1. now rewrite <- app_assoc.
    + rewrite textStrings_app, E2. reflexivity.
Qed.

(** X8.  When the job description holds more than white space, the
    embedding ends normally and the texts it draws, put end to end in the
    order of the calls, are the sanitized job description, in pieces of 1
    to 500 characters; the cursor, the page and the record of cursor
    writes are as before. *)
Theorem embedJobDescription_whole (jd : jsstring) (s : state) :
  trim jd <> [] ->
  let r := Layout.embedJobDescription cleanText (Some jd) s in
  fst r = Normal tt /\
  (exists emitted,
     ops (snd r) = emitted ++ ops s /\
     List.concat (textStrings emitted) = cleanText (Str jd) /\
     Forall (fun t => (0 < List.length t <= 500)%nat) (textStrings emitted)) /\
  yPosition (snd r) = yPosition s /\ page (snd r) = page s /\
  writes (snd r) = writes s.
Proof.
  intros Hjd. cbv zeta. unfold Layout.embedJobDescription, Layout.whenSome.
  destruct (eqb_spec jd []) as [->|_]; [now elim Hjd|].
  destruct (trim jd) as [|c t] eqn:Et; [now elim Hjd|].
  cbn [Layout.nonEmpty when].
  unfold bind.
  set (s0 := snd (Layout.setFontSize 0.1 s)).
  change (Layout.setFontSize 0.1 s) with (Normal tt, s0). cbv beta iota.
  set (s1 := snd (Layout.setTextColor (255, 255, 255) s0)).
  change (Layout.setTextColor (255, 255, 255) s0) with (Normal tt, s1). cbv beta iota.
  unfold forEachI.
  match goal with |- context [forEachFrom 0 ?chunks _ s1] =>
    destruct (embed_chunks
                (fun index => margin + inject_Z (Z.of_nat (index mod 3)) * 50)%Q
                (fun index => margin + 5 + inject_Z (Z.of_nat index) * 2)%Q
                chunks 0%nat s1) as (N & (em & E1 & E2) & Y & P & W)
  end.
  cbv zeta in N, E1, Y, P, W.
  match goal with |- context [forEachFrom 0 ?chunks ?b s1] =>
    destruct (forEachFrom 0 chunks b s1) as [[[]|e] s2] eqn:Er
  end; cbn [fst snd] in *; [|discriminate N].
  unfold Layout.setTextColor, call. cbn [fst snd yPosition page writes ops].
  rewrite E1, Y, P, W.
  change (ops s1) with (SetTextColor (255, 255, 255) :: SetFontSize 0.1 :: ops s).
  split; [reflexivity|]. split; [|repeat split; reflexivity].
  exists ([SetTextColor Layout.textColor] ++ em
          ++ [SetTextColor (255, 255, 255); SetFontSize 0.1]).
  destruct (chunksOf_spec (List.length (cleanText (Str jd))) 500 (cleanText (Str jd)))
    as [C F]; [lia | lia |].
  rewrite !textStrings_app. cbn [textStrings flat_map rev app]. rewrite app_nil_r.
  rewrite E2. split; [|split; assumption].
  cbn [app]. now rewrite <- app_assoc.
Qed.

End Embed.

Lemma embedJobDescription_whole_witness :
  trim js"Rust and SQL" <> [] /\
  fst (Layout.embedJobDescription BasicExporter.cleanText (Some js"Rust and SQL")
         initial) = Normal tt.
Proof.
  assert (trim js"Rust and SQL" <> []) as H by (vm_compute; discriminate).
  split; [exact H|].
  exact (proj1 (embedJobDescription_whole BasicExporter.cleanText
                  js"Rust and SQL" initial H)).
Defined.

End EmbeddingFacts.

(** ** The builder page: bullets in descriptions *)

Module BuilderFacts.
Import Notions JsFacts RegexFacts.

Lemma splitOn_free sep cur l :
  ~ In sep l -> splitOn sep cur l = [rev cur ++ l].
Proof.
  revert cur. induction l as [|c l IH]; intros cur H; simpl.
  - now rewrite app_nil_r.
  - destruct (Z.eqb_spec c sep) as [->|_]; [elim H; now left|].
    rewrite IH by (intros X; apply H; now right).
    simpl. now rewrite <- app_assoc.
Qed.

Lemma splitOn_at sep cur l rest :
  ~ In sep l ->
  splitOn sep cur (l ++ sep :: rest) = (rev cur ++ l) :: splitOn sep [] rest.
Proof.
  revert cur. induction l as [|c l IH]; intros cur H; simpl.
  - rewrite Z.eqb_refl, app_nil_r. reflexivity.
  - destruct (Z.eqb_spec c sep) as [->|_]; [elim H; now left|].
    rewrite IH by (intros X; apply H; now right).
    simpl. now rewrite <- app_assoc.
Qed.

Lemma split_join sep ls :
  ls <> [] -> Forall (fun l => ~ In sep l) ls -> split sep (join [sep] ls) = ls.
Proof.
  intros Hne H. unfold split. induction H as [|l ls Hl Hls IH]; [congruence|].
  destruct ls as [|l' ls].
  - simpl. now rewrite splitOn_free.
  - change (join [sep] (l :: l' :: ls)) with (l ++ sep :: join [sep] (l' :: ls)).
    rewrite splitOn_at by assumption. simpl rev. simpl app at 1.
    rewrite IH by discriminate. reflexivity.
Qed.

Lemma splitOn_segments sep cur s :
  ~ In sep cur -> Forall (fun l => ~ In sep l) (splitOn sep cur s).
Proof.
  revert cur. induction s as [|c s IH]; intros cur H; simpl.
  - constructor; [|constructor]. now rewrite <- in_rev.
  - destruct (Z.eqb_spec c sep) as [->|Hn].
    + constructor; [now rewrite <- in_rev|]. apply IH. intros [].
    + apply IH. intros [E|X]; [congruence|auto].
Qed.

Lemma split_segments sep s : Forall (fun l => ~ In sep l) (split sep s).
Proof. apply splitOn_segments. intros []. Qed.

Lemma trim_incl s c : In c (trim s) -> In c s.
Proof.
  intros H. destruct (trim_infix s) as (p & q & E). rewrite E.
  apply in_or_app. right. apply in_or_app. now left.
Qed.

Lemma join_nil_iff sep ls :
  Forall (fun l => l <> []) ls -> join sep ls = [] -> ls = [].
Proof.
  intros H E. destruct H as [|l ls Hl Hls]; [reflexivity|].
  destruct ls; simpl in E; [congruence|].
  apply app_eq_nil in E as [E _]. congruence.
Qed.

Lemma test_two_classes p q s :
  test {| atStart := true; body := Seq (Class p) (Class q); atEnd := false |} s
  = match s with a :: b :: _ => p a && q b | _ => false end.
Proof.
  unfold test. cbn [atStart body atEnd].
  match goal with |- ?lhs = ?rhs => destruct rhs eqn:R end.
  - destruct s as [|a [|b s]]; try discriminate.
    apply andb_true_iff in R as [Ra Rb].
    apply matches_lang.
    change (a :: b :: s) with ([] ++ ([a] ++ [b]) ++ s).
    constructor; [constructor|]. constructor; [|apply lang_anything].
    constructor; now constructor.
  - destruct (matches _ s) eqn:M; [|reflexivity]. exfalso.
    apply matches_lang in M. invert M.
    repeat match goal with
           | X : lang (Seq _ _) _ |- _ => invert X
           | X : lang Eps _ |- _ => invert X
           | X : lang (Class _) _ |- _ => invert X
           end.
    simpl in R.
    repeat match goal with X : _ = true |- _ => rewrite X in R end.
    discriminate.
Qed.

Lemma formatWithBullets_eq text :
  Builder.formatWithBullets text =
  if Js.eqb text [] then [] else join [10] (List.map markLine (Builder.trimmedLines text)).
Proof. reflexivity. Qed.

Lemma trimmedLines_TrimmedLine text : Forall TrimmedLine (Builder.trimmedLines text).
Proof.
  unfold Builder.trimmedLines. apply Forall_forall. intros l Hl.
  apply filter_In in Hl as [Hin Hne]. apply in_map_iff in Hin as (seg & <- & Hseg).
  repeat split.
  - destruct (eqb_spec (trim seg) []); [discriminate|assumption].
  - apply trim_id; [apply trim_headOk | apply trim_lastOk].
  - pose proof (split_segments 10 text) as F. rewrite Forall_forall in F.
    intros X. apply (F seg Hseg). now apply trim_incl.
Qed.

Lemma trim_fixed l : trim l = l -> headOk l = true /\ headOk (rev l) = true.
Proof. intros <-. split; [apply trim_headOk | apply trim_lastOk]. Qed.

Lemma markLine_TrimmedLine l : TrimmedLine l -> TrimmedLine (markLine l) /\ markLine (markLine l) = markLine l.
Proof.
  intros (Hne & Ht & H10). unfold markLine.
  destruct (test Builder.markedLine l) eqn:T; simpl negb; cbv iota.
  - split; [repeat split; auto|]. now rewrite T.
  - destruct (trim_fixed l Ht) as [Hh Hl].
    assert (test Builder.markedLine (8226 :: 32 :: l) = true) as T'.
    { unfold Builder.markedLine. rewrite test_two_classes. reflexivity. }
    split; [|now rewrite T'].
    repeat split.
    + discriminate.
    + apply trim_id; [reflexivity|].
      cbn [app rev].
      destruct (rev l) as [|c r] eqn:E; [|exact Hl].
      apply (f_equal (@rev Z)) in E. rewrite rev_involutive in E. simpl in E.
      congruence.
    + simpl. intros [X|[X|X]]; [discriminate|discriminate|auto].
Qed.

Lemma trimmedLines_join ls :
  ls <> [] -> Forall TrimmedLine ls -> Builder.trimmedLines (join [10] ls) = ls.
Proof.
  intros Hne H. unfold Builder.trimmedLines. rewrite split_join; auto.
  - clear Hne. induction H as [|l ls (Hl & Ht & _) _ IH]; [reflexivity|].
    simpl. rewrite Ht. destruct (eqb_spec l []); [contradiction|].
    simpl. now rewrite IH.
  - eapply Forall_impl; [|exact H]. intros l (_ & _ & X). exact X.
Qed.

Lemma marked_lines text :
  let ls := List.map markLine (Builder.trimmedLines text) in
  Forall TrimmedLine ls /\ List.map markLine ls = ls.
Proof.
  cbv zeta. pose proof (trimmedLines_TrimmedLine text) as H.
  induction H as [|l ls Hl _ [IH1 IH2]]; [split; [constructor|reflexivity]|].
  destruct (markLine_TrimmedLine l Hl) as [L M]. simpl. split.
  - constructor; assumption.
  - now rewrite M, IH2.
Qed.

(** X9.  [formatWithBullets] changes nothing in a text it has formatted:
    no line gets a second bullet. *)
Theorem formatWithBullets_idempotent (text : jsstring) :
  Builder.formatWithBullets (Builder.formatWithBullets text)
  = Builder.formatWithBullets text.
Proof.
  rewrite (formatWithBullets_eq text).
  destruct (Js.eqb text []); [reflexivity|].
  destruct (marked_lines text) as [HL HM]. cbv zeta in *.
  destruct (List.map markLine (Builder.trimmedLines text)) as [|l ls];
    [reflexivity|].
  rewrite formatWithBullets_eq.
  destruct (eqb_spec (join [10] (l :: ls)) []) as [J|_].
  - apply join_nil_iff in J; [discriminate|].
    eapply Forall_impl; [|exact HL]. intros x (X & _). exact X.
  - rewrite trimmedLines_join by (auto; discriminate). now rewrite HM.
Qed.

Lemma forEach_ext {A} (l : list A) (f g : A -> M unit) s :
  (forall x s', f x s' = g x s') -> forEach l f s = forEach l g s.
Proof.
  intros H. revert s. induction l as [|x l IH]; intros s; simpl; auto.
  unfold bind. rewrite H. destruct (g x s) as [[[]|e] s']; auto.
Qed.

Lemma forEach_map {A B} (h : A -> B) (l : list A) (f : B -> M unit) s :
  forEach (List.map h l) f s = forEach l (fun x => f (h x)) s.
Proof.
  revert s. induction l as [|x l IH]; intros s; simpl; auto.
  unfold bind. destruct (f (h x) s) as [[[]|e] s']; auto.
Qed.

Lemma strip_markLine l : Layout.stripLeadingBullet (markLine l) = Layout.stripLeadingBullet l.
Proof.
  unfold markLine. destruct (test Builder.markedLine l); reflexivity.
Qed.

Lemma bullets_trimmedLines t :
  filter (fun l => (0 <? List.length l)%nat) (List.map trim (split 10 t))
  = Builder.trimmedLines t.
Proof.
  unfold Builder.trimmedLines. apply filter_ext. intros [|c l]; reflexivity.
Qed.

Section Bullets.
Context (pdf : PdfLib).

Lemma addBulletPoints_formatted t indent showBullets s :
  Layout.addBulletPoints pdf (Builder.formatWithBullets t) indent showBullets s
  = Layout.addBulletPoints pdf t indent showBullets s.
Proof.
  rewrite formatWithBullets_eq.
  destruct (eqb_spec t []) as [->|Ht]; [reflexivity|].
  destruct (marked_lines t) as [HL HM]. cbv zeta in *.
  unfold Layout.addBulletPoints at 2.
  destruct (eqb_spec t []) as [|_]; [contradiction|].
  rewrite bullets_trimmedLines.
  destruct (Builder.trimmedLines t) as [|l ls] eqn:E; [reflexivity|].
  unfold Layout.addBulletPoints.
  destruct (eqb_spec (join [10] (List.map markLine (l :: ls))) []) as [J|_].
  { apply join_nil_iff in J; [discriminate|].
    eapply Forall_impl; [|exact HL]. intros x (X & _). exact X. }
  rewrite bullets_trimmedLines.
  rewrite trimmedLines_join by (auto; discriminate).
  rewrite forEach_map. apply forEach_ext. intros x s'.
  cbv beta zeta. rewrite strip_markLine. reflexivity.
Qed.

End Bullets.

Lemma bind_ext2 {A B} (m1 m2 : M A) (f g : A -> M B) s :
  m1 s = m2 s -> (forall a s', f a s' = g a s') -> bind m1 f s = bind m2 g s.
Proof.
  intros E H. unfold bind. rewrite E. destruct (m2 s) as [[a|e] s']; auto.
Qed.

Lemma forEachFrom_ext {A} i (l : list A) (f g : nat -> A -> M unit) s :
  (forall j x s', f j x s' = g j x s') ->
  forEachFrom i l f s = forEachFrom i l g s.
Proof.
  intros H. revert i s. induction l as [|x l IH]; intros i s; simpl; auto.
  apply bind_ext2; auto.
Qed.

Lemma forEachFrom_mapFrom {A B} i (h : nat -> A -> B) (l : list A)
    (f : nat -> B -> M unit) s :
  forEachFrom i (Builder.mapFrom i h l) f s
  = forEachFrom i l (fun j x => f j (h j x)) s.
Proof.
  revert i s. induction l as [|x l IH]; intros i s; simpl; auto.
  apply bind_ext2; auto.
Qed.

Lemma forEachFrom_map {A B} i (h : A -> B) (l : list A)
    (f : nat -> B -> M unit) s :
  forEachFrom i (List.map h l) f s = forEachFrom i l (fun j x => f j (h x)) s.
Proof.
  revert i s. induction l as [|x l IH]; intros i s; simpl; auto.
  apply bind_ext2; auto.
Qed.

Lemma mapFrom_map {A B C} i (h : nat -> A -> B) (k : B -> C) (l : list A) :
  List.map k (Builder.mapFrom i h l) = Builder.mapFrom i (fun j x => k (h j x)) l.
Proof.
  revert i. induction l as [|x l IH]; intros i; simpl; auto. now rewrite IH.
Qed.

Lemma mapFrom_length {A B} i (h : nat -> A -> B) (l : list A) :
  List.length (Builder.mapFrom i h l) = List.length l.
Proof.
  revert i. induction l as [|x l IH]; intros i; simpl; auto.
Qed.

Section Experience.
Context (host : JsHost) (pdf : PdfLib) (cleanText : value -> jsstring).

Lemma description_formatted (d : option jsstring) s :
  Layout.whenSome
    (Some (match d with
           | Some d => if Js.eqb d [] then [] else Builder.formatWithBullets d
           | None => []
           end))
    (fun description => Layout.addBulletPoints pdf description 6 true) s
  = Layout.whenSome d
      (fun description => Layout.addBulletPoints pdf description 6 true) s.
Proof.
  destruct d as [d|]; [|reflexivity]. cbn [Layout.whenSome].
  destruct (eqb_spec d []) as [->|Hd]; [reflexivity|].
  destruct (eqb_spec (Builder.formatWithBullets d) []) as [E|_].
  - rewrite <- (addBulletPoints_formatted pdf d). rewrite E. reflexivity.
  - apply addBulletPoints_formatted.
Qed.

(** X10.  What [updateExperience] does to the experience entries, the
    [id]s it fills in and the bullets it puts before the lines of the
    descriptions, changes nothing in the exported document: from every
    state the experience section makes the same calls, moves the cursor
    the same way and ends the same way on the entries as the page stores
    them and on the entries as the form gave them. *)
Theorem experience_bullets_do_not_show (data : list (Builder.item Experience.t))
    (s : state) :
  Layout.experienceSection host pdf cleanText
    (List.map Builder.fields (Builder.updateExperience data)) s
  = Layout.experienceSection host pdf cleanText (List.map Builder.fields data) s.
Proof.
  unfold Layout.experienceSection, Builder.updateExperience.
  rewrite !length_map, mapFrom_length.
  destruct data as [|x data]; [reflexivity|].
  set (l := x :: data). cbn [Builder.mapFrom List.map Layout.nonEmpty when].
  apply bind_ext2; [reflexivity|]. intros _ s1.
  unfold forEachI.
  change (?a :: List.map Builder.fields (Builder.mapFrom 1 ?h data))
    with (List.map Builder.fields (Builder.mapFrom 0 h l)).
  change (Builder.fields x :: List.map Builder.fields data)
    with (List.map Builder.fields l).
  rewrite !forEachFrom_map, forEachFrom_mapFrom.
  apply forEachFrom_ext. intros j e s2.
  cbn [Builder.fields Builder.id Experience.position Experience.company
       Experience.startDate Experience.endDate Experience.location
       Experience.description].
  repeat (apply bind_ext2;
          [first [reflexivity | apply description_formatted] | intros ? ?]).
  reflexivity.
Qed.

End Experience.

End BuilderFacts.

(** ** The education form *)

Module EducationFormFacts.
Import Notions JsFacts.
Import EducationForm.

(** X11.  The dates of the education entries stay empty or of the form
    [YYYY-MM]: if they are so in every entry, they are so after
    [updateEducation] (which refuses another date), after [addEducation],
    after [removeEducation], and in the list the form begins with. *)
Theorem education_dates_stay_valid (current : list entry) (id0 : Z) (field : key)
    (value : jsstring) (now : Z) :
  Forall WellDated current ->
  Forall WellDated (educations (updateEducation current id0 field value)) /\
  Forall WellDated (educations (addEducation current now)) /\
  Forall WellDated (educations (removeEducation current id0)) /\
  Forall WellDated (initialEducations current now).
Proof.
  intros H. repeat apply conj.
  - unfold updateEducation.
    destruct (isDateKey field && negb (isValidDate value)) eqn:E; [exact H|].
    cbn [educations]. apply Forall_map. eapply Forall_impl; [|exact H].
    intros e [Hs He]. destruct (hasId id0 e); [|split; assumption].
    unfold WellDated, setField. cbn [startDate endDate].
    destruct field; cbn [isDateKey andb negb] in E;
      try (split; assumption);
      apply negb_false_iff in E; split; assumption.
  - cbn [addEducation educations]. apply Forall_app. split; [exact H|].
    constructor; [split; reflexivity|constructor].
  - unfold removeEducation. destruct (_ =? _)%nat; [exact H|].
    cbn [educations]. apply Forall_forall. intros e He.
    apply filter_In in He as [He _]. rewrite Forall_forall in H. auto.
  - destruct current; [|exact H].
    constructor; [split; reflexivity|constructor].
Qed.

Lemma education_dates_stay_valid_witness :
  Forall WellDated twoEducations /\
  Forall WellDated
    (educations (updateEducation twoEducations 1 KEndDate js"2021-06")).
Proof.
  assert (Forall WellDated twoEducations) as H
    by (repeat constructor).
  split; [exact H|].
  exact (proj1 (education_dates_stay_valid twoEducations 1 KEndDate js"2021-06"
                  0 H)).
Defined.

Lemma filter_other_ids id0 l :
  ~ In (NumberId id0) (List.map id l) ->
  filter (fun edu => negb (hasId id0 edu)) l = l.
Proof.
  induction l as [|e l IH]; intros H; [reflexivity|]. simpl in *.
  assert (hasId id0 e = false) as ->.
  { unfold hasId. destruct (id e) as [n|t] eqn:E; [|reflexivity].
    destruct (Z.eqb_spec n id0) as [->|]; [elim H; now left|reflexivity]. }
  simpl. rewrite IH; auto.
Qed.

Lemma filter_one_id id0 l :
  NoDup (List.map id l) ->
  (List.length l <= S (List.length (filter (fun edu => negb (hasId id0 edu)) l)))%nat.
Proof.
  induction l as [|e l IH]; intros H; simpl; [lia|].
  inversion H as [|? ? Hnotin Hnd]; subst.
  destruct (hasId id0 e) eqn:E; simpl.
  - assert (id e = NumberId id0) as Eid.
    { unfold hasId in E. destruct (id e); [|discriminate].
      apply Z.eqb_eq in E. now subst. }
    rewrite Eid in Hnotin. rewrite filter_other_ids by assumption. lia.
  - specialize (IH Hnd). lia.
Qed.

Lemma filter_ids_incl (f : entry -> bool) l :
  NoDup (List.map id l) -> NoDup (List.map id (filter f l)).
Proof.
  induction l as [|e l IH]; intros H; simpl; [constructor|].
  inversion H as [|? ? Hnotin Hnd]; subst.
  destruct (f e); simpl; auto. constructor; auto.
  intros X. apply Hnotin. apply in_map_iff in X as (x & Ex & Hx).
  apply filter_In in Hx as [Hx _]. apply in_map_iff. eauto.
Qed.

(** X12.  A list of education entries that is not empty and whose [id]s
    are distinct is never emptied by the form: [updateEducation],
    [addEducation] and [removeEducation] (which keeps the last entry)
    leave an entry; and the [id]s stay distinct after [removeEducation],
    after [updateEducation] of a field other than [id], and after
    [addEducation] when the time stamp is not the [id] of an entry. *)
Theorem education_entries_invariant (current : list entry) (id0 : Z)
    (field : key) (value : jsstring) (now : Z) :
  current <> [] -> DistinctIds current ->
  educations (updateEducation current id0 field value) <> [] /\
  educations (addEducation current now) <> [] /\
  educations (removeEducation current id0) <> [] /\
  (field <> KId -> DistinctIds (educations (updateEducation current id0 field value))) /\
  (~ In (NumberId now) (List.map id current) ->
     DistinctIds (educations (addEducation current now))) /\
  DistinctIds (educations (removeEducation current id0)).
Proof.
  intros Hne Hd. unfold DistinctIds in *. repeat apply conj.
  - unfold updateEducation. destruct (_ && _); [exact Hne|].
    cbn [educations]. destruct current; [congruence|discriminate].
  - cbn [addEducation educations]. destruct current; discriminate.
  - unfold removeEducation. destruct (Nat.eqb_spec (List.length current) 1) as [|Hl];
      [exact Hne|].
    cbn [educations]. pose proof (filter_one_id id0 current Hd) as L.
    destruct current as [|a [|b l]]; [congruence|simpl in Hl; congruence|].
    intros E. rewrite E in L. simpl in L. lia.
  - intros Hf. unfold updateEducation. destruct (_ && _); [exact Hd|].
    cbn [educations]. rewrite map_map.
    erewrite map_ext; [exact Hd|]. intros e. cbv beta.
    destruct (hasId id0 e); [|reflexivity].
    destruct field; try reflexivity. congruence.
  - intros Hfresh. cbn [addEducation educations]. rewrite map_app.
    cbn [List.map createNewEducation id].
    apply NoDup_app; [exact Hd|constructor; [intros []|constructor]|].
    intros x Hx [<-|[]]. contradiction.
  - unfold removeEducation. destruct (_ =? _)%nat; [exact Hd|].
    cbn [educations]. now apply filter_ids_incl.
Qed.

Lemma education_entries_invariant_witness :
  twoEducations <> [] /\ DistinctIds twoEducations /\
  educations (removeEducation twoEducations 1) <> [] /\
  DistinctIds (educations (removeEducation twoEducations 1)).
Proof.
  assert (twoEducations <> []) as H1 by discriminate.
  assert (DistinctIds twoEducations) as H2.
  { unfold DistinctIds. cbn.
    constructor; [intros [E|[]]; discriminate E|].
    constructor; [intros []|constructor]. }
  split; [exact H1|]. split; [exact H2|].
  pose proof (education_entries_invariant twoEducations 1 KSchool js"MIT" 0
                H1 H2) as (_ & _ & R & _ & _ & D).
  split; [exact R|exact D].
Defined.

End EducationFormFacts.

(** ** The interests form *)

Module InterestsFormFacts.
Import Notions JsFacts TextFacts.
Import InterestsForm.

Lemma trim_trim s : trim (trim s) = trim s.
Proof. apply trim_id; [apply trim_headOk | apply trim_lastOk]. Qed.

(** X13.  [addInterest] keeps the list of interests tidy (no repetition,
    every interest trimmed and not empty): when it reports a list, the
    list is the old one with the trimmed input at its end, the input was
    new and not blank, and the list is tidy again; and it reports nothing
    only when the trimmed input is empty or in the list already. *)
Theorem addInterest_keeps_list_tidy (data : list jsstring) (newInterest : jsstring) :
  Tidy data ->
  match notified (addInterest data newInterest) with
  | Some data' =>
      data' = data ++ [trim newInterest] /\ Tidy data' /\
      ~ In (trim newInterest) data /\ trim newInterest <> []
  | None => trim newInterest = [] \/ In (trim newInterest) data
  end.
Proof.
  intros [Hnd Hf]. unfold addInterest. cbv zeta.
  destruct (eqb_spec (trim newInterest) []) as [E|Hne]; cbn [negb andb].
  - destruct (includes data (trim newInterest)); cbn [notified]; now left.
  - destruct (includes data (trim newInterest)) eqn:I; cbn [negb notified].
    + right. now apply includes_In.
    + assert (~ In (trim newInterest) data) as Hnotin.
      { intros X. apply includes_In in X. congruence. }
      split; [reflexivity|]. split; [|split; assumption]. split.
      * apply NoDup_app; [exact Hnd|constructor; [intros []|constructor]|].
        intros x Hx [<-|[]]. contradiction.
      * apply Forall_app. split; [exact Hf|].
        constructor; [|constructor]. split; [exact Hne|apply trim_trim].
Qed.

Lemma addInterest_keeps_list_tidy_witness :
  Tidy [js"Chess"] /\ Tidy [js"Chess"; js"Go"].
Proof.
  assert (Tidy [js"Chess"]) as H.
  { split.
    - constructor; [intros []|constructor].
    - constructor; [split; [discriminate|reflexivity]|constructor]. }
  split; [exact H|].
  exact (proj1 (proj2 (addInterest_keeps_list_tidy [js"Chess"] js"  Go " H))).
Defined.

Lemma filter_absent x l :
  ~ In x l -> filter (fun item => negb (Js.eqb item x)) l = l.
Proof.
  induction l as [|y l IH]; intros H; [reflexivity|]. simpl in *.
  destruct (eqb_spec y x) as [->|_]; [elim H; now left|].
  simpl. rewrite IH; auto.
Qed.

(** X14.  Adding an interest that is new and not blank and then removing
    it gives the list back: [addInterest] reports a list that holds the
    trimmed input, and [removeInterest] of it reports the list from
    before. *)
Theorem add_then_remove_interest (data : list jsstring) (newInterest : jsstring) :
  trim newInterest <> [] -> ~ In (trim newInterest) data ->
  exists data',
    notified (addInterest data newInterest) = Some data' /\
    In (trim newInterest) data' /\
    notified (removeInterest data' (trim newInterest)) = Some data.
Proof.
  intros Hne Hnotin. exists (data ++ [trim newInterest]). unfold addInterest.
  cbv zeta. destruct (eqb_spec (trim newInterest) []) as [|_]; [contradiction|].
  destruct (includes data (trim newInterest)) eqn:I.
  { apply includes_In in I. contradiction. }
  cbn [negb andb notified]. split; [reflexivity|]. split.
  - apply in_or_app. right. now left.
  - cbn [removeInterest notified]. f_equal.
    rewrite filter_app, filter_absent by assumption.
    simpl. rewrite eqb_refl. simpl. apply app_nil_r.
Qed.

Lemma add_then_remove_interest_witness :
  trim js"  Go " <> [] /\ ~ In (trim js"  Go ") [js"Chess"] /\
  exists data',
    notified (addInterest [js"Chess"] js"  Go ") = Some data' /\
    In (trim js"  Go ") data' /\
    notified (removeInterest data' (trim js"  Go ")) = Some [js"Chess"].
Proof.
  assert (trim js"  Go " <> []) as H1 by (vm_compute; discriminate).
  assert (~ In (trim js"  Go ") [js"Chess"]) as H2
    by (vm_compute; intros [E|[]]; discriminate E).
  split; [exact H1|]. split; [exact H2|].
  exact (add_then_remove_interest [js"Chess"] js"  Go " H1 H2).
Defined.

End InterestsFormFacts.

(** ** The skills form *)

Module SkillsFormFacts.
Import Notions JsFacts BuilderFacts.
Import SkillsForm.

(** X15.  [addSkill] keeps the names of the skills distinct up to letter
    case: if no two skills have the same name in lower case, the same
    holds of the list after [addSkill]; and when [addSkill] reports a
    list, it is the old one with the new skill, under the trimmed name, at
    its end, the name being not blank and, in lower case, new. *)
Theorem addSkill_keeps_names_distinct (host : JsHost) (current : list skill)
    (mode : bool) (newSkill newLevel newCategory : jsstring) (now : Z) :
  NoDup (lowerNames host current) ->
  let after := addSkill host current mode newSkill newLevel newCategory now in
  NoDup (lowerNames host (skills after)) /\
  (notified after <> None ->
     skills after = current ++ [{| id := now; name := trim newSkill;
                                   level := newLevel; category := newCategory |}] /\
     trim newSkill <> [] /\
     ~ In (toLowerCase host (trim newSkill)) (lowerNames host current)).
Proof.
  intros Hnd. cbv zeta. unfold addSkill. cbv zeta.
  destruct (eqb_spec (trim newSkill) []) as [E|Hne]; cbn [skills notified].
  { split; [exact Hnd|congruence]. }
  destruct (hasName host current (toLowerCase host (trim newSkill))) eqn:H;
    cbn [skills notified updateSkillsData].
  { split; [exact Hnd|congruence]. }
  assert (~ In (toLowerCase host (trim newSkill)) (lowerNames host current)) as Hnotin.
  { intros X. unfold lowerNames in X. apply in_map_iff in X as (s & Es & Hs).
    assert (hasName host current (toLowerCase host (trim newSkill)) = true) as Y.
    { unfold hasName. apply existsb_exists. exists s. split; auto.
      rewrite Es. apply eqb_refl. }
    congruence. }
  split; [|intros _; repeat split; assumption].
  unfold lowerNames in *. rewrite map_app. cbn [List.map name].
  apply NoDup_app; [exact Hnd|constructor; [intros []|constructor]|].
  intros x Hx [<-|[]]. contradiction.
Qed.

Lemma addSkill_keeps_names_distinct_witness :
  NoDup (lowerNames (Sample.host 0) twoSkills) /\
  NoDup (lowerNames (Sample.host 0)
           (skills (addSkill (Sample.host 0) twoSkills true js" Go "
                      js"Expert" js"Technical" 3))).
Proof.
  assert (NoDup (lowerNames (Sample.host 0) twoSkills)) as H.
  { vm_compute. constructor; [intros [E|[]]; discriminate E|].
    constructor; [intros []|constructor]. }
  split; [exact H|].
  exact (proj1 (addSkill_keeps_names_distinct (Sample.host 0) twoSkills true
                  js" Go " js"Expert" js"Technical" 3 H)).
Defined.

Lemma mapFrom_as_map {A B} i (h : A -> B) (l : list A) :
  Builder.mapFrom i (fun _ x => h x) l = List.map h l.
Proof.
  revert i. induction l as [|x l IH]; intros i; simpl; auto. now rewrite IH.
Qed.

(** X16.  Loading the skills of the document into the form and reporting
    them back, with no edit in between, gives a list of names back as it
    was and a list of records back with [Intermediate] for a missing level
    and [Technical] for a missing category; an empty list of records comes
    back as an empty list of names. *)
Theorem load_then_report (data : skillsData) :
  let '(loaded, mode) := load data in
  report mode loaded =
  match data with
  | Simple names => Simple names
  | Enhanced [] => Simple []
  | Enhanced records =>
      Enhanced (List.map (fun '(n, l, c) =>
                  (n, orDefault l js"Intermediate", orDefault c js"Technical"))
                  records)
  end.
Proof.
  destruct data as [[|n names]|[|r records]]; try reflexivity.
  - unfold load, report. f_equal. rewrite mapFrom_map. cbn [name].
    rewrite (mapFrom_as_map 0 (fun x => x)). apply map_id.
  - unfold load, report. f_equal. rewrite mapFrom_map.
    rewrite <- (mapFrom_as_map 0). 
    generalize 0%nat. generalize (r :: records). intros l.
    induction l as [|[[n l0] c] l IH]; intros i; simpl; auto. now rewrite IH.
Qed.

Lemma skillName_entries (l : list skill) :
  List.map Exporter.skillName (toEntries (report true l))
  = List.map Exporter.skillName (toEntries (report false l)).
Proof.
  unfold report, toEntries. rewrite !map_map.
  apply map_ext. intros s. cbv beta iota. cbn [Exporter.skillName].
  unfold Exporter.orValue. cbn [truthy].
  destruct (eqb_spec (name s) []) as [->|]; reflexivity.
Qed.

(** X17.  The exported skills do not depend on the mode of the form: the
    skills the current revision draws are the same whether the form
    reported names or records, and so are those of the earlier revision
    when no skill has an empty name. *)
Theorem mode_does_not_change_export (host : JsHost) (l : list skill) :
  Exporter.skillsArray host (toEntries (report true l))
  = Exporter.skillsArray host (toEntries (report false l)) /\
  (Forall (fun s => name s <> []) l ->
   BasicExporter.skillsArray (toEntries (report true l))
   = BasicExporter.skillsArray (toEntries (report false l))).
Proof.
  split.
  - unfold Exporter.skillsArray. now rewrite skillName_entries.
  - intros H. unfold report, toEntries. rewrite !map_map.
    induction H as [|s l Hs _ IH]; [reflexivity|].
    cbn [List.map BasicExporter.skillsArray BasicExporter.skillName truthy].
    destruct (eqb_spec (name s) []) as [|_]; [contradiction|].
    cbn [negb]. now rewrite IH.
Qed.

Lemma mode_does_not_change_export_witness :
  Forall (fun s => name s <> []) twoSkills /\
  BasicExporter.skillsArray (toEntries (report true twoSkills))
  = BasicExporter.skillsArray (toEntries (report false twoSkills)).
Proof.
  assert (Forall (fun s => name s <> []) twoSkills) as H
    by (repeat constructor; discriminate).
  split; [exact H|].
  exact (proj2 (mode_does_not_change_export (Sample.host 0) twoSkills) H).
Defined.

End SkillsFormFacts.

(** ** Whole exports: what is drawn, in which order, and the save *)

Module TraceFacts.
Import Notions JsFacts.

Section Generic.
Context (allowed : op -> bool).

Lemma quiet_ret {A} (a : A) : Quiet allowed (ret a).
Proof. intros s. exists []. auto. Qed.

Lemma emits_bind {A B} titles (m : M A) (f : A -> M B) :
  Emits allowed titles m -> (forall a, Quiet allowed (f a)) ->
  Emits allowed titles (bind m f).
Proof.
  intros Hm Hf s. unfold bind. destruct (Hm s) as (e1 & O1 & F1 & H1).
  destruct (m s) as [[a|e] s1]; cbn [fst snd] in *.
  - destruct (Hf a s1) as (e2 & O2 & F2 & H2). exists (e2 ++ e1).
    rewrite O2, O1, H2, H1, forallb_app, F1, F2, app_assoc. auto.
  - exists e1. auto.
Qed.

Lemma quiet_bind {A B} (m : M A) (f : A -> M B) :
  Quiet allowed m -> (forall a, Quiet allowed (f a)) -> Quiet allowed (bind m f).
Proof. apply emits_bind. Qed.

Lemma quiet_call o : allowed o = true -> Quiet allowed (call o).
Proof. intros H s. exists [o]. simpl. rewrite H. auto. Qed.

Lemma quiet_throw {A} e : Quiet allowed (throw e : M A).
Proof. intros s. exists []. auto. Qed.

Lemma quiet_lift {A} (c : completion A) : Quiet allowed (lift c).
Proof. intros s. exists []. auto. Qed.

Lemma quiet_getY : Quiet allowed getY.
Proof. intros s. exists []. auto. Qed.

Lemma quiet_setY k y : Quiet allowed (setY k y).
Proof. intros s. exists []. auto. Qed.

Lemma quiet_advance d : Quiet allowed (advance d).
Proof. intros s. exists []. auto. Qed.

Lemma quiet_when b (m : M unit) : Quiet allowed m -> Quiet allowed (when b m).
Proof. destruct b; simpl; auto using quiet_ret. Qed.

Lemma quiet_forEach {A} (l : list A) (body : A -> M unit) :
  (forall x, Quiet allowed (body x)) -> Quiet allowed (forEach l body).
Proof.
  intros H. induction l as [|x l IH]; simpl.
  - apply quiet_ret.
  - apply quiet_bind; auto.
Qed.

Lemma quiet_forEachFrom {A} i (l : list A) (body : nat -> A -> M unit) :
  (forall i x, Quiet allowed (body i x)) -> Quiet allowed (forEachFrom i l body).
Proof.
  intros H. revert i. induction l as [|x l IH]; intros i; simpl.
  - apply quiet_ret.
  - apply quiet_bind; auto.
Qed.

Lemma quiet_foldEachFrom {A B} i (l : list A) (acc : B) body :
  (forall i acc x, Quiet allowed (body i acc x)) ->
  Quiet allowed (foldEachFrom i l acc body).
Proof.
  intros H. revert i acc. induction l as [|x l IH]; intros i acc; simpl.
  - apply quiet_ret.
  - apply quiet_bind; auto.
Qed.

Hypothesis allowed_addPage : allowed AddPage = true.

Lemma quiet_checkPageBreak pdf r : Quiet allowed (Layout.checkPageBreak pdf r).
Proof.
  intros s. unfold Layout.checkPageBreak, bind, getY. cbn [fst snd].
  destruct (gtb _ _); cbn.
  - exists [AddPage]. cbn. rewrite allowed_addPage. auto.
  - exists []. auto.
Qed.

Lemma quiet_getTextWidth pdf t : Quiet allowed (Layout.getTextWidth pdf t).
Proof. intros s. exists []. auto. Qed.

Lemma quiet_splitTextToSize pdf t w : Quiet allowed (Layout.splitTextToSize pdf t w).
Proof. intros s. exists []. auto. Qed.

Lemma quiet_whenSome o (body : jsstring -> M unit) :
  (forall s, Quiet allowed (body s)) -> Quiet allowed (Layout.whenSome o body).
Proof.
  intros H. destruct o as [s|]; simpl; [|apply quiet_ret].
  destruct (Js.eqb s []); auto using quiet_ret.
Qed.

End Generic.

Lemma emits_weaken (p q : op -> bool) titles {A} (m : M A) :
  (forall o, p o = true -> q o = true) -> Emits p titles m -> Emits q titles m.
Proof.
  intros H Hm s. destruct (Hm s) as (e & O & F & Hh). exists e.
  repeat split; auto. rewrite forallb_forall in *. auto.
Qed.

Ltac quiet_step :=
  cbv beta zeta;
  lazymatch goal with
  | |- Quiet _ (bind _ _) => apply quiet_bind; [|intros ?]
  | |- Quiet _ (ret _) => apply quiet_ret
  | |- Quiet _ (call _) => apply quiet_call; reflexivity
  | |- Quiet _ (throw _) => apply quiet_throw
  | |- Quiet _ (lift _) => apply quiet_lift
  | |- Quiet _ getY => apply quiet_getY
  | |- Quiet _ (setY _ _) => apply quiet_setY
  | |- Quiet _ (advance _) => apply quiet_advance
  | |- Quiet _ (when _ _) => apply quiet_when
  | |- Quiet _ (forEach _ _) => apply quiet_forEach; intros ?
  | |- Quiet _ (forEachI _ _) => apply quiet_forEachFrom; intros ? ?
  | |- Quiet _ (foldEachI _ _ _) => apply quiet_foldEachFrom; intros ? ? ?
  | |- Quiet _ (foldEach _ _ _) => apply quiet_foldEachFrom; intros ? ? ?
  | |- Quiet _ (Layout.checkPageBreak _ _) => apply quiet_checkPageBreak; reflexivity
  | |- Quiet _ (Layout.getTextWidth _ _) => apply quiet_getTextWidth
  | |- Quiet _ (Layout.splitTextToSize _ _ _) => apply quiet_splitTextToSize
  | |- Quiet _ (Layout.whenSome _ _) => apply quiet_whenSome; intros ?
  | |- Quiet _ (Layout.setFontSize _) => apply quiet_call; reflexivity
  | |- Quiet _ (Layout.setFont _) => apply quiet_call; reflexivity
  | |- Quiet _ (Layout.setTextColor _) => apply quiet_call; reflexivity
  | |- Quiet _ (Layout.setDrawColor _) => apply quiet_call; reflexivity
  | |- Quiet _ (Layout.setFillColor _) => apply quiet_call; reflexivity
  | |- Quiet _ (Layout.setLineWidth _) => apply quiet_call; reflexivity
  | |- Quiet _ (Layout.text _ _ _) => apply quiet_call; reflexivity
  | |- Quiet _ (Layout.line _ _ _ _) => apply quiet_call; reflexivity
  | |- Quiet _ (Layout.rect _ _ _ _) => apply quiet_call; reflexivity
  | |- Quiet _ (Layout.circle _ _ _) => apply quiet_call; reflexivity
  | |- Quiet _ (if ?b then _ else _) => destruct b
  | |- Quiet _ (match ?x with _ => _ end) => destruct x
  end.

Ltac quiet := repeat quiet_step.

Section Sections.
Context (host : JsHost) (pdf : PdfLib) (cleanText : value -> jsstring).

Lemma emits_addSectionHeader title :
  Emits ordinary [title] (Layout.addSectionHeader host pdf title).
Proof.
  unfold Layout.addSectionHeader.
  assert (Emits ordinary [title] (noteHeader title)) as H
    by (intros s; exists []; auto).
  apply emits_bind; [exact H|]. intros _. quiet.
Qed.

Lemma quiet_addBulletPoints t indent showBullets :
  Quiet ordinary (Layout.addBulletPoints pdf t indent showBullets).
Proof. unfold Layout.addBulletPoints. quiet. Qed.

Lemma quiet_headerSection p : Quiet ordinary (Layout.headerSection pdf cleanText p).
Proof. unfold Layout.headerSection. quiet. Qed.

Lemma quiet_embedJobDescription jd :
  Quiet notSave (Layout.embedJobDescription cleanText jd).
Proof. unfold Layout.embedJobDescription. quiet. Qed.

(** A section: the title, then statements that draw no title. *)
Lemma emits_section b title (rest : M unit) :
  Quiet ordinary rest ->
  Emits ordinary (titleIf b title)
    (when b (bind (Layout.addSectionHeader host pdf title) (fun _ => rest))).
Proof.
  intros H. destruct b; cbn [when titleIf]; [|apply quiet_ret].
  apply emits_bind; [apply emits_addSectionHeader|auto].
Qed.

Lemma emits_summarySection p :
  Emits ordinary (titleIf (summaryOf p) js"Executive Summary")
    (Layout.summarySection host pdf cleanText p).
Proof.
  unfold Layout.summarySection, summaryOf.
  destruct p as [p|]; [|apply quiet_ret].
  unfold Layout.whenSome, present. destruct (Personal.summary p) as [t|];
    cbn [ofOption truthy]; [|apply quiet_ret].
  destruct (Js.eqb t []); cbn [negb titleIf]; [apply quiet_ret|].
  apply emits_bind; [apply emits_addSectionHeader|]. intros _.
  unfold Layout.addText. quiet.
Qed.

Lemma emits_experienceSection l :
  Emits ordinary (titleIf (Layout.nonEmpty l) js"Professional Experience")
    (Layout.experienceSection host pdf cleanText l).
Proof.
  unfold Layout.experienceSection. apply emits_section.
  pose proof quiet_addBulletPoints. quiet; auto.
Qed.

Lemma emits_projectsSection title l :
  Emits ordinary (titleIf (Layout.nonEmpty l) title)
    (Layout.projectsSection host pdf cleanText title l).
Proof.
  unfold Layout.projectsSection. apply emits_section.
  pose proof quiet_addBulletPoints. quiet; auto.
Qed.

Lemma emits_certificationsSection title l :
  Emits ordinary (titleIf (Layout.nonEmpty l) title)
    (Layout.certificationsSection host pdf cleanText title l).
Proof.
  unfold Layout.certificationsSection. apply emits_section. quiet.
Qed.

End Sections.

Section Current.
Context (host : JsHost) (pdf : PdfLib).

Ltac unfold_aliases :=
  unfold Exporter.checkPageBreak, Exporter.addSectionHeader,
    Exporter.addBulletPoints, Exporter.getTextWidth, Exporter.splitTextToSize.

Lemma emits_educationSection l :
  Emits ordinary (titleIf (Layout.nonEmpty l) js"Education")
    (Exporter.educationSection host pdf l).
Proof.
  unfold Exporter.educationSection. unfold_aliases. apply emits_section.
  unfold Exporter.relevantCoursework, Exporter.coursesColumn. unfold_aliases.
  quiet.
Qed.

Lemma emits_skillsSection l :
  Emits ordinary (titleIf (skillsShown host l) js"Core Competencies & Technical Skills")
    (Exporter.skillsSection host pdf l).
Proof.
  unfold Exporter.skillsSection, skillsShown. unfold_aliases.
  destruct (Layout.nonEmpty l); cbn [when andb titleIf]; [|apply quiet_ret].
  cbv zeta. apply emits_section.
  unfold Exporter.renderSkills, Exporter.renderSkillsInColumns,
    Exporter.renderSkillsHorizontally, Exporter.skillColumns. unfold_aliases.
  quiet.
Qed.

Lemma emits_languagesSection l :
  Emits ordinary (titleIf (Layout.nonEmpty l) js"Languages")
    (Exporter.languagesSection host pdf l).
Proof.
  unfold Exporter.languagesSection. unfold_aliases. apply emits_section.
  unfold Exporter.languagesInList, Exporter.languagesInColumns,
    Exporter.languagesColumn. unfold_aliases.
  quiet.
Qed.

Lemma emits_interestsSection l :
  Emits ordinary (titleIf (Layout.nonEmpty l) js" Interests")
    (Exporter.interestsSection host pdf l).
Proof.
  unfold Exporter.interestsSection. unfold_aliases. apply emits_section.
  unfold Exporter.layout, Exporter.isJustified. quiet.
Qed.

Lemma emits_referencesSection l :
  Emits ordinary (titleIf (Layout.nonEmpty l) js" References")
    (Exporter.referencesSection host pdf l).
Proof.
  unfold Exporter.referencesSection. unfold_aliases. apply emits_section.
  quiet.
Qed.

Lemma exports_save allowed filename : Exports allowed filename [] (Exporter.save filename).
Proof.
  intros s. exists [], [], []. cbn. auto.
Qed.

Lemma exports_bind allowed filename {A} t1 t2 (m : M A) (f : A -> M unit) :
  rev t1 = t1 ->
  Emits allowed t1 m -> (forall a, Exports allowed filename t2 (f a)) ->
  Exports allowed filename (t1 ++ t2) (bind m f).
Proof.
  intros Hrev Hm Hf s. unfold bind. destruct (Hm s) as (e1 & O1 & F1 & H1).
  destruct (m s) as [[a|e] s1]; cbn [fst snd] in *.
  - destruct (Hf a s1) as (e2 & shown & rest & T & H2 & F2 & R).
    exists (e2 ++ e1), (t1 ++ shown), rest.
    rewrite T, H2, H1, rev_app_distr, Hrev, forallb_app, F1, F2, !app_assoc.
    repeat split; auto.
    destruct (fst (f a s1)); rewrite O1 in R.
    + destruct R as [R ->]. rewrite R, !app_assoc. auto.
    + rewrite R, !app_assoc. auto.
  - exists e1, t1, t2. rewrite Hrev. auto.
Qed.

Lemma titleIf_rev b title : rev (titleIf b title) = titleIf b title.
Proof. destruct b; reflexivity. Qed.

Lemma exports_exportBody allowed resumeData filename jobDescription :
  (forall o, ordinary o = true -> allowed o = true) ->
  Emits allowed [] (Layout.embedJobDescription (Exporter.cleanText host) jobDescription) ->
  Exports allowed filename (sectionTitles host resumeData)
    (Exporter.exportBody host pdf (Some resumeData) filename jobDescription).
Proof.
  intros Hw Hjd. unfold Exporter.exportBody, sectionTitles.
  assert (forall titles (m : M unit), Emits ordinary titles m -> Emits allowed titles m)
    as W by (intros; eapply emits_weaken; eauto).
  apply (exports_bind _ _ [] _); [reflexivity | exact Hjd | intros _].
  apply (exports_bind _ _ [] _);
    [reflexivity | apply W, quiet_headerSection | intros _].
  apply exports_bind;
    [apply titleIf_rev | apply W, emits_summarySection | intros _].
  apply exports_bind;
    [apply titleIf_rev | apply W, emits_experienceSection | intros _].
  apply exports_bind;
    [apply titleIf_rev | apply W, emits_educationSection | intros _].
  apply exports_bind;
    [apply titleIf_rev | apply W, emits_skillsSection | intros _].
  apply exports_bind;
    [apply titleIf_rev | apply W, emits_projectsSection | intros _].
  apply exports_bind;
    [apply titleIf_rev | apply W, emits_certificationsSection | intros _].
  apply exports_bind;
    [apply titleIf_rev | apply W, emits_languagesSection | intros _].
  apply exports_bind;
    [apply titleIf_rev | apply W, emits_interestsSection | intros _].
  rewrite <- (app_nil_r (titleIf _ js" References")).
  apply exports_bind;
    [apply titleIf_rev | apply W, emits_referencesSection | intros _].
  apply exports_save.
Qed.

End Current.

(** X18.  An export of the current revision saves the document once, as
    its last call and under the given file name, or not at all: when
    [generateTextPDF] ends normally the newest call is [save filename] and
    no call before it is a [save]; when it raises, the error is the
    message ["Failed to generate PDF. Please try again."] and nothing has
    been saved.  For every document (a missing one too), job description,
    engine and page. *)
Theorem export_saves_last_or_not_at_all (host : JsHost) (pdf : PdfLib)
    (resumeData : option ResumeData) (templateId : Z) (filename : jsstring)
    (jobDescription : option jsstring) :
  let result := Exporter.generateTextPDF host pdf resumeData templateId filename
                  jobDescription in
  match fst result with
  | Normal _ =>
      exists drawn,
        ops (snd result) = Save filename :: drawn /\ existsb isSave drawn = false
  | Throw message =>
      message = Exporter.generationFailed /\ saved (snd result) = false
  end.
Proof.
  cbv zeta. unfold Exporter.generateTextPDF, tryCatchM.
  destruct resumeData as [resumeData|]; [|cbn; auto].
  destruct (exports_exportBody host pdf notSave resumeData filename jobDescription)
    with (s := initial) as (emitted & shown & rest & _ & _ & F & R).
  { intros o. unfold ordinary, notSave. now intros [H _]%andb_true_iff. }
  { apply quiet_embedJobDescription. }
  assert (existsb isSave emitted = false) as NS.
  { clear R. induction emitted as [|o l IH]; [reflexivity|]. cbn in *.
    apply andb_true_iff in F as [F1 F2]. unfold notSave in F1.
    apply negb_true_iff in F1. rewrite F1. auto. }
  destruct (Exporter.exportBody host pdf (Some resumeData) filename jobDescription
              initial) as [[[]|e] s1]; unfold throw; cbn [fst snd] in *.
  - destruct R as [R _]. exists emitted. rewrite R, app_nil_r. auto.
  - split; [reflexivity|]. unfold saved. now rewrite R, app_nil_r.
Qed.

(** X19.  The current revision draws the section headers in one fixed
    order: Executive Summary, Professional Experience, Education, Core
    Competencies & Technical Skills, Projects, Certifications, Languages,
    Interests, References, each one exactly when the document has
    something for it (for the skills: a skill that passes the filter).
    The headers drawn by an export are a beginning of this list, and the
    whole list when the export ends normally. *)
Theorem export_draws_sections_in_order (host : JsHost) (pdf : PdfLib)
    (resumeData : ResumeData) (templateId : Z) (filename : jsstring)
    (jobDescription : option jsstring) :
  let result := Exporter.generateTextPDF host pdf (Some resumeData) templateId
                  filename jobDescription in
  exists rest,
    sectionTitles host resumeData = rev (headers (snd result)) ++ rest /\
    (fst result = Normal tt -> rest = []).
Proof.
  cbv zeta. unfold Exporter.generateTextPDF, tryCatchM.
  destruct (exports_exportBody host pdf notSave resumeData filename jobDescription)
    with (s := initial) as (emitted & shown & rest & T & H & _ & R).
  { intros o. unfold ordinary, notSave. now intros [H _]%andb_true_iff. }
  { apply quiet_embedJobDescription. }
  exists rest.
  destruct (Exporter.exportBody host pdf (Some resumeData) filename jobDescription
              initial) as [[[]|e] s1]; cbn [fst snd throw] in *;
    rewrite H, app_nil_r, rev_involutive; split; auto.
  - tauto.
  - discriminate.
Qed.

(** *** Exports that end normally *)

Lemma completes_ret {A} (a : A) : Completes (ret a).
Proof. intros s. simpl. eauto. Qed.

Lemma completes_bind {A B} (m : M A) (f : A -> M B) :
  Completes m -> (forall a, Completes (f a)) -> Completes (bind m f).
Proof.
  intros Hm Hf s. unfold bind. destruct (Hm s) as (a & Ea).
  destruct (m s) as [r s1]. cbn [fst] in Ea. subst r. apply Hf.
Qed.

Lemma completes_call o : Completes (call o).
Proof. intros s. simpl. eauto. Qed.

Lemma completes_getY : Completes getY.
Proof. intros s. simpl. eauto. Qed.

Lemma completes_setY k y : Completes (setY k y).
Proof. intros s. simpl. eauto. Qed.

Lemma completes_advance d : Completes (advance d).
Proof. intros s. simpl. eauto. Qed.

Lemma completes_noteHeader t : Completes (noteHeader t).
Proof. intros s. simpl. eauto. Qed.

Lemma completes_when b (m : M unit) : Completes m -> Completes (when b m).
Proof. destruct b; simpl; auto using completes_ret. Qed.

Lemma completes_forEach {A} (l : list A) (body : A -> M unit) :
  (forall x, Completes (body x)) -> Completes (forEach l body).
Proof.
  intros H. induction l as [|x l IH]; simpl.
  - apply completes_ret.
  - apply completes_bind; auto.
Qed.

Lemma completes_forEachFrom {A} i (l : list A) (body : nat -> A -> M unit) :
  (forall i x, Completes (body i x)) -> Completes (forEachFrom i l body).
Proof.
  intros H. revert i. induction l as [|x l IH]; intros i; simpl.
  - apply completes_ret.
  - apply completes_bind; auto.
Qed.

Lemma completes_foldEachFrom {A B} i (l : list A) (acc : B) body :
  (forall i acc x, Completes (body i acc x)) ->
  Completes (foldEachFrom i l acc body).
Proof.
  intros H. revert i acc. induction l as [|x l IH]; intros i acc; simpl.
  - apply completes_ret.
  - apply completes_bind; auto.
Qed.

Lemma completes_checkPageBreak pdf r : Completes (Layout.checkPageBreak pdf r).
Proof.
  intros s. unfold Layout.checkPageBreak, bind, getY. cbn [fst snd].
  destruct (gtb _ _); cbn; eauto.
Qed.

Lemma completes_getTextWidth pdf t : Completes (Layout.getTextWidth pdf t).
Proof. intros s. simpl. eauto. Qed.

Lemma completes_splitTextToSize pdf t w : Completes (Layout.splitTextToSize pdf t w).
Proof. intros s. simpl. eauto. Qed.

Lemma completes_whenSome o (body : jsstring -> M unit) :
  (forall s, Completes (body s)) -> Completes (Layout.whenSome o body).
Proof.
  intros H. destruct o as [s|]; simpl; [|apply completes_ret].
  destruct (Js.eqb s []); auto using completes_ret.
Qed.

Lemma completes_formatDate host date isEndDate :
  Completes (lift (Dates.formatDate host date isEndDate)).
Proof.
  intros s. unfold lift. cbn [fst].
  apply DateFacts.formatDate_returns.
Qed.

Ltac completes_step :=
  cbv beta zeta;
  lazymatch goal with
  | |- Completes (bind _ _) => apply completes_bind; [|intros ?]
  | |- Completes (ret _) => apply completes_ret
  | |- Completes (call _) => apply completes_call
  | |- Completes (lift (Dates.formatDate _ _ _)) => apply completes_formatDate
  | |- Completes getY => apply completes_getY
  | |- Completes (setY _ _) => apply completes_setY
  | |- Completes (advance _) => apply completes_advance
  | |- Completes (noteHeader _) => apply completes_noteHeader
  | |- Completes (when _ _) => apply completes_when
  | |- Completes (forEach _ _) => apply completes_forEach; intros ?
  | |- Completes (forEachI _ _) => apply completes_forEachFrom; intros ? ?
  | |- Completes (foldEachI _ _ _) => apply completes_foldEachFrom; intros ? ? ?
  | |- Completes (foldEach _ _ _) => apply completes_foldEachFrom; intros ? ? ?
  | |- Completes (Layout.checkPageBreak _ _) => apply completes_checkPageBreak
  | |- Completes (Layout.getTextWidth _ _) => apply completes_getTextWidth
  | |- Completes (Layout.splitTextToSize _ _ _) => apply completes_splitTextToSize
  | |- Completes (Layout.whenSome _ _) => apply completes_whenSome; intros ?
  | |- Completes (Layout.setFontSize _) => apply completes_call
  | |- Completes (Layout.setFont _) => apply completes_call
  | |- Completes (Layout.setTextColor _) => apply completes_call
  | |- Completes (Layout.setDrawColor _) => apply completes_call
  | |- Completes (Layout.setFillColor _) => apply completes_call
  | |- Completes (Layout.setLineWidth _) => apply completes_call
  | |- Completes (Layout.text _ _ _) => apply completes_call
  | |- Completes (Layout.line _ _ _ _) => apply completes_call
  | |- Completes (Layout.rect _ _ _ _) => apply completes_call
  | |- Completes (Layout.circle _ _ _) => apply completes_call
  | |- Completes (Exporter.save _) => apply completes_call
  | |- Completes (if ?b then _ else _) => destruct b
  | |- Completes (match ?x with _ => _ end) => destruct x
  end.

Ltac completes := repeat completes_step.

Lemma languageText_not_empty lang : Exporter.languageText lang <> [].
Proof.
  unfold Exporter.languageText. intros E.
  apply app_eq_nil in E as [_ E]. discriminate.
Qed.

Section CurrentCompletes.
Context (host : JsHost) (pdf : PdfLib).
Hypothesis lines_of_text : SplitsIntoLines pdf.

Ltac unfold_all :=
  unfold Exporter.exportBody, Layout.embedJobDescription, Layout.headerSection,
    Layout.summarySection, Layout.experienceSection, Exporter.educationSection,
    Exporter.skillsSection, Layout.projectsSection, Layout.certificationsSection,
    Exporter.interestsSection, Exporter.referencesSection,
    Exporter.relevantCoursework, Exporter.coursesColumn,
    Exporter.renderSkills, Exporter.renderSkillsInColumns,
    Exporter.renderSkillsHorizontally, Exporter.skillColumns,
    Exporter.layout, Exporter.isJustified,
    Exporter.checkPageBreak, Exporter.addSectionHeader,
    Exporter.addBulletPoints, Exporter.getTextWidth, Exporter.splitTextToSize,
    Layout.addSectionHeader, Layout.addText, Layout.addBulletPoints.

Lemma completes_languagesColumn col columnX columnWidth startY l :
  Completes (Exporter.languagesColumn pdf col columnX columnWidth startY l).
Proof.
  unfold Exporter.languagesColumn, foldEach.
  apply completes_foldEachFrom. intros i columnY lang.
  apply completes_bind; [unfold Exporter.checkPageBreak; completes|intros _].
  apply completes_bind; [completes|intros _].
  apply completes_bind; [completes|intros _].
  intros s. unfold bind, Exporter.splitTextToSize, Layout.splitTextToSize.
  cbn [fst snd].
  pose proof (lines_of_text (fontSize s) (style s) (Exporter.languageText lang)
                (columnWidth - 6)%Q (languageText_not_empty lang)) as Hl.
  destruct (Pdf.splitTextToSize pdf _ _ _ _) as [|first rest]; [congruence|].
  cbn. eauto.
Qed.

Lemma completes_languagesSection l :
  Completes (Exporter.languagesSection host pdf l).
Proof.
  pose proof completes_languagesColumn as HC.
  unfold Exporter.languagesSection, Exporter.languagesInList,
    Exporter.languagesInColumns.
  unfold_all. completes; apply HC.
Qed.

Lemma completes_exportBody resumeData filename jobDescription :
  Completes (Exporter.exportBody host pdf (Some resumeData) filename jobDescription).
Proof.
  pose proof completes_languagesSection as HL.
  unfold_all. completes; apply HL.
Qed.

End CurrentCompletes.

(** X20.  When jsPDF cuts every text that is not empty into one line at
    least, the export of the current revision ends normally for every
    document that is given, with the document saved under the file name
    as the newest call: nothing but an empty answer of [splitTextToSize]
    in the three columns of languages can make it raise. *)
Theorem export_completes (host : JsHost) (pdf : PdfLib) (resumeData : ResumeData)
    (templateId : Z) (filename : jsstring) (jobDescription : option jsstring) :
  SplitsIntoLines pdf ->
  let result := Exporter.generateTextPDF host pdf (Some resumeData) templateId
                  filename jobDescription in
  fst result = Normal tt /\
  hd_error (ops (snd result)) = Some (Save filename).
Proof.
  intros Hpdf. cbv zeta. unfold Exporter.generateTextPDF, tryCatchM.
  destruct (completes_exportBody host pdf Hpdf resumeData filename jobDescription
              initial) as ([] & N).
  destruct (exports_exportBody host pdf notSave resumeData filename jobDescription)
    with (s := initial) as (emitted & shown & rest & _ & _ & _ & R).
  { intros o. unfold ordinary, notSave. now intros [H _]%andb_true_iff. }
  { apply quiet_embedJobDescription. }
  destruct (Exporter.exportBody host pdf (Some resumeData) filename jobDescription
              initial) as [[[]|e] s1]; cbn [fst snd] in *; [|discriminate N].
  destruct R as [R _]. rewrite R. split; reflexivity.
Qed.

Lemma export_completes_witness :
  SplitsIntoLines Sample.a4 /\
  let result := Exporter.generateTextPDF (Sample.host 0) Sample.a4
                  (Some (Sample.withSkills fiveSkills)) 0 js"Jane_Doe_Resume.pdf"
                  (Some js"Rust and SQL") in
  fst result = Normal tt /\
  hd_error (ops (snd result)) = Some (Save js"Jane_Doe_Resume.pdf").
Proof.
  assert (SplitsIntoLines Sample.a4) as H by (intros size st t w _; discriminate).
  split; [exact H|].
  apply (export_completes (Sample.host 0) Sample.a4 (Sample.withSkills fiveSkills)
           0 js"Jane_Doe_Resume.pdf" (Some js"Rust and SQL") H).
Defined.

(** *** The download of the builder page *)

Lemma downloadName_safe fullName :
  Forall (fun c => Builder.isAlphaNumeric c = true \/ c = 95 \/ c = 46)
    (Builder.downloadName fullName).
Proof.
  unfold Builder.downloadName. apply Forall_app. split.
  - apply Forall_map. apply Forall_forall. intros c _.
    destruct (Builder.isAlphaNumeric c) eqn:E; auto.
  - apply Forall_forall. intros c Hc.
    repeat (destruct Hc as [<-|Hc]; [vm_compute; auto|]). destruct Hc.
Qed.

(** X21.  The download of the builder page, for a document with a name,
    shows two toasts and runs the exporter without the job description of
    the page: the export sets neither the white text colour nor the font
    size 0.1 under which the job description is hidden, and a file it
    saves has the name made from the full name, which holds only ASCII
    letters, digits, [_] and [.]. *)
Theorem download_embeds_no_keywords (host : JsHost) (pdf : PdfLib)
    (p : Builder.page) (who : Personal.t) (fullName : jsstring) :
  personal (Builder.resumeData p) = Some who ->
  Personal.fullName who = Some fullName -> fullName <> [] ->
  exists started finished run,
    Builder.handleDownloadPDF (Exporter.generateTextPDF host pdf) p
    = Normal {| Builder.toasts := [started; finished];
                Builder.exported := Some run |} /\
    existsb isHidden (ops (snd run)) = false /\
    (forall f, In (Save f) (ops (snd run)) -> f = Builder.downloadName fullName) /\
    Forall (fun c => Builder.isAlphaNumeric c = true \/ c = 95 \/ c = 46)
      (Builder.downloadName fullName).
Proof.
  intros Hp Hn Hne. unfold Builder.handleDownloadPDF. rewrite Hp, Hn.
  destruct (eqb_spec fullName []) as [|_]; [contradiction|].
  cbv zeta. do 3 eexists. split; [reflexivity|].
  split; [|split; [|apply downloadName_safe]].
  - unfold Exporter.generateTextPDF, tryCatchM.
    destruct (exports_exportBody host pdf ordinary (Builder.resumeData p)
                (Builder.downloadName fullName) None)
      with (s := initial) as (emitted & shown & rest & _ & _ & F & R);
      [auto | apply quiet_ret |].
    assert (existsb isHidden emitted = false) as NH.
    { clear R. induction emitted as [|o l IH]; [reflexivity|]. cbn in *.
      apply andb_true_iff in F as [F1 F2]. unfold ordinary in F1.
      apply andb_true_iff in F1 as [_ F1]. apply negb_true_iff in F1.
      rewrite F1. auto. }
    destruct (Exporter.exportBody _ _ _ _ _ initial) as [[[]|e] s1];
      unfold throw; cbn [fst snd] in *.
    + destruct R as [R _]. rewrite R, app_nil_r. cbn. exact NH.
    + rewrite R, app_nil_r. exact NH.
  - intros f Hin. unfold Exporter.generateTextPDF, tryCatchM in Hin.
    destruct (exports_exportBody host pdf notSave (Builder.resumeData p)
                (Builder.downloadName fullName) None)
      with (s := initial) as (emitted & shown & rest & _ & _ & F & R).
    { intros o. unfold ordinary, notSave. now intros [H _]%andb_true_iff. }
    { apply quiet_ret. }
    assert (~ In (Save f) emitted) as NS.
    { intros X. rewrite forallb_forall in F. specialize (F _ X). discriminate. }
    destruct (Exporter.exportBody _ _ _ _ _ initial) as [[[]|e] s1];
      unfold throw in Hin; cbn [fst snd] in *.
    + destruct R as [R _]. rewrite R, app_nil_r in Hin.
      destruct Hin as [E|X]; [congruence|contradiction].
    + rewrite R, app_nil_r in Hin. contradiction.
Qed.

Lemma download_embeds_no_keywords_witness :
  js"Jane Doe" <> [] /\
  exists started finished run,
    Builder.handleDownloadPDF
      (Exporter.generateTextPDF (Sample.host 0) Sample.a4) janeDoePage
    = Normal {| Builder.toasts := [started; finished];
                Builder.exported := Some run |} /\
    existsb isHidden (ops (snd run)) = false.
Proof.
  assert (js"Jane Doe" <> []) as H by discriminate.
  split; [exact H|].
  destruct (download_embeds_no_keywords (Sample.host 0) Sample.a4 janeDoePage
              _ js"Jane Doe" eq_refl eq_refl H)
    as (started & finished & run & E & N & _).
  exists started, finished, run. split; [exact E|exact N].
Defined.

(** *** Room on the page *)

(** X22.  After [checkPageBreak requiredSpace] the required space fits
    between the cursor and the bottom limit of the page (20 above its
    lower edge), provided it fits on an empty page at all. *)
Theorem checkPageBreak_makes_room (pdf : PdfLib) (requiredSpace : Q) (s : state) :
  (margin + requiredSpace <= pageHeight pdf - 20)%Q ->
  let s' := snd (Layout.checkPageBreak pdf requiredSpace s) in
  (yPosition s' + requiredSpace <= pageHeight pdf - 20)%Q.
Proof.
  intros H. cbv zeta. unfold Layout.checkPageBreak, bind, getY. cbn [fst snd].
  destruct (gtb (yPosition s + requiredSpace) (pageHeight pdf - 20)) eqn:E.
  - cbn. exact H.
  - cbn. now apply PaginationFacts.gtb_false.
Qed.

Lemma checkPageBreak_makes_room_witness :
  (margin + 25 <= pageHeight Sample.a4 - 20)%Q /\
  (yPosition (snd (Layout.checkPageBreak Sample.a4 25 nearBottom)) + 25
   <= pageHeight Sample.a4 - 20)%Q.
Proof.
  assert (margin + 25 <= pageHeight Sample.a4 - 20)%Q as H
    by (vm_compute; discriminate).
  split; [exact H|].
  apply (checkPageBreak_makes_room Sample.a4 25 nearBottom H).
Defined.

(** *** The earlier revision: when the document is saved *)

Lemma saves_save filename : Saves (call (Save filename)).
Proof. intros s. split; [simpl; eauto|reflexivity]. Qed.

Lemma saves_bind {A B} (m : M A) (f : A -> M B) :
  Completes m -> (forall a, Saves (f a)) -> Saves (bind m f).
Proof.
  intros Hm Hf s. unfold bind. destruct (Hm s) as (a & Ea).
  destruct (m s) as [r s1]. cbn [fst] in Ea. subst r. apply Hf.
Qed.

Section Earlier.
Context (host : JsHost) (pdf : PdfLib).

Ltac unfold_basic :=
  unfold BasicExporter.projectsAndAfter, Layout.embedJobDescription,
    Layout.headerSection, Layout.summarySection, Layout.experienceSection,
    BasicExporter.educationSection, Layout.projectsSection,
    Layout.certificationsSection,
    BasicExporter.checkPageBreak, BasicExporter.addSectionHeader,
    BasicExporter.addBulletPoints, BasicExporter.getTextWidth,
    BasicExporter.splitTextToSize,
    Layout.addSectionHeader, Layout.addText, Layout.addBulletPoints.

Lemma completes_prefix (cleanText : value -> jsstring) resumeData jobDescription :
  Completes (Layout.embedJobDescription cleanText jobDescription) /\
  Completes (Layout.headerSection pdf cleanText (personal resumeData)) /\
  Completes (Layout.summarySection host pdf cleanText (personal resumeData)) /\
  Completes (Layout.experienceSection host pdf cleanText (experience resumeData)).
Proof.
  repeat split; unfold_basic; completes.
Qed.

Lemma completes_basic_education l :
  Completes (BasicExporter.educationSection host pdf l).
Proof. unfold_basic. completes. Qed.

Lemma emits_basic_education l :
  Emits ordinary (titleIf (Layout.nonEmpty l) js"Education")
    (BasicExporter.educationSection host pdf l).
Proof.
  unfold BasicExporter.educationSection, BasicExporter.checkPageBreak,
    BasicExporter.addSectionHeader, BasicExporter.addBulletPoints,
    BasicExporter.getTextWidth, BasicExporter.splitTextToSize.
  apply emits_section. pose proof (quiet_addBulletPoints pdf). quiet; auto.
Qed.

Lemma emits_saved {A} titles (m : M A) s :
  Emits notSave titles m -> saved (snd (m s)) = saved s.
Proof.
  intros H. destruct (H s) as (e & O & F & _). unfold saved. rewrite O.
  rewrite existsb_app. replace (existsb isSave e) with false; [reflexivity|].
  symmetry. clear O. induction e as [|o e IH]; [reflexivity|]. cbn in *.
  apply andb_true_iff in F as [F1 F2]. unfold notSave in F1.
  apply negb_true_iff in F1. rewrite F1. auto.
Qed.

Lemma ordinary_notSave titles {A} (m : M A) :
  Emits ordinary titles m -> Emits notSave titles m.
Proof.
  apply emits_weaken. intros o. unfold ordinary, notSave.
  now intros [H _]%andb_true_iff.
Qed.

(** A statement that ends normally and does not save, followed by others. *)
Lemma bind_unsaved {A B} titles (m : M A) (f : A -> M B) s :
  Completes m -> Emits notSave titles m ->
  exists a s1, saved s1 = saved s /\ bind m f s = f a s1.
Proof.
  intros Hc Hq. unfold bind. destruct (Hc s) as (a & Ea).
  pose proof (emits_saved titles m s Hq) as Hs.
  destruct (m s) as [r s1]. cbn [fst snd] in *. subst r. eauto.
Qed.

Lemma bind_lift_normal {A B} (a : A) (f : A -> M B) s :
  bind (lift (Normal a)) f s = f a s.
Proof. reflexivity. Qed.

Lemma bind_lift_throw {A B} e (f : A -> M B) s :
  bind (lift (Throw e)) f s = (Throw e, s).
Proof. reflexivity. Qed.

Ltac run_section C Q s1 S :=
  match goal with
  | |- context [bind ?m ?f ?s] =>
      let a := fresh "a" in
      destruct (bind_unsaved _ m f s C Q) as (a & s1 & S & ->)
  end.

(** X23.  The earlier revision saves the document exactly when the
    document has a skill that is not blank: if reading the names of the
    skills succeeds, the export ends normally and has saved if and only
    if a name is left after the blank ones are dropped; if reading them
    raises, the export raises the message ["Failed to generate PDF.
    Please try again."] and nothing is saved.  For every document, job
    description, engine and page. *)
Theorem basic_export_saves_iff_skills (resumeData : ResumeData) (templateId : Z)
    (filename : jsstring) (jobDescription : option jsstring) :
  let result := BasicExporter.generateTextPDF host pdf (Some resumeData)
                  templateId filename jobDescription in
  match BasicExporter.skillsArray (skills resumeData) with
  | Normal names =>
      fst result = Normal tt /\
      saved (snd result) = Layout.nonEmpty names
  | Throw _ =>
      fst result = Throw Exporter.generationFailed /\ saved (snd result) = false
  end.
Proof.
  cbv zeta. unfold BasicExporter.generateTextPDF, tryCatchM,
    BasicExporter.exportBody.
  destruct (completes_prefix BasicExporter.cleanText resumeData jobDescription)
    as (C1 & C2 & C3 & C4).
  run_section C1 (quiet_embedJobDescription BasicExporter.cleanText jobDescription)
    s1 S1.
  run_section C2 (ordinary_notSave _ _
                    (quiet_headerSection pdf BasicExporter.cleanText
                       (personal resumeData))) s2 S2.
  run_section C3 (ordinary_notSave _ _
                    (emits_summarySection host pdf BasicExporter.cleanText
                       (personal resumeData))) s3 S3.
  run_section C4 (ordinary_notSave _ _
                    (emits_experienceSection host pdf BasicExporter.cleanText
                       (experience resumeData))) s4 S4.
  run_section (completes_basic_education (education resumeData))
              (ordinary_notSave _ _ (emits_basic_education (education resumeData)))
    s5 S5.
  assert (saved s5 = false) as U by (rewrite S5, S4, S3, S2, S1; reflexivity).
  destruct (skills resumeData) as [|sk rest] eqn:Es.
  { cbn. auto. }
  cbn [Layout.nonEmpty negb].
  assert (Completes (BasicExporter.addSectionHeader host pdf
                       js"Core Competencies & Technical Skills")) as C6
    by (unfold_basic; completes).
  run_section C6 (ordinary_notSave _ _
                    (emits_addSectionHeader host pdf
                       js"Core Competencies & Technical Skills")) s6 S6.
  destruct (BasicExporter.skillsArray (sk :: rest)) as [names|e].
  - rewrite bind_lift_normal.
    destruct names as [|n names]; cbn [Layout.nonEmpty negb fst snd].
    + cbn. split; [reflexivity|congruence].
    + match goal with |- context [bind ?m ?f s6] =>
        assert (Saves (bind m f)) as Sv
      end.
      { repeat (apply saves_bind; [unfold_basic; completes|intros ?]).
        apply saves_save. }
      destruct (Sv s6) as ((u & N) & Sd).
      match goal with |- context [bind ?m ?f s6] =>
        destruct (bind m f s6) as [[[]|e] s7]
      end; cbn [fst snd] in *; [auto|discriminate N].
  - rewrite bind_lift_throw. cbn. split; [reflexivity|congruence].
Qed.

End Earlier.

End TraceFacts.

(** ** The languages in three columns *)

Module ColumnFacts.
Import Notions JsFacts EmbeddingFacts TraceFacts.

Ltac draws_with e :=
  split; [eexists; reflexivity|];
  split; [reflexivity|]; split; [reflexivity|]; exists e; auto.

Lemma draws_bind {A B} (m : M A) (f : A -> M B) s t1 t2 :
  Draws m s t1 ->
  (forall a s1, m s = (Normal a, s1) -> Draws (f a) s1 t2) ->
  Draws (bind m f) s (t1 ++ t2).
Proof.
  intros ((a & N) & F1 & S1 & e1 & O1 & T1) Hf. unfold Draws, bind.
  destruct (m s) as [r s1] eqn:E. cbn [fst snd] in *. subst r.
  destruct (Hf a s1 eq_refl) as (N2 & F2 & S2 & e2 & O2 & T2).
  split; [exact N2|]. rewrite F2, S2, F1, S1. repeat split.
  exists (e2 ++ e1). rewrite O2, O1, textStrings_app, T1, T2, app_assoc. auto.
Qed.

Lemma draws_ret {A} (a : A) s : Draws (ret a) s [].
Proof. draws_with (@nil op). Qed.

Lemma draws_call o s :
  match o with SetFontSize _ | SetFont _ _ => False | _ => True end ->
  Draws (call o) s (textStrings [o]).
Proof.
  intros H. destruct o; try contradiction;
    match goal with |- Draws (call ?o) _ _ => draws_with [o] end.
Qed.

Lemma draws_checkPageBreak pdf r s : Draws (Layout.checkPageBreak pdf r) s [].
Proof.
  unfold Layout.checkPageBreak, bind, getY, Draws. cbn [fst snd].
  destruct (gtb _ _); cbn.
  - draws_with [AddPage].
  - draws_with (@nil op).
Qed.

Lemma draws_setY k y s : Draws (setY k y) s [].
Proof. draws_with (@nil op). Qed.

Lemma draws_getY s : Draws getY s [].
Proof. draws_with (@nil op). Qed.

Section Columns.
Context (pdf : PdfLib).
Hypothesis lines_of_text : SplitsIntoLines pdf.

Lemma draws_language col columnX columnWidth columnY lang s :
  Draws
    (bind (when (col =? 0)%nat
             (bind (Exporter.checkPageBreak pdf Exporter.languagesLineHeight)
                (fun _ => ret tt)))
       (fun _ =>
        bind (Layout.setFillColor Layout.textColor) (fun _ =>
        bind (Layout.circle columnX (columnY - 1) Exporter.languagesBulletSize)
          (fun _ =>
        bind (Exporter.splitTextToSize pdf (Exporter.languageText lang)
                (columnWidth - 6))
          (fun lines =>
        bind (match lines with
              | [] => throw Exporter.textTypeError
              | first :: _ => Layout.text first (columnX + 4) columnY
              end)
          (fun _ => ret (columnY + Exporter.languagesLineHeight)%Q))))))
    s
    [hd [] (Pdf.splitTextToSize pdf (fontSize s) (style s)
              (Exporter.languageText lang) (columnWidth - 6)%Q)].
Proof.
  change [hd [] ?x] with ([] ++ [] ++ [] ++ [] ++ [hd [] x] ++ []).
  apply draws_bind.
  { destruct (col =? 0)%nat; cbn [when]; [|apply draws_ret].
    apply (draws_bind _ _ _ [] []);
      [apply draws_checkPageBreak|intros; apply draws_ret]. }
  intros u1 s1 E1.
  assert (fontSize s1 = fontSize s /\ style s1 = style s) as [F1 S1].
  { assert (Draws (when (col =? 0)%nat
             (bind (Exporter.checkPageBreak pdf Exporter.languagesLineHeight)
                (fun _ => ret tt))) s []) as (_ & F & S & _).
    { destruct (col =? 0)%nat; cbn [when]; [|apply draws_ret].
      change (@nil jsstring) with (@nil jsstring ++ []).
      apply draws_bind; [apply draws_checkPageBreak|intros; apply draws_ret]. }
    rewrite E1 in F, S. auto. }
  apply draws_bind; [apply (draws_call (SetFillColor _)); exact I|].
  intros u2 s2 E2. injection E2 as <- <-.
  apply draws_bind; [apply (draws_call (Circle _ _ _)); exact I|].
  intros u3 s3 E3. injection E3 as <- <-.
  apply draws_bind.
  { unfold Exporter.splitTextToSize, Layout.splitTextToSize.
    draws_with (@nil op). }
  intros lines s4 E4. injection E4 as <- <-. cbn [fontSize style].
  rewrite F1, S1.
  pose proof (lines_of_text (fontSize s) (style s) (Exporter.languageText lang)
                (columnWidth - 6)%Q (languageText_not_empty lang)) as Hl.
  destruct (Pdf.splitTextToSize pdf _ _ _ _) as [|first rest]; [congruence|].
  cbn [hd]. apply draws_bind; [apply (draws_call (Text _ _ _)); exact I|].
  intros; apply draws_ret.
Qed.

Lemma draws_languagesColumn col columnX columnWidth startY l s :
  Draws (Exporter.languagesColumn pdf col columnX columnWidth startY l) s
    (List.map (fun lang =>
       hd [] (Pdf.splitTextToSize pdf (fontSize s) (style s)
                (Exporter.languageText lang) (columnWidth - 6)%Q)) l).
Proof.
  unfold Exporter.languagesColumn, foldEach. generalize 0%nat at 1.
  revert startY s. induction l as [|lang l IH]; intros columnY s i.
  - apply draws_ret.
  - cbn [foldEachFrom List.map].
    change (?x :: List.map ?f l) with ([x] ++ List.map f l).
    apply draws_bind; [apply draws_language|].
    intros a s1 E.
    pose proof (draws_language col columnX columnWidth columnY lang s)
      as (_ & F & S & _).
    rewrite E in F, S. cbn [snd] in F, S. rewrite <- F, <- S. apply IH.
Qed.

Lemma ceilDiv_3 n : (n <= 3 * ceilDiv n 3)%nat.
Proof.
  unfold ceilDiv.
  set (x := (inject_Z (Z.of_nat n) / inject_Z 3)%Q).
  pose proof (Qle_ceiling x) as H.
  assert (inject_Z (Z.of_nat n) == x * 3)%Q as E by (subst x; field).
  assert (0 <= inject_Z (Z.of_nat n))%Q as P
    by (change 0%Q with (inject_Z 0); rewrite <- Zle_Qle; lia).
  assert (inject_Z 0 <= inject_Z (Qceiling x))%Q as Hpos
    by (change (inject_Z 0) with 0%Q; lra).
  assert (inject_Z (Z.of_nat n) <= inject_Z 3 * inject_Z (Qceiling x))%Q as L
    by (change (inject_Z 3) with 3%Q; lra).
  rewrite <- Zle_Qle in Hpos. rewrite <- inject_Z_mult, <- Zle_Qle in L. lia.
Qed.

Lemma slice_from a k (l : list Exporter.cleanLanguage) :
  slice a (Nat.min (a + k) (List.length l)) l = firstn k (skipn a l).
Proof.
  unfold slice.
  destruct (Nat.le_ge_cases (a + k) (List.length l)) as [H|H].
  - rewrite Nat.min_l by exact H. f_equal. lia.
  - rewrite Nat.min_r by exact H.
    rewrite !firstn_all2; auto; rewrite length_skipn; lia.
Qed.

Lemma three_slices k (l : list Exporter.cleanLanguage) :
  (List.length l <= 3 * k)%nat ->
  firstn k (skipn (0 * k) l) ++ firstn k (skipn (1 * k) l)
  ++ firstn k (skipn (2 * k) l) = l.
Proof.
  intros H. replace (1 * k)%nat with k by lia.
  replace (2 * k)%nat with (k + k)%nat by lia. cbn [Nat.mul skipn].
  rewrite <- (firstn_skipn k l) at 4. f_equal.
  rewrite <- (firstn_skipn k (skipn k l)) at 2. f_equal.
  rewrite skipn_skipn. apply firstn_all2. rewrite length_skipn. lia.
Qed.

(** X24.  The three columns of languages leave no language out and draw
    none twice: when jsPDF cuts every text that is not empty into one line
    at least, the layout ends normally and the texts it draws are, in the
    order of the list, the first line of the text of each language, cut to
    the width of a column. *)
Theorem languages_columns_draw_every_language (languages : list Exporter.cleanLanguage)
    (s : state) :
  let run := Exporter.languagesInColumns pdf languages s in
  fst run = Normal tt /\
  exists emitted,
    ops (snd run) = emitted ++ ops s /\
    textStrings emitted = List.map (languageLabel pdf s) languages.
Proof.
  cbv zeta.
  assert (Draws (Exporter.languagesInColumns pdf languages) s
            (List.map (languageLabel pdf s) languages)) as D.
  { unfold Exporter.languagesInColumns. cbv zeta.
    set (k := ceilDiv (List.length languages) 3).
    set (w := ((Exporter.languagesMaxWidth pdf - 2 * Exporter.languagesColumnGap) / 3)%Q).
    replace (List.map (languageLabel pdf s) languages)
      with (List.map (languageLabel pdf s)
              (firstn k (skipn (0 * k) languages)
               ++ firstn k (skipn (1 * k) languages)
               ++ firstn k (skipn (2 * k) languages)))
      by (rewrite three_slices; [reflexivity|apply ceilDiv_3]).
    rewrite !map_app.
    apply (draws_bind _ _ _ []); [apply draws_getY|].
    intros startY s0 E0. injection E0 as <- <-.
    match goal with |- Draws _ _ ?t => rewrite <- (app_nil_r t) end.
    apply draws_bind; [|intros; apply draws_setY].
    unfold foldEach. cbn [seq foldEachFrom].
    assert (forall col x pos acc s1,
              fontSize s1 = fontSize s -> style s1 = style s ->
              Draws
                (if negb (Layout.nonEmpty
                            (slice (col * k)
                               (Nat.min (col * k + k) (List.length languages))
                               languages))
                 then ret acc
                 else
                   bind (Exporter.languagesColumn pdf col pos w x
                           (slice (col * k)
                              (Nat.min (col * k + k) (List.length languages))
                              languages))
                     (fun columnY => ret (Pdf.max acc (columnY - x)%Q)))
                s1
                (List.map (languageLabel pdf s)
                   (firstn k (skipn (col * k) languages))))
      as Hcol.
    { intros col x pos acc s1 F S. rewrite slice_from.
      destruct (firstn k (skipn (col * k) languages)) as [|lang l] eqn:E;
        cbn [Layout.nonEmpty negb]; [apply draws_ret|].
      rewrite <- (app_nil_r (List.map _ _)).
      apply draws_bind; [|intros; apply draws_ret].
      unfold languageLabel. rewrite <- F, <- S. fold w.
      apply draws_languagesColumn. }
    apply draws_bind; [apply (Hcol 0%nat); reflexivity|].
    intros acc1 s1 E1.
    assert (fontSize s1 = fontSize s /\ style s1 = style s) as [F1 S1].
    { match type of E1 with ?m s = _ =>
        assert (Draws m s (List.map (languageLabel pdf s)
                             (firstn k (skipn (0 * k) languages))))
          as (_ & F & S & _) by (apply (Hcol 0%nat); reflexivity)
      end.
      rewrite E1 in F, S. auto. }
    apply draws_bind; [apply (Hcol 1%nat); assumption|].
    intros acc2 s2 E2.
    assert (fontSize s2 = fontSize s /\ style s2 = style s) as [F2 S2].
    { match type of E2 with ?m s1 = _ =>
        assert (Draws m s1 (List.map (languageLabel pdf s)
                              (firstn k (skipn (1 * k) languages))))
          as (_ & F & S & _) by (apply (Hcol 1%nat); assumption)
      end.
      rewrite E2 in F, S. cbn [snd] in F, S. split; congruence. }
    rewrite <- (app_nil_r (List.map _ _)).
    apply draws_bind; [|intros; apply draws_ret].
    apply (Hcol 2%nat); assumption. }
  destruct D as ((u & N) & _ & _ & D). destruct u. auto.
Qed.

End Columns.

Lemma languages_columns_draw_every_language_witness :
  SplitsIntoLines Sample.a4 /\
  let run := Exporter.languagesInColumns Sample.a4 fourLanguages initial in
  fst run = Normal tt /\
  exists emitted,
    ops (snd run) = emitted ++ ops initial /\
    textStrings emitted = List.map (languageLabel Sample.a4 initial) fourLanguages.
Proof.
  assert (SplitsIntoLines Sample.a4) as H by (intros size st t w _; discriminate).
  split; [exact H|].
  apply (languages_columns_draw_every_language Sample.a4 H fourLanguages initial).
Defined.

End ColumnFacts.
